(** * ScanningProbeLogic: settings store, scan history and acquisition
      state machine of qudi/logic/scanning_probe_logic.py

    The Python class [ScanningProbeLogic] is embedded as a record [Logic]
    holding the attributes of [self], and every slot of the class becomes a
    computation in a small state / trace / exception monad [M]:
    a computation receives the object, and yields the mutated object, the
    signals and log records it emitted (in order) and either the returned
    value or the Python exception that escaped.  A mutation that happened
    before an exception or an early [return] is kept, as in Python.

    Numbers: Python [int] is [Z]; Python [float] is modelled by the
    rationals [Q] with the numeric comparisons [Py.Qltb] and [Qeq_bool]
    (no rounding, no NaN; where a float is turned into an integer number of
    milliseconds the statements below fix that integer only up to the
    rounding, see [within_a_millisecond]); [np.inf] and [-np.inf], which occur
    only as loop seeds in [set_scan_frequency], live in [ExtQ]. *)

From Stdlib Require Import ZArith QArith Qround Qabs String List Lia Lqa.
From stdpp Require Import base option list gmap strings fin_maps.

Open Scope string_scope.
Open Scope Z_scope.

(** ** Python numerics *)

Module Py.

Definition Qltb (a b : Q) : bool :=
  match Qcompare a b with Lt => true | _ => false end.

(** [min(a, b)]: the first argument unless the second is smaller. *)
Definition min (a b : Q) : Q := if Qltb b a then b else a.

(** [max(a, b)]: the first argument unless the second is larger. *)
Definition max (a b : Q) : Q := if Qltb a b then b else a.

(** [round(x)] with one argument: nearest integer, ties to even. *)
Definition round (x : Q) : Z :=
  let f := Qfloor x in
  match Qcompare (x - inject_Z f) (1 # 2) with
  | Lt => f
  | Gt => f + 1
  | Eq => if Z.even f then f else f + 1
  end.

(** [l[i]] on a list: negative indices count from the end; [None] stands
    for [IndexError]. *)
Definition index {A : Type} (l : list A) (i : Z) : option A :=
  let n := Z.of_nat (length l) in
  if 0 <=? i then nth_error l (Z.to_nat i)
  else if - n <=? i then nth_error l (Z.to_nat (n + i))
  else None.

(** [np.inf], [-np.inf] and the finite floats. *)
Inductive ExtQ : Type :=
| NegInf
| Fin (q : Q)
| PosInf.

(** [a < e] for a finite [a]. *)
Definition lt_ext (a : Q) (e : ExtQ) : bool :=
  match e with
  | NegInf => false
  | Fin q => Qltb a q
  | PosInf => true
  end.

(** [a > e] for a finite [a]. *)
Definition gt_ext (a : Q) (e : ExtQ) : bool :=
  match e with
  | NegInf => true
  | Fin q => Qltb q a
  | PosInf => false
  end.

(** [lo <= x <= hi] with a finite [x]. *)
Definition between (lo : ExtQ) (x : Q) (hi : ExtQ) : bool :=
  negb (lt_ext x lo) && negb (gt_ext x hi).

End Py.

(** ** Data model *)

(** The attributes of [ScannerAxis] (qudi.interface.scanning_probe_interface)
    that the logic reads. *)
Record ScannerAxis : Type := mkAxis {
  min_value : Q;
  max_value : Q;
  min_resolution : Z;
  max_resolution : Z;
  min_frequency : Q;
  max_frequency : Q
}.

(** The attributes of [ScanData] that the logic reads; [data_tag] stands for
    the sample arrays. *)
Record ScanData : Type := mkScanData {
  scan_axes : list string;
  scan_range : list (Q * Q);
  scan_resolution : list Z;
  scan_frequency : Q;
  is_finished : bool;
  data_tag : nat
}.

(** The settings dictionary exchanged with [configure_scan]. *)
Record ScanSettings : Type := mkSettings {
  st_axes : list string;
  st_range : list (Q * Q);
  st_resolution : list Z;
  st_frequency : Q
}.

(** The answers of the hardware module during one slot call. *)
Record Scanner : Type := mkScanner {
  axes : gmap string ScannerAxis;
  configure_scan : ScanSettings -> ScanSettings;
  start_scan : Z;
  stop_scan : Z;
  get_scan_data : ScanData
}.

Inductive ModuleState : Type := idle | locked.

Inductive TimerSlot : Type :=
| update_scanner_position_loop_slot
| scan_loop_slot
| disconnected.

Record Timer : Type := mkTimer {
  timeout_slot : TimerSlot;
  interval : Z;
  single_shot : bool;
  active : bool
}.

(** [self]. *)
Record Logic : Type := mkLogic {
  module_state : ModuleState;
  _scan_ranges : gmap string (Q * Q);
  _scan_resolution : gmap string Z;
  _scan_frequency : Q;
  _scan_history : list ScanData;
  _curr_history_index : Z;
  _max_history_length : Z;
  _max_scan_update_interval : Q;
  _min_scan_update_interval : Q;
  _position_update_interval : Q;
  __current_scan : option (list string);
  __scan_update_interval : Q;
  __timer : Timer
}.

(** The payload of [sigScanSettingsChanged]: a dictionary with any of the
    keys 'range', 'resolution' and 'frequency'. *)
Record SettingsDict : Type := mkDict {
  d_range : option (gmap string (Q * Q));
  d_resolution : option (gmap string Z);
  d_frequency : option Q
}.

Inductive LogMsg : Type :=
| ScanRunningRanges
| ScanRunningResolution
| ScanRunningFrequency
| UnknownAxis (ax : string)
| FrequencyOutOfBounds (lo hi : Py.ExtQ)
| AxesMustBeLen1or2
| AxesMismatch (got : list string) (want : option (list string))
| UnableToStartScanner
| UnableToStopScanWaiting
| UnableToStopScan
| ScanRunningHistory
| HistoryIndexOutOfRange (i : Z)
| AtEarliestHistoryEntry
| AtLatestHistoryEntry
| ScannerStarted
| TimerStopped
| TimerConnected
| StartingScanTimer.

Inductive Event : Type :=
| log_warning (m : LogMsg)
| log_error (m : LogMsg)
| log_debug (m : LogMsg)
| sigScanSettingsChanged (d : SettingsDict)
| sigScanStateChanged (running : bool) (scan : option (list string))
| sigScanDataChanged (d : ScanData)
| printed (d : SettingsDict).

Inductive PyExn : Type :=
| KeyError (k : string)
| IndexError
| ZeroDivisionError.

(** ** The monad of slot bodies *)

Inductive Completion (A : Type) : Type :=
| Returned (a : A)
| Raised (e : PyExn).
Arguments Returned {A} a.
Arguments Raised {A} e.

Record Run (A : Type) : Type := mkRun {
  final : Logic;
  emitted : list Event;
  completion : Completion A
}.
Arguments mkRun {A} final emitted completion.
Arguments final {A} r.
Arguments emitted {A} r.
Arguments completion {A} r.

Definition M (A : Type) : Type := Logic -> Run A.

Definition ret {A : Type} (a : A) : M A :=
  fun self => mkRun self [] (Returned a).

Definition raise {A : Type} (e : PyExn) : M A :=
  fun self => mkRun self [] (Raised e).

Definition bind {A B : Type} (c : M A) (k : A -> M B) : M B :=
  fun self =>
    let r := c self in
    match completion r with
    | Returned a =>
        let r' := k a (final r) in
        mkRun (final r') (emitted r ++ emitted r') (completion r')
    | Raised e => mkRun (final r) (emitted r) (Raised e)
    end.

Notation "'do' x <- c ; k" := (bind c (fun x => k))
  (at level 10, x name, c at level 100, k at level 200).
Notation "c ;; k" := (bind c (fun _ => k))
  (at level 100, k at level 200, right associativity).

Definition get : M Logic := fun self => mkRun self [] (Returned self).
Definition modify (f : Logic -> Logic) : M unit :=
  fun self => mkRun (f self) [] (Returned tt).
Definition emit (e : Event) : M unit :=
  fun self => mkRun self [e] (Returned tt).

(** A failed subscript ([d[k]], [l[i]]) raises. *)
Definition subscript {A : Type} (o : option A) (e : PyExn) : M A :=
  match o with
  | Some a => ret a
  | None => raise e
  end.

(** Attribute assignment on [self]. *)
Definition with_module_state (v : ModuleState) (s : Logic) : Logic :=
  mkLogic v (_scan_ranges s) (_scan_resolution s) (_scan_frequency s)
    (_scan_history s) (_curr_history_index s) (_max_history_length s)
    (_max_scan_update_interval s) (_min_scan_update_interval s)
    (_position_update_interval s) (__current_scan s)
    (__scan_update_interval s) (__timer s).

Definition with_scan_ranges (v : gmap string (Q * Q)) (s : Logic) : Logic :=
  mkLogic (module_state s) v (_scan_resolution s) (_scan_frequency s)
    (_scan_history s) (_curr_history_index s) (_max_history_length s)
    (_max_scan_update_interval s) (_min_scan_update_interval s)
    (_position_update_interval s) (__current_scan s)
    (__scan_update_interval s) (__timer s).

Definition with_scan_resolution (v : gmap string Z) (s : Logic) : Logic :=
  mkLogic (module_state s) (_scan_ranges s) v (_scan_frequency s)
    (_scan_history s) (_curr_history_index s) (_max_history_length s)
    (_max_scan_update_interval s) (_min_scan_update_interval s)
    (_position_update_interval s) (__current_scan s)
    (__scan_update_interval s) (__timer s).

Definition with_scan_frequency (v : Q) (s : Logic) : Logic :=
  mkLogic (module_state s) (_scan_ranges s) (_scan_resolution s) v
    (_scan_history s) (_curr_history_index s) (_max_history_length s)
    (_max_scan_update_interval s) (_min_scan_update_interval s)
    (_position_update_interval s) (__current_scan s)
    (__scan_update_interval s) (__timer s).

Definition with_scan_history (v : list ScanData) (s : Logic) : Logic :=
  mkLogic (module_state s) (_scan_ranges s) (_scan_resolution s)
    (_scan_frequency s) v (_curr_history_index s) (_max_history_length s)
    (_max_scan_update_interval s) (_min_scan_update_interval s)
    (_position_update_interval s) (__current_scan s)
    (__scan_update_interval s) (__timer s).

Definition with_curr_history_index (v : Z) (s : Logic) : Logic :=
  mkLogic (module_state s) (_scan_ranges s) (_scan_resolution s)
    (_scan_frequency s) (_scan_history s) v (_max_history_length s)
    (_max_scan_update_interval s) (_min_scan_update_interval s)
    (_position_update_interval s) (__current_scan s)
    (__scan_update_interval s) (__timer s).

Definition with_current_scan (v : option (list string)) (s : Logic) : Logic :=
  mkLogic (module_state s) (_scan_ranges s) (_scan_resolution s)
    (_scan_frequency s) (_scan_history s) (_curr_history_index s)
    (_max_history_length s) (_max_scan_update_interval s)
    (_min_scan_update_interval s) (_position_update_interval s) v
    (__scan_update_interval s) (__timer s).

Definition with_scan_update_interval (v : Q) (s : Logic) : Logic :=
  mkLogic (module_state s) (_scan_ranges s) (_scan_resolution s)
    (_scan_frequency s) (_scan_history s) (_curr_history_index s)
    (_max_history_length s) (_max_scan_update_interval s)
    (_min_scan_update_interval s) (_position_update_interval s)
    (__current_scan s) v (__timer s).

Definition with_timer (v : Timer) (s : Logic) : Logic :=
  mkLogic (module_state s) (_scan_ranges s) (_scan_resolution s)
    (_scan_frequency s) (_scan_history s) (_curr_history_index s)
    (_max_history_length s) (_max_scan_update_interval s)
    (_min_scan_update_interval s) (_position_update_interval s)
    (__current_scan s) (__scan_update_interval s) v.

Definition range_dict (r : gmap string (Q * Q)) : SettingsDict :=
  mkDict (Some r) None None.
Definition resolution_dict (r : gmap string Z) : SettingsDict :=
  mkDict None (Some r) None.
Definition frequency_dict (f : Q) : SettingsDict :=
  mkDict None None (Some f).

(** ** Scan settings store *)

(** [{ax: r for ax, r in d.items() if ax in keys}] *)
Definition restrict {V : Type} (keys : list string) (d : gmap string V)
  : gmap string V :=
  filter (fun kv => kv.1 ∈ keys) d.

(** Lines 231-236: both bounds clipped into the value range of the axis,
    then the upper bound raised to the lower one if they crossed. *)
Definition clipped_range (c : ScannerAxis) (ax_range : Q * Q) : Q * Q :=
  let new_range :=
    (Py.min (max_value c) (Py.max (min_value c) ax_range.1),
     Py.min (max_value c) (Py.max (min_value c) ax_range.2)) in
  if Py.Qltb new_range.2 new_range.1
  then (new_range.1, new_range.1)
  else new_range.

(** The [for] loop of [set_scan_range]; [Some r] is the early [return r]. *)
Fixpoint set_scan_range_loop (ax_constr : gmap string ScannerAxis)
    (items : list (string * (Q * Q))) : M (option (gmap string (Q * Q))) :=
  match items with
  | [] => ret None
  | (ax, ax_range) :: rest =>
      do self <- get;
      match _scan_ranges self !! ax with
      | None =>
          emit (log_error (UnknownAxis ax));;
          let new_ranges := _scan_ranges self in
          emit (sigScanSettingsChanged (range_dict new_ranges));;
          ret (Some new_ranges)
      | Some _ =>
          do c <- subscript (ax_constr !! ax) (KeyError ax);
          modify (fun s =>
            with_scan_ranges (<[ax := clipped_range c ax_range]> (_scan_ranges s)) s);;
          set_scan_range_loop ax_constr rest
      end
  end.

Definition set_scan_range (scanner : Scanner)
    (ranges : list (string * (Q * Q))) : M (gmap string (Q * Q)) :=
  do self <- get;
  match module_state self with
  | locked =>
      emit (log_warning ScanRunningRanges);;
      let new_ranges := _scan_ranges self in
      emit (sigScanSettingsChanged (range_dict new_ranges));;
      ret new_ranges
  | idle =>
      do early <- set_scan_range_loop (axes scanner) ranges;
      match early with
      | Some new_ranges => ret new_ranges
      | None =>
          do self <- get;
          let new_ranges := restrict ranges.*1 (_scan_ranges self) in
          emit (sigScanSettingsChanged (range_dict new_ranges));;
          ret new_ranges
      end
  end.

Definition clipped_resolution (c : ScannerAxis) (ax_res : Z) : Z :=
  Z.min (max_resolution c) (Z.max (min_resolution c) ax_res).

Fixpoint set_scan_resolution_loop (ax_constr : gmap string ScannerAxis)
    (items : list (string * Z)) : M (option (gmap string Z)) :=
  match items with
  | [] => ret None
  | (ax, ax_res) :: rest =>
      do self <- get;
      match _scan_resolution self !! ax with
      | None =>
          emit (log_error (UnknownAxis ax));;
          let new_res := _scan_resolution self in
          emit (sigScanSettingsChanged (resolution_dict new_res));;
          ret (Some new_res)
      | Some _ =>
          do c <- subscript (ax_constr !! ax) (KeyError ax);
          modify (fun s =>
            with_scan_resolution
              (<[ax := clipped_resolution c ax_res]> (_scan_resolution s)) s);;
          set_scan_resolution_loop ax_constr rest
      end
  end.

Definition set_scan_resolution (scanner : Scanner)
    (resolution : list (string * Z)) : M (gmap string Z) :=
  do self <- get;
  match module_state self with
  | locked =>
      emit (log_warning ScanRunningResolution);;
      let new_res := _scan_resolution self in
      emit (sigScanSettingsChanged (resolution_dict new_res));;
      ret new_res
  | idle =>
      do early <- set_scan_resolution_loop (axes scanner) resolution;
      match early with
      | Some new_res => ret new_res
      | None =>
          do self <- get;
          let new_resolution := restrict resolution.*1 (_scan_resolution self) in
          emit (sigScanSettingsChanged (resolution_dict new_resolution));;
          ret new_resolution
      end
  end.

(** One pass of the loop of lines 279-283 over an axis. *)
Definition frequency_bounds_step (acc : Py.ExtQ * Py.ExtQ) (axis : ScannerAxis)
  : Py.ExtQ * Py.ExtQ :=
  let min_freq :=
    if Py.lt_ext (min_frequency axis) acc.1
    then Py.Fin (min_frequency axis) else acc.1 in
  let max_freq :=
    if Py.gt_ext (max_frequency axis) acc.2
    then Py.Fin (max_frequency axis) else acc.2 in
  (min_freq, max_freq).

Definition frequency_bounds (values : list ScannerAxis) : Py.ExtQ * Py.ExtQ :=
  fold_left frequency_bounds_step values (Py.PosInf, Py.NegInf).

(** [axes.values()] *)
Definition values {V : Type} (d : gmap string V) : list V :=
  (map_to_list d).*2.

Definition set_scan_frequency (scanner : Scanner) (frequency : Q) : M Q :=
  do self <- get;
  match module_state self with
  | locked =>
      emit (log_warning ScanRunningFrequency);;
      emit (sigScanSettingsChanged (frequency_dict (_scan_frequency self)));;
      ret (_scan_frequency self)
  | idle =>
      let (min_freq, max_freq) := frequency_bounds (values (axes scanner)) in
      (if Py.between min_freq frequency max_freq
       then modify (with_scan_frequency frequency)
       else emit (log_error (FrequencyOutOfBounds min_freq max_freq)));;
      do self <- get;
      emit (sigScanSettingsChanged (frequency_dict (_scan_frequency self)));;
      ret (_scan_frequency self)
  end.

(** ** Timer *)

(** [self._stop_timer()] and [self._start_timer()]: the private signals are
    connected to [QTimer.stop] and [QTimer.start]. *)
Definition _stop_timer : M unit :=
  modify (fun s =>
    let t := __timer s in
    with_timer (mkTimer (timeout_slot t) (interval t) (single_shot t) false) s).

Definition _start_timer : M unit :=
  modify (fun s =>
    let t := __timer s in
    with_timer (mkTimer (timeout_slot t) (interval t) (single_shot t) true) s).

(** [int(round(seconds * 1000))], with the product taken in the rationals:
    the float product of the code can fall on the other side of a tie, so
    this integer and the one of the code may differ by one. *)
Definition milliseconds (seconds : Q) : Z := Py.round (seconds * 1000).

(** [timeout.disconnect()], [setSingleShot(True)], [setInterval(..)],
    [timeout.connect(slot)] *)
Definition retarget_timer (slot : TimerSlot) (seconds : Q) : M unit :=
  modify (fun s =>
    with_timer (mkTimer slot (milliseconds seconds) true (active (__timer s))) s).

(** ** Scan history *)

(** [while len(self._scan_history) >= self._max_history_length:
        self._scan_history.pop(0)]
    [h] is the current content of [self._scan_history]; popping from the
    empty list raises. *)
Fixpoint evict_loop (max_len : Z) (h : list ScanData) : M unit :=
  if Z.of_nat (length h) >=? max_len then
    match h with
    | [] => raise IndexError
    | _ :: t => modify (with_scan_history t);; evict_loop max_len t
    end
  else ret tt.

(** Lines 434-437 and 474-477. *)
Definition append_to_history (scan_data : ScanData) : M unit :=
  do self <- get;
  evict_loop (_max_history_length self) (_scan_history self);;
  modify (fun s => with_scan_history (_scan_history s ++ [scan_data]) s);;
  modify (fun s =>
    with_curr_history_index (Z.of_nat (length (_scan_history s)) - 1) s).

(** ** Acquisition state machine *)

Definition is_idle (m : ModuleState) : bool :=
  match m with idle => true | locked => false end.

(** [tuple(d[ax] for ax in scan_axes)] *)
Fixpoint lookup_all {V : Type} (d : gmap string V) (scan_axes : list string)
  : M (list V) :=
  match scan_axes with
  | [] => ret []
  | ax :: rest =>
      do v <- subscript (d !! ax) (KeyError ax);
      do vs <- lookup_all d rest;
      ret (v :: vs)
  end.

(** The loop of lines 385-399. *)
Fixpoint reconcile_loop (new_settings : ScanSettings) (ax_index : nat)
    (scan_axes : list string) : M unit :=
  match scan_axes with
  | [] => ret tt
  | ax :: rest =>
      do self <- get;
      do old <- subscript (_scan_ranges self !! ax) (KeyError ax);
      do new <- subscript (st_range new_settings !! ax_index) IndexError;
      (if negb (Qeq_bool old.1 new.1) || negb (Qeq_bool old.2 new.2)
       then
         modify (fun s => with_scan_ranges (<[ax := new]> (_scan_ranges s)) s);;
         emit (sigScanSettingsChanged (range_dict {[ax := new]}))
       else ret tt);;
      do self <- get;
      do old <- subscript (_scan_resolution self !! ax) (KeyError ax);
      do new <- subscript (st_resolution new_settings !! ax_index) IndexError;
      (if negb (old =? new)
       then
         modify (fun s =>
           with_scan_resolution (<[ax := new]> (_scan_resolution s)) s);;
         emit (sigScanSettingsChanged (resolution_dict {[ax := new]}))
       else ret tt);;
      reconcile_loop new_settings (S ax_index) rest
  end.

(** Lines 407-411. *)
Definition compute_update_interval (scan_axes : list string) : M unit :=
  do self <- get;
  do line_points <-
    (if 1 <? Z.of_nat (length scan_axes)
     then
       do ax0 <- subscript (scan_axes !! 0%nat) IndexError;
       subscript (_scan_resolution self !! ax0) (KeyError ax0)
     else ret 1);
  if Qeq_bool (_scan_frequency self) 0 then raise ZeroDivisionError
  else
    modify (with_scan_update_interval
      (Py.max (_min_scan_update_interval self)
         (Py.min (_max_scan_update_interval self)
            (inject_Z line_points / _scan_frequency self)))).

Definition start_branch (scanner : Scanner) (scan_axes : option (list string))
  : M Z :=
  match scan_axes with
  | None => emit (log_error AxesMustBeLen1or2);; ret (-1)
  | Some scan_axes =>
      let len := Z.of_nat (length scan_axes) in
      if negb ((0 <? len) && (len <? 3))
      then emit (log_error AxesMustBeLen1or2);; ret (-1)
      else
        modify (with_module_state locked);;
        modify (with_current_scan (Some scan_axes));;
        do self <- get;
        do ranges <- lookup_all (_scan_ranges self) scan_axes;
        do resolutions <- lookup_all (_scan_resolution self) scan_axes;
        let settings :=
          mkSettings scan_axes ranges resolutions (_scan_frequency self) in
        let new_settings := configure_scan scanner settings in
        if negb (bool_decide (Some (st_axes new_settings) = __current_scan self))
        then
          emit (log_error
                  (AxesMismatch (st_axes new_settings) (__current_scan self)));;
          modify (with_module_state idle);;
          emit (sigScanStateChanged false (__current_scan self));;
          ret (-1)
        else
          reconcile_loop new_settings 0 scan_axes;;
          do self <- get;
          (if negb (Qeq_bool (_scan_frequency self) (st_frequency new_settings))
           then
             modify (with_scan_frequency (st_frequency new_settings));;
             emit (sigScanSettingsChanged
                     (frequency_dict (st_frequency new_settings)))
           else ret tt);;
          compute_update_interval scan_axes;;
          if start_scan scanner <? 0
          then
            emit (log_error UnableToStartScanner);;
            modify (with_module_state idle);;
            do self <- get;
            emit (sigScanStateChanged false (__current_scan self));;
            ret (-1)
          else
            emit (log_debug ScannerStarted);;
            _stop_timer;;
            emit (log_debug TimerStopped);;
            do self <- get;
            retarget_timer scan_loop_slot (__scan_update_interval self);;
            emit (log_debug TimerConnected);;
            emit (sigScanStateChanged true (__current_scan self));;
            emit (log_debug StartingScanTimer);;
            _start_timer;;
            ret 0
  end.

Definition stop_branch (scanner : Scanner) : M Z :=
  let scan_data := get_scan_data scanner in
  append_to_history scan_data;;
  emit (sigScanDataChanged scan_data);;
  do self <- get;
  if stop_scan scanner <? 0
  then
    emit (log_error UnableToStopScanWaiting);;
    emit (sigScanStateChanged true (__current_scan self));;
    ret (-1)
  else
    _stop_timer;;
    retarget_timer update_scanner_position_loop_slot
      (_position_update_interval self);;
    modify (with_module_state idle);;
    emit (sigScanStateChanged false (__current_scan self));;
    _start_timer;;
    ret 0.

Definition toggle_scan (scanner : Scanner) (start : bool)
    (scan_axes : option (list string)) : M Z :=
  do self <- get;
  if start && negb (is_idle (module_state self))
  then emit (sigScanStateChanged true (__current_scan self));; ret 0
  else if negb start && is_idle (module_state self)
  then emit (sigScanStateChanged true (__current_scan self));; ret 0
  else if start then start_branch scanner scan_axes
  else stop_branch scanner.

Definition _scan_loop (scanner : Scanner) : M unit :=
  do self <- get;
  if is_idle (module_state self) then ret tt
  else
    let scan_data := get_scan_data scanner in
    (if is_finished scan_data
     then
       (if stop_scan scanner <? 0
        then emit (log_error UnableToStopScan) else ret tt);;
       _stop_timer;;
       retarget_timer update_scanner_position_loop_slot
         (_position_update_interval self);;
       modify (with_module_state idle);;
       emit (sigScanStateChanged false (__current_scan self));;
       append_to_history scan_data;;
       _start_timer
     else ret tt);;
    emit (sigScanDataChanged scan_data);;
    _start_timer.

(** ** History navigation *)

Section Restore.

(** [ScannerAxis.clip_value] and [ScannerAxis.clip_resolution] are methods
    of the interface module; the logic only calls them. *)
Variable clip_value : ScannerAxis -> Q -> Q.
Variable clip_resolution : ScannerAxis -> Z -> Z.

(** The loop of lines 518-522. *)
Fixpoint restore_loop (ax_constr : gmap string ScannerAxis) (data : ScanData)
    (i : nat) (scan_axes : list string) : M unit :=
  match scan_axes with
  | [] => ret tt
  | ax :: rest =>
      do constr <- subscript (ax_constr !! ax) (KeyError ax);
      do res <- subscript (scan_resolution data !! i) IndexError;
      modify (fun s =>
        with_scan_resolution
          (<[ax := clip_resolution constr res]> (_scan_resolution s)) s);;
      do rng <- subscript (scan_range data !! i) IndexError;
      modify (fun s =>
        with_scan_ranges
          (<[ax := (clip_value constr rng.1, clip_value constr rng.2)]>
             (_scan_ranges s)) s);;
      restore_loop ax_constr data (S i) rest
  end.

Definition full_dict (s : Logic) : SettingsDict :=
  mkDict (Some (_scan_ranges s)) (Some (_scan_resolution s))
    (Some (_scan_frequency s)).

Definition restore_from_history (scanner : Scanner) (index : Z) : M unit :=
  do self <- get;
  if negb (is_idle (module_state self))
  then emit (log_error ScanRunningHistory)
  else
    match Py.index (_scan_history self) index with
    | None => emit (log_error (HistoryIndexOutOfRange index))
    | Some data =>
        restore_loop (axes scanner) data 0 (scan_axes data);;
        modify (with_scan_frequency (scan_frequency data));;
        modify (with_curr_history_index index);;
        do self <- get;
        emit (printed (full_dict self));;
        emit (sigScanSettingsChanged (full_dict self));;
        emit (sigScanDataChanged data)
    end.

Definition history_previous (scanner : Scanner) : M unit :=
  do self <- get;
  if _curr_history_index self <? 1
  then emit (log_warning AtEarliestHistoryEntry)
  else restore_from_history scanner (_curr_history_index self - 1).

Definition history_next (scanner : Scanner) : M unit :=
  do self <- get;
  if _curr_history_index self >=? Z.of_nat (length (_scan_history self)) - 1
  then emit (log_warning AtLatestHistoryEntry)
  else restore_from_history scanner (_curr_history_index self + 1).

End Restore.

(** ** Further slots and properties of the class *)

(** The argument of [set_scan_settings]: a dictionary that may hold the keys
    'range', 'resolution' and 'frequency'. *)
Record SettingsRequest : Type := mkRequest {
  rq_range : option (list (string * (Q * Q)));
  rq_resolution : option (list (string * Z));
  rq_frequency : option Q
}.

(** Lines 205-212. *)
Definition set_scan_settings (scanner : Scanner) (settings : SettingsRequest)
  : M unit :=
  (match rq_range settings with
   | Some ranges => set_scan_range scanner ranges;; ret tt
   | None => ret tt
   end);;
  (match rq_resolution settings with
   | Some resolution => set_scan_resolution scanner resolution;; ret tt
   | None => ret tt
   end);;
  match rq_frequency settings with
  | Some frequency => set_scan_frequency scanner frequency;; ret tt
  | None => ret tt
  end.

(** The property [scan_data], lines 149-154. *)
Definition scan_data (scanner : Scanner) : M ScanData :=
  do self <- get;
  if negb (is_idle (module_state self))
     || bool_decide (_scan_history self = [])
  then ret (get_scan_data scanner)
  else subscript (Py.index (_scan_history self) (_curr_history_index self))
         IndexError.

(** * Specification-level notions and sample configurations *)

(** Clipping [v] into the interval from [lo] to [hi], as the specification
    words it. *)
Definition clip_into (lo hi v : Q) : Q :=
  if Py.Qltb v lo then lo else if Py.Qltb hi v then hi else v.

(** [ms] is the whole number of milliseconds of [seconds] as
    [int(round(seconds * 1000))] yields it: off by at most the half unit of the
    rounding and the error of the float product (a relative 2^-53), which
    together stay below one unit plus a relative 2^-52. *)
Definition within_a_millisecond (ms : Z) (seconds : Q) : Prop :=
  (Qabs (inject_Z ms - seconds * 1000)
   <= 1 + Qabs (seconds * 1000) / inject_Z (2 ^ 52))%Q.

(** [f] lies in the frequency interval of every axis of the scanner. *)
Definition in_every_frequency_interval (scanner : Scanner) (f : Q) : Prop :=
  forall ax c, axes scanner !! ax = Some c ->
               (min_frequency c <= f)%Q /\ (f <= max_frequency c)%Q.

(** [f] lies between the smallest min_frequency and the largest
    max_frequency found among the axes of the scanner. *)
Definition in_frequency_envelope (scanner : Scanner) (f : Q) : Prop :=
  (exists ax c, axes scanner !! ax = Some c /\ (min_frequency c <= f)%Q)
  /\ (exists ax c, axes scanner !! ax = Some c /\ (f <= max_frequency c)%Q).

(** [e <= x] and [x <= e] for a finite [x], as propositions. *)
Definition ext_le_fin (e : Py.ExtQ) (x : Q) : Prop :=
  match e with
  | Py.NegInf => True
  | Py.Fin q => (q <= x)%Q
  | Py.PosInf => False
  end.

Definition fin_le_ext (x : Q) (e : Py.ExtQ) : Prop :=
  match e with
  | Py.NegInf => False
  | Py.Fin q => (x <= q)%Q
  | Py.PosInf => True
  end.

(** The state after lines 434-437 (and 474-477) when there is room for a
    frame. *)
Definition appended (scan_data : ScanData) (s : Logic) : Logic :=
  let h := (drop (Z.to_nat (Z.of_nat (length (_scan_history s))
                           - _max_history_length s + 1)) (_scan_history s)
           ++ [scan_data])%list in
  with_curr_history_index (Z.of_nat (length h) - 1) (with_scan_history h s).

(** Two states with the same module state and the same configured bounds
    of the scan update interval. *)
Definition same_mode (s s' : Logic) : Prop :=
  module_state s' = module_state s
  /\ _min_scan_update_interval s' = _min_scan_update_interval s
  /\ _max_scan_update_interval s' = _max_scan_update_interval s.

(** A computation that touches neither of them, however it completes. *)
Definition keeps_mode {A : Type} (c : M A) : Prop :=
  forall s : Logic, same_mode s (final (c s)).

Module Sample.

Definition axis01 : ScannerAxis := mkAxis 0 1 1 1000 1 1000.

Definition frame (tag : nat) (frequency : Q) (finished : bool) : ScanData :=
  mkScanData ["x"; "y"] [(0, 1)%Q; (0, 1)%Q] [50; 50] frequency finished tag.

(** A scanner that accepts every configuration as requested. *)
Definition scanner_xy : Scanner :=
  mkScanner {[ "x" := axis01; "y" := axis01 ]} (fun settings => settings)
    0 0 (frame 7 100 false).

(** The same scanner refusing to stop. *)
Definition scanner_stuck : Scanner :=
  mkScanner {[ "x" := axis01; "y" := axis01 ]} (fun settings => settings)
    0 (-1) (frame 7 100 false).

(** The same scanner with a finished frame. *)
Definition scanner_done : Scanner :=
  mkScanner {[ "x" := axis01; "y" := axis01 ]} (fun settings => settings)
    0 0 (frame 8 100 true).

(** Two axes whose frequency intervals are [1, 10] and [5, 100]. *)
Definition scanner_two_bands : Scanner :=
  mkScanner {[ "x" := mkAxis 0 1 1 1000 1 10;
               "y" := mkAxis 0 1 1 1000 5 100 ]}
    (fun settings => settings) 0 0 (frame 7 100 false).

Definition idle_timer : Timer :=
  mkTimer update_scanner_position_loop_slot 1000 true true.

Definition logic_idle : Logic :=
  mkLogic idle {[ "x" := (0, 1)%Q; "y" := (0, 1)%Q ]}
    {[ "x" := 50; "y" := 50 ]} 100 [] 0 10 5 (1 # 4) 1 None 0 idle_timer.

Definition logic_running : Logic :=
  mkLogic locked {[ "x" := (0, 1)%Q; "y" := (0, 1)%Q ]}
    {[ "x" := 50; "y" := 50 ]} 100 [frame 1 100 true; frame 2 100 true] 1 2
    5 (1 # 4) 1 (Some ["x"; "y"]) (1 # 2)
    (mkTimer scan_loop_slot 500 true true).

(** Idle, with two frames in the history and the cursor on the first. *)
Definition logic_with_history : Logic :=
  mkLogic idle {[ "x" := (0, 1)%Q; "y" := (0, 1)%Q ]}
    {[ "x" := 50; "y" := 50 ]} 100 [frame 1 10 true; frame 2 20 true] 0 10
    5 (1 # 4) 1 (Some ["x"; "y"]) (1 # 2) idle_timer.

End Sample.

(** A computation that leaves the part [proj] of the object as it found it,
    however it completes. *)
Definition keeps {A B : Type} (proj : Logic -> B) (c : M A) : Prop :=
  forall s : Logic, proj (final (c s)) = proj s.

(** Everything on the object but the scan ranges, but the scan resolution,
    and but the scan frequency. *)
Definition besides_ranges (s : Logic) :=
  (module_state s, _scan_resolution s, _scan_frequency s, _scan_history s,
   _curr_history_index s, _max_history_length s, _max_scan_update_interval s,
   _min_scan_update_interval s, _position_update_interval s,
   __current_scan s, __scan_update_interval s, __timer s).

Definition besides_resolution (s : Logic) :=
  (module_state s, _scan_ranges s, _scan_frequency s, _scan_history s,
   _curr_history_index s, _max_history_length s, _max_scan_update_interval s,
   _min_scan_update_interval s, _position_update_interval s,
   __current_scan s, __scan_update_interval s, __timer s).

Definition besides_frequency (s : Logic) :=
  (module_state s, _scan_ranges s, _scan_resolution s, _scan_history s,
   _curr_history_index s, _max_history_length s, _max_scan_update_interval s,
   _min_scan_update_interval s, _position_update_interval s,
   __current_scan s, __scan_update_interval s, __timer s).

(** The history with its cursor and the configuration options. *)
Definition history_and_options (s : Logic) :=
  (_scan_history s, _curr_history_index s, _max_history_length s,
   _max_scan_update_interval s, _min_scan_update_interval s,
   _position_update_interval s).

(** A frame whose axes all have constraints and whose per-axis tuples are
    as long as its axes tuple. *)
Definition restorable (scanner : Scanner) (data : ScanData) : Prop :=
  (forall ax, ax ∈ scan_axes data -> is_Some (axes scanner !! ax))
  /\ (length (scan_axes data) <= length (scan_resolution data))%nat
  /\ (length (scan_axes data) <= length (scan_range data))%nat.

(** Further sample configurations. *)
Module Bench.

(** A scanner that has constraints for x only. *)
Definition scanner_only_x : Scanner :=
  mkScanner {[ "x" := Sample.axis01 ]} (fun settings => settings)
    0 0 (Sample.frame 7 100 false).

(** A scanner without axes. *)
Definition scanner_no_axes : Scanner :=
  mkScanner ∅ (fun settings => settings) 0 0 (Sample.frame 7 100 false).


(** A scanner whose start_scan fails. *)
Definition scanner_refusing_start : Scanner :=
  mkScanner {[ "x" := Sample.axis01; "y" := Sample.axis01 ]}
    (fun settings => settings) (-1) 0 (Sample.frame 7 100 false).

(** Idle, with a scan frequency of zero. *)
Definition logic_zero_frequency : Logic :=
  mkLogic idle {[ "x" := (0, 1)%Q; "y" := (0, 1)%Q ]}
    {[ "x" := 50; "y" := 50 ]} 0 [] 0 10 5 (1 # 4) 1 None 0 Sample.idle_timer.


(** Running, with a history that has no room for any frame. *)
Definition logic_running_without_room : Logic :=
  mkLogic locked {[ "x" := (0, 1)%Q; "y" := (0, 1)%Q ]}
    {[ "x" := 50; "y" := 50 ]} 100 [Sample.frame 1 100 true] 0 0
    5 (1 # 4) 1 (Some ["x"; "y"]) (1 # 2)
    (mkTimer scan_loop_slot 500 true true).


(** Idle, with two frames in the history and the cursor on the second. *)
Definition logic_at_second_frame : Logic :=
  mkLogic idle {[ "x" := (0, 1)%Q; "y" := (0, 1)%Q ]}
    {[ "x" := 50; "y" := 50 ]} 100
    [Sample.frame 1 10 true; Sample.frame 2 20 true] 1 10
    5 (1 # 4) 1 (Some ["x"; "y"]) (1 # 2) Sample.idle_timer.

End Bench.

(** A computation that leaves the part [proj] of the object as it found it
    unless it returns 0. *)
Definition keeps_unless_zero {B : Type} (proj : Logic -> B) (c : M Z) : Prop :=
  forall s : Logic,
    proj (final (c s)) = proj s \/ completion (c s) = Returned 0.

(** The timer, the history with its cursor and the configuration
    options. *)
Definition timer_history_options (s : Logic) :=
  (__timer s, history_and_options s).


(** The three scan settings. *)
Definition scan_settings_of (s : Logic) :=
  (_scan_ranges s, _scan_resolution s, _scan_frequency s).


(** The slots of the class that change the object, as one call each, and
    the object after a call and after a sequence of calls (each with the
    scanner as it answers at that time). *)
Inductive Call : Type :=
| call_set_scan_settings (settings : SettingsRequest)
| call_set_scan_range (ranges : list (string * (Q * Q)))
| call_set_scan_resolution (resolution : list (string * Z))
| call_set_scan_frequency (frequency : Q)
| call_toggle_scan (start : bool) (scan_axes : option (list string))
| call_scan_loop
| call_restore_from_history (index : Z)
| call_history_previous
| call_history_next.

Definition run_call (clip_value : ScannerAxis -> Q -> Q)
    (clip_resolution : ScannerAxis -> Z -> Z) (scanner : Scanner) (c : Call)
  : M unit :=
  match c with
  | call_set_scan_settings settings => set_scan_settings scanner settings
  | call_set_scan_range ranges => set_scan_range scanner ranges;; ret tt
  | call_set_scan_resolution resolution =>
      set_scan_resolution scanner resolution;; ret tt
  | call_set_scan_frequency frequency =>
      set_scan_frequency scanner frequency;; ret tt
  | call_toggle_scan start scan_axes =>
      toggle_scan scanner start scan_axes;; ret tt
  | call_scan_loop => _scan_loop scanner
  | call_restore_from_history index =>
      restore_from_history clip_value clip_resolution scanner index
  | call_history_previous =>
      history_previous clip_value clip_resolution scanner
  | call_history_next => history_next clip_value clip_resolution scanner
  end.

Fixpoint after_calls (clip_value : ScannerAxis -> Q -> Q)
    (clip_resolution : ScannerAxis -> Z -> Z)
    (calls : list (Scanner * Call)) (s : Logic) : Logic :=
  match calls with
  | [] => s
  | (scanner, c) :: rest =>
      after_calls clip_value clip_resolution rest
        (final (run_call clip_value clip_resolution scanner c s))
  end.

(** The history holds at most max_history_length frames. *)
Definition history_within_bound (s : Logic) : Prop :=
  Z.of_nat (length (_scan_history s)) <= _max_history_length s.


(** The module state and the slot the timer is connected to agree: the
    position loop while idle, the scan loop while locked. *)
Definition timer_matches_state (s : Logic) : Prop :=
  match module_state s with
  | idle => timeout_slot (__timer s) = update_scanner_position_loop_slot
  | locked => timeout_slot (__timer s) = scan_loop_slot
  end.

(** The module state and the timer. *)
Definition state_and_timer (s : Logic) := (module_state s, __timer s).


(** * Properties *)

(** ** Order facts for the float comparisons *)

Lemma Qltb_true (a b : Q) : Py.Qltb a b = true <-> (a < b)%Q.
Proof.
  unfold Py.Qltb. rewrite Qlt_alt.
  destruct (a ?= b)%Q; split; congruence.
Qed.

Lemma Qltb_false (a b : Q) : Py.Qltb a b = false <-> (b <= a)%Q.
Proof.
  unfold Py.Qltb. rewrite Qle_alt, <- Qgt_alt, Qlt_alt.
  destruct (a ?= b)%Q; split; congruence.
Qed.

Ltac case_Qltb a b :=
  let H := fresh "Hcmp" in
  destruct (Py.Qltb a b) eqn:H;
  [apply Qltb_true in H | apply Qltb_false in H].

(** ** Rounding to milliseconds *)

Lemma round_within_half (x : Q) :
  (x - (1 # 2) <= inject_Z (Py.round x))%Q
  /\ (inject_Z (Py.round x) <= x + (1 # 2))%Q.
Proof.
  unfold Py.round. cbv zeta.
  pose proof (Qfloor_le x) as Hfloor.
  pose proof (Qlt_floor x) as Hnext.
  rewrite inject_Z_plus in Hnext. change (inject_Z 1) with 1%Q in Hnext.
  destruct (Qcompare (x - inject_Z (Qfloor x)) (1 # 2)) eqn:Hcmp.
  - apply Qeq_alt in Hcmp.
    destruct (Z.even (Qfloor x));
      [| rewrite inject_Z_plus; change (inject_Z 1) with 1%Q];
      set (f := inject_Z (Qfloor x)) in *; split; lra.
  - apply Qlt_alt in Hcmp.
    set (f := inject_Z (Qfloor x)) in *. split; lra.
  - apply Qgt_alt in Hcmp.
    rewrite inject_Z_plus. change (inject_Z 1) with 1%Q.
    set (f := inject_Z (Qfloor x)) in *. split; lra.
Qed.

Lemma milliseconds_within (seconds : Q) :
  within_a_millisecond (milliseconds seconds) seconds.
Proof.
  unfold within_a_millisecond, milliseconds.
  destruct (round_within_half (seconds * 1000)) as [Hlow Hhigh].
  assert (Hslack : (0 <= Qabs (seconds * 1000) / inject_Z (2 ^ 52))%Q).
  { apply Qle_shift_div_l; [reflexivity |].
    rewrite Qmult_0_l. apply Qabs_nonneg. }
  apply Qabs_Qle_condition.
  set (slack := (Qabs (seconds * 1000) / inject_Z (2 ^ 52))%Q) in *.
  split; lra.
Qed.

(** ** Running the monad *)

Lemma run_eta {A : Type} (r : Run A) :
  mkRun (final r) (emitted r) (completion r) = r.
Proof. destruct r; reflexivity. Qed.

Lemma bind_get {A : Type} (k : Logic -> M A) (s : Logic) :
  bind get k s = k s s.
Proof. unfold bind, get; simpl. apply run_eta. Qed.

Lemma bind_ret {A B : Type} (a : A) (k : A -> M B) (s : Logic) :
  bind (ret a) k s = k a s.
Proof. unfold bind, ret; simpl. apply run_eta. Qed.

Lemma bind_modify {A : Type} (f : Logic -> Logic) (k : unit -> M A) (s : Logic) :
  bind (modify f) k s = k tt (f s).
Proof. unfold bind, modify; simpl. apply run_eta. Qed.

Lemma bind_emit {A : Type} (e : Event) (k : unit -> M A) (s : Logic) :
  bind (emit e) k s =
    mkRun (final (k tt s)) (e :: emitted (k tt s)) (completion (k tt s)).
Proof. reflexivity. Qed.

Lemma bind_raise {A B : Type} (e : PyExn) (k : A -> M B) (s : Logic) :
  bind (raise e) k s = mkRun s [] (Raised e).
Proof. reflexivity. Qed.

Lemma bind_assoc {A B C : Type} (c : M A) (k : A -> M B) (k' : B -> M C)
    (s : Logic) :
  bind (bind c k) k' s = bind c (fun a => bind (k a) k') s.
Proof.
  unfold bind. destruct (c s) as [s1 e1 [a | x]]; simpl; [| reflexivity].
  destruct (k a s1) as [s2 e2 [b | x]]; simpl; [| reflexivity].
  rewrite app_assoc. reflexivity.
Qed.

Ltac case_geb a b :=
  let H := fresh "Hge" in
  destruct (a >=? b) eqn:H; rewrite Z.geb_leb in H;
  [apply Z.leb_le in H | apply Z.leb_gt in H].

(** ** Busy rejections and duplicate requests *)

(** C9: while a scan is running (module state locked) each of
    set_scan_range, set_scan_resolution and set_scan_frequency leaves the
    whole object as it was, logs its warning, signals the current value(s)
    and returns them, whatever the argument. *)
Theorem setters_are_noops_while_running
    (scanner : Scanner) (s : Logic)
    (ranges : list (string * (Q * Q))) (resolution : list (string * Z))
    (frequency : Q) :
  module_state s = locked ->
  set_scan_range scanner ranges s =
    mkRun s [log_warning ScanRunningRanges;
             sigScanSettingsChanged (range_dict (_scan_ranges s))]
      (Returned (_scan_ranges s))
  /\ set_scan_resolution scanner resolution s =
    mkRun s [log_warning ScanRunningResolution;
             sigScanSettingsChanged (resolution_dict (_scan_resolution s))]
      (Returned (_scan_resolution s))
  /\ set_scan_frequency scanner frequency s =
    mkRun s [log_warning ScanRunningFrequency;
             sigScanSettingsChanged (frequency_dict (_scan_frequency s))]
      (Returned (_scan_frequency s)).
Proof.
  intros Hlocked.
  unfold set_scan_range, set_scan_resolution, set_scan_frequency.
  rewrite !bind_get, Hlocked. repeat split; reflexivity.
Qed.

Lemma setters_are_noops_while_running_witness :
  final (set_scan_range Sample.scanner_xy [("x", (0, 1 # 2)%Q)]
           Sample.logic_running) = Sample.logic_running
  /\ final (set_scan_resolution Sample.scanner_xy [("x", 200)]
              Sample.logic_running) = Sample.logic_running
  /\ final (set_scan_frequency Sample.scanner_xy 10 Sample.logic_running)
     = Sample.logic_running.
Proof.
  destruct (setters_are_noops_while_running Sample.scanner_xy
              Sample.logic_running [("x", (0, 1 # 2)%Q)] [("x", 200)] 10
              eq_refl) as (Hrange & Hresolution & Hfrequency).
  rewrite Hrange, Hresolution, Hfrequency. repeat split.
Defined.


(** C10: a stop request in the idle state returns 0 and changes nothing,
    and the one signal it emits is sigScanStateChanged with running = True
    and the axes of the last scan. *)
Theorem stop_while_idle_signals_running
    (scanner : Scanner) (s : Logic) (scan_axes : option (list string)) :
  module_state s = idle ->
  toggle_scan scanner false scan_axes s =
    mkRun s [sigScanStateChanged true (__current_scan s)] (Returned 0).
Proof.
  intros Hidle. unfold toggle_scan.
  rewrite bind_get, Hidle. reflexivity.
Qed.

Lemma stop_while_idle_signals_running_witness :
  toggle_scan Sample.scanner_xy false None Sample.logic_with_history =
    mkRun Sample.logic_with_history
      [sigScanStateChanged true (Some ["x"; "y"])] (Returned 0).
Proof.
  apply (stop_while_idle_signals_running Sample.scanner_xy
           Sample.logic_with_history None eq_refl).
Defined.


(** C6: a start request while a scan is running returns 0, re-emits
    sigScanStateChanged(True, current axes) and changes nothing, so that
    repeating it changes nothing either; a start request in the idle state
    whose axes tuple has a length other than 1 or 2 logs an error, returns
    -1 and leaves the object, idle, as it was. *)
Theorem start_is_idempotent_and_checks_axes_count
    (scanner : Scanner) (s : Logic) (scan_axes : list string) :
  (module_state s = locked ->
     toggle_scan scanner true (Some scan_axes) s =
       mkRun s [sigScanStateChanged true (__current_scan s)] (Returned 0)
     /\ final (toggle_scan scanner true (Some scan_axes)
                 (final (toggle_scan scanner true (Some scan_axes) s))) = s)
  /\ (module_state s = idle ->
      length scan_axes <> 1%nat -> length scan_axes <> 2%nat ->
      toggle_scan scanner true (Some scan_axes) s =
        mkRun s [log_error AxesMustBeLen1or2] (Returned (-1))).
Proof.
  split.
  - intros Hlocked.
    assert (Hrun : toggle_scan scanner true (Some scan_axes) s =
      mkRun s [sigScanStateChanged true (__current_scan s)] (Returned 0)).
    { unfold toggle_scan. rewrite bind_get, Hlocked. reflexivity. }
    split; [exact Hrun |].
    replace (final (toggle_scan scanner true (Some scan_axes) s)) with s
      by (rewrite Hrun; reflexivity).
    rewrite Hrun. reflexivity.
  - intros Hidle H1 H2.
    unfold toggle_scan. rewrite bind_get, Hidle. simpl.
    destruct ((0 <? Z.of_nat (length scan_axes))
              && (Z.of_nat (length scan_axes) <? 3)) eqn:Hlen.
    + apply andb_true_iff in Hlen as [Hlo Hhi].
      apply Z.ltb_lt in Hlo, Hhi. lia.
    + reflexivity.
Qed.

Lemma start_is_idempotent_and_checks_axes_count_witness :
  toggle_scan Sample.scanner_xy true (Some ["x"; "y"]) Sample.logic_running =
    mkRun Sample.logic_running
      [sigScanStateChanged true (Some ["x"; "y"])] (Returned 0)
  /\ toggle_scan Sample.scanner_xy true (Some ["x"; "y"; "z"])
       Sample.logic_idle =
     mkRun Sample.logic_idle [log_error AxesMustBeLen1or2] (Returned (-1)).
Proof.
  split.
  - apply (proj1 (start_is_idempotent_and_checks_axes_count
                    Sample.scanner_xy Sample.logic_running ["x"; "y"])).
    reflexivity.
  - apply (proj2 (start_is_idempotent_and_checks_axes_count
                    Sample.scanner_xy Sample.logic_idle ["x"; "y"; "z"]));
      [reflexivity | simpl; lia | simpl; lia].
Defined.


(** ** set_scan_range *)

Ltac split_Qltb :=
  repeat match goal with
         | |- context [Py.Qltb ?a ?b] => case_Qltb a b; simpl
         end.

Lemma min_max_is_clip_into (lo hi v : Q) :
  (lo <= hi)%Q -> (Py.min hi (Py.max lo v) == clip_into lo hi v)%Q.
Proof.
  intros Hle. unfold Py.min, Py.max, clip_into.
  case_Qltb lo v; split_Qltb; lra.
Qed.

Lemma clipped_range_spec (c : ScannerAxis) (lo hi : Q) :
  (min_value c <= max_value c)%Q ->
  let l := clip_into (min_value c) (max_value c) lo in
  let h := clip_into (min_value c) (max_value c) hi in
  ((clipped_range c (lo, hi)).1 == l)%Q
  /\ ((clipped_range c (lo, hi)).2 == if Py.Qltb h l then l else h)%Q.
Proof.
  intros Hle l h. subst l h.
  pose proof (min_max_is_clip_into _ _ lo Hle) as Hlo.
  pose proof (min_max_is_clip_into _ _ hi Hle) as Hhi.
  unfold clipped_range. simpl.
  set (a := Py.min (max_value c) (Py.max (min_value c) lo)) in *.
  set (b := Py.min (max_value c) (Py.max (min_value c) hi)) in *.
  set (l := clip_into (min_value c) (max_value c) lo) in *.
  set (h := clip_into (min_value c) (max_value c) hi) in *.
  case_Qltb b a; case_Qltb h l; simpl; split; lra.
Qed.

Lemma with_scan_ranges_id (s : Logic) : with_scan_ranges (_scan_ranges s) s = s.
Proof. destruct s; reflexivity. Qed.

(** The loop over a mapping of known axes: no early return, every listed
    axis receives its clipped range, every other entry is kept. *)
Lemma set_scan_range_loop_known (ax_constr : gmap string ScannerAxis)
    (items : list (string * (Q * Q))) :
  forall s : Logic,
    (forall ax, ax ∈ items.*1 ->
       is_Some (_scan_ranges s !! ax) /\ is_Some (ax_constr !! ax)) ->
    exists d' : gmap string (Q * Q),
      set_scan_range_loop ax_constr items s =
        mkRun (with_scan_ranges d' s) [] (Returned None)
      /\ (forall ax, ax ∉ items.*1 -> d' !! ax = _scan_ranges s !! ax)
      /\ (NoDup items.*1 ->
          forall ax r c, (ax, r) ∈ items -> ax_constr !! ax = Some c ->
                         d' !! ax = Some (clipped_range c r)).
Proof.
  induction items as [| [ax ax_range] rest IH]; intros s Hknown.
  - exists (_scan_ranges s). rewrite with_scan_ranges_id.
    split; [reflexivity |]. split; [reflexivity |].
    intros _ ax r c Hin. inversion Hin.
  - destruct (Hknown ax) as [[old Hold] [c Hc]]; [left |].
    set (s1 := with_scan_ranges
                 (<[ax := clipped_range c ax_range]> (_scan_ranges s)) s).
    destruct (IH s1) as (d' & Hrun & Hother & Hlisted).
    { intros ax' Hin. destruct (Hknown ax') as [Hr Hcon]; [right; exact Hin |].
      split; [| exact Hcon]. subst s1; simpl.
      destruct (decide (ax = ax')) as [-> | Hne].
      - rewrite lookup_insert_eq. eauto.
      - rewrite lookup_insert_ne by exact Hne. exact Hr. }
    exists d'. split; [| split].
    + simpl. rewrite bind_get, Hold, Hc. simpl.
      rewrite bind_ret, bind_modify. exact Hrun.
    + intros ax' Hnotin. rewrite fmap_cons, not_elem_of_cons in Hnotin.
      destruct Hnotin as [Hne Hnotin]. simpl in Hne.
      rewrite (Hother ax' Hnotin). subst s1; simpl.
      apply lookup_insert_ne. congruence.
    + intros Hnodup ax' r c' Hin Hc'.
      rewrite fmap_cons in Hnodup. apply NoDup_cons in Hnodup as [Hfresh Hnodup].
      apply elem_of_cons in Hin as [Heq | Hin].
      * inversion Heq; subst ax' r. simpl in Hfresh.
        rewrite (Hother ax Hfresh). subst s1; simpl.
        rewrite lookup_insert_eq. congruence.
      * apply (Hlisted Hnodup ax' r c' Hin Hc').
Qed.

(** C8: in the idle state, for a mapping of known axes, set_scan_range
    stores for each axis the pair of its two bounds, each clipped on its own
    into [min_value, max_value], with the upper bound replaced by the lower
    one when the clipped lower bound is the larger; the other axes keep their
    ranges and the accepted ranges are signalled and returned.  In
    particular (-1, 2) for an axis x with value range (0, 1) is stored as
    (0, 1). *)
Theorem set_scan_range_clips_each_bound
    (scanner : Scanner) (s : Logic) (ranges : list (string * (Q * Q))) :
  module_state s = idle ->
  NoDup ranges.*1 ->
  (forall ax, ax ∈ ranges.*1 ->
     is_Some (_scan_ranges s !! ax) /\ is_Some (axes scanner !! ax)) ->
  let r := set_scan_range scanner ranges s in
  (forall ax lo hi c,
      (ax, (lo, hi)) ∈ ranges -> axes scanner !! ax = Some c ->
      (min_value c <= max_value c)%Q ->
      exists l h,
        _scan_ranges (final r) !! ax = Some (l, h)
        /\ (l == clip_into (min_value c) (max_value c) lo)%Q
        /\ (h == let h0 := clip_into (min_value c) (max_value c) hi in
                 if Py.Qltb h0 (clip_into (min_value c) (max_value c) lo)
                 then clip_into (min_value c) (max_value c) lo else h0)%Q)
  /\ (forall ax, ax ∉ ranges.*1 ->
        _scan_ranges (final r) !! ax = _scan_ranges s !! ax)
  /\ completion r = Returned (restrict ranges.*1 (_scan_ranges (final r)))
  /\ emitted r =
       [sigScanSettingsChanged
          (range_dict (restrict ranges.*1 (_scan_ranges (final r))))]
  /\ (ranges = [("x", (-1 # 1, 2 # 1))%Q] ->
      forall c, axes scanner !! "x" = Some c ->
                min_value c = 0%Q -> max_value c = 1%Q ->
                _scan_ranges (final r) !! "x" = Some (0, 1)%Q).
Proof.
  intros Hidle Hnodup Hknown r.
  destruct (set_scan_range_loop_known (axes scanner) ranges s Hknown)
    as (d' & Hloop & Hother & Hlisted).
  specialize (Hlisted Hnodup).
  assert (Hr : r = mkRun (with_scan_ranges d' s)
                 [sigScanSettingsChanged (range_dict (restrict ranges.*1 d'))]
                 (Returned (restrict ranges.*1 d'))).
  { subst r. unfold set_scan_range. rewrite bind_get, Hidle.
    unfold bind at 1. rewrite Hloop. reflexivity. }
  rewrite Hr. simpl. repeat split.
  - intros ax lo hi c Hin Hc Hwf.
    destruct (clipped_range_spec c lo hi Hwf) as [Hl Hh].
    exists (clipped_range c (lo, hi)).1, (clipped_range c (lo, hi)).2.
    rewrite (Hlisted ax (lo, hi) c Hin Hc).
    split; [destruct (clipped_range c (lo, hi)); reflexivity |].
    split; [exact Hl | exact Hh].
  - exact Hother.
  - intros -> c Hc Hmin Hmax.
    rewrite (Hlisted "x" (-1 # 1, 2 # 1)%Q c); [| left | exact Hc].
    unfold clipped_range. simpl. rewrite Hmin, Hmax. reflexivity.
Qed.

(** C8 at the scenario of the specification. *)
Lemma set_scan_range_clips_each_bound_witness :
  _scan_ranges
    (final (set_scan_range Sample.scanner_xy [("x", (-1 # 1, 2 # 1))%Q]
              Sample.logic_idle)) !! "x" = Some (0, 1)%Q.
Proof.
  assert (Hnodup : NoDup [("x", (-1 # 1, 2 # 1)%Q)].*1).
  { apply NoDup_singleton. }
  assert (Hknown : forall ax, ax ∈ [("x", (-1 # 1, 2 # 1)%Q)].*1 ->
            is_Some (_scan_ranges Sample.logic_idle !! ax)
            /\ is_Some (axes Sample.scanner_xy !! ax)).
  { intros ax Hin. apply list_elem_of_singleton in Hin. subst ax.
    split; eexists; vm_compute; reflexivity. }
  destruct (set_scan_range_clips_each_bound Sample.scanner_xy Sample.logic_idle
              [("x", (-1 # 1, 2 # 1))%Q] eq_refl Hnodup Hknown)
    as (_ & _ & _ & _ & Hscenario).
  apply (Hscenario eq_refl Sample.axis01); reflexivity.
Defined.

(** C1 on the code: with the known axis x listed before the unknown axis q,
    set_scan_range has already stored the new range of x when it meets q;
    it then logs the unknown axis, signals and returns the ranges as they
    now are, x changed. *)
Theorem set_scan_range_keeps_ranges_set_before_unknown_axis :
  let ranges := [("x", (1 # 5, 3 # 10)%Q); ("q", (0, 1)%Q)] in
  let r := set_scan_range Sample.scanner_xy ranges Sample.logic_idle in
  module_state Sample.logic_idle = idle
  /\ _scan_ranges Sample.logic_idle !! "q" = None
  /\ _scan_ranges Sample.logic_idle !! "x" = Some (0, 1)%Q
  /\ _scan_ranges (final r) !! "x" = Some (1 # 5, 3 # 10)%Q
  /\ emitted r = [log_error (UnknownAxis "q");
                  sigScanSettingsChanged (range_dict (_scan_ranges (final r)))]
  /\ completion r = Returned (_scan_ranges (final r)).
Proof. vm_compute. repeat split; reflexivity. Qed.

(** When the unknown axis comes first in the iteration order nothing has
    been stored yet and the object is left as it was. *)
Lemma set_scan_range_unknown_axis_first (scanner : Scanner) (s : Logic)
    (ax : string) (ax_range : Q * Q) (rest : list (string * (Q * Q))) :
  module_state s = idle ->
  _scan_ranges s !! ax = None ->
  set_scan_range scanner ((ax, ax_range) :: rest) s =
    mkRun s [log_error (UnknownAxis ax);
             sigScanSettingsChanged (range_dict (_scan_ranges s))]
      (Returned (_scan_ranges s)).
Proof.
  intros Hidle Hunknown. unfold set_scan_range.
  rewrite bind_get, Hidle. unfold bind at 1. cbn [set_scan_range_loop].
  rewrite bind_get, Hunknown. reflexivity.
Qed.

(** ** set_scan_frequency *)

Lemma lt_ext_false (x : Q) (e : Py.ExtQ) :
  Py.lt_ext x e = false <-> ext_le_fin e x.
Proof.
  destruct e; simpl; [tauto | apply Qltb_false | split; [discriminate | tauto]].
Qed.

Lemma gt_ext_false (x : Q) (e : Py.ExtQ) :
  Py.gt_ext x e = false <-> fin_le_ext x e.
Proof.
  destruct e; simpl; [split; [discriminate | tauto] | apply Qltb_false | tauto].
Qed.

Lemma frequency_bounds_step_spec (acc : Py.ExtQ * Py.ExtQ) (a : ScannerAxis)
    (x : Q) :
  (ext_le_fin (frequency_bounds_step acc a).1 x
     <-> ext_le_fin acc.1 x \/ (min_frequency a <= x)%Q)
  /\ (fin_le_ext x (frequency_bounds_step acc a).2
     <-> fin_le_ext x acc.2 \/ (x <= max_frequency a)%Q).
Proof.
  destruct acc as [[| lo |] [| hi |]]; unfold frequency_bounds_step; simpl;
    split_Qltb; split; try tauto; intuition lra.
Qed.

Lemma fold_frequency_bounds_spec (l : list ScannerAxis) (x : Q) :
  forall acc : Py.ExtQ * Py.ExtQ,
    (ext_le_fin (fold_left frequency_bounds_step l acc).1 x
       <-> ext_le_fin acc.1 x \/ exists a, a ∈ l /\ (min_frequency a <= x)%Q)
    /\ (fin_le_ext x (fold_left frequency_bounds_step l acc).2
       <-> fin_le_ext x acc.2 \/ exists a, a ∈ l /\ (x <= max_frequency a)%Q).
Proof.
  induction l as [| a l IH]; intros acc; simpl.
  - split; (split; [tauto | intros [H | (a & Hin & _)]; [exact H |]]);
      inversion Hin.
  - destruct (IH (frequency_bounds_step acc a)) as [IHlo IHhi].
    destruct (frequency_bounds_step_spec acc a x) as [Hlo Hhi].
    split.
    + rewrite IHlo, Hlo. split.
      * intros [[H | H] | (b & Hin & H)]; [tauto | |].
        -- right. exists a. split; [left | exact H].
        -- right. exists b. split; [right; exact Hin | exact H].
      * intros [H | (b & Hin & H)]; [tauto |].
        apply elem_of_cons in Hin as [-> | Hin]; [tauto |].
        right. exists b. tauto.
    + rewrite IHhi, Hhi. split.
      * intros [[H | H] | (b & Hin & H)]; [tauto | |].
        -- right. exists a. split; [left | exact H].
        -- right. exists b. split; [right; exact Hin | exact H].
      * intros [H | (b & Hin & H)]; [tauto |].
        apply elem_of_cons in Hin as [-> | Hin]; [tauto |].
        right. exists b. tauto.
Qed.

Lemma elem_of_values {V : Type} (d : gmap string V) (v : V) :
  v ∈ values d <-> exists k, d !! k = Some v.
Proof.
  unfold values. rewrite list_elem_of_fmap. split.
  - intros ([k v'] & -> & Hin). exists k. apply elem_of_map_to_list in Hin.
    exact Hin.
  - intros (k & Hk). exists (k, v). split; [reflexivity |].
    apply elem_of_map_to_list. exact Hk.
Qed.

(** The acceptance test of set_scan_frequency is the envelope test. *)
Lemma between_frequency_bounds (scanner : Scanner) (f : Q) :
  Py.between (frequency_bounds (values (axes scanner))).1 f
    (frequency_bounds (values (axes scanner))).2 = true
  <-> in_frequency_envelope scanner f.
Proof.
  unfold Py.between, frequency_bounds, in_frequency_envelope.
  destruct (fold_frequency_bounds_spec (values (axes scanner)) f
              (Py.PosInf, Py.NegInf)) as [Hlo Hhi].
  rewrite andb_true_iff, !negb_true_iff, lt_ext_false, gt_ext_false, Hlo, Hhi.
  simpl. split.
  - intros [[[] | (a & Hin & Ha)] [[] | (b & Hinb & Hb)]].
    apply elem_of_values in Hin as [ka Hka].
    apply elem_of_values in Hinb as [kb Hkb]. split; eauto.
  - intros [(ka & a & Hka & Ha) (kb & b & Hkb & Hb)]. split; right.
    + exists a. split; [apply elem_of_values; eauto | exact Ha].
    + exists b. split; [apply elem_of_values; eauto | exact Hb].
Qed.

(** C2, as the code has it: in the idle state set_scan_frequency stores f
    exactly when f lies between the smallest min_frequency and the largest
    max_frequency over the axes of the scanner; then f is signalled and
    returned and no error is logged.  Otherwise the object is left as it
    was, an error is logged and the old frequency is signalled and
    returned; f is never clipped. *)
Theorem set_scan_frequency_accepts_within_envelope
    (scanner : Scanner) (s : Logic) (f : Q) :
  module_state s = idle ->
  let r := set_scan_frequency scanner f s in
  (in_frequency_envelope scanner f ->
     r = mkRun (with_scan_frequency f s)
           [sigScanSettingsChanged (frequency_dict f)] (Returned f))
  /\ (~ in_frequency_envelope scanner f ->
      exists lo hi,
        r = mkRun s [log_error (FrequencyOutOfBounds lo hi);
                     sigScanSettingsChanged (frequency_dict (_scan_frequency s))]
              (Returned (_scan_frequency s))).
Proof.
  intros Hidle r. subst r. unfold set_scan_frequency.
  rewrite bind_get, Hidle.
  pose proof (between_frequency_bounds scanner f) as Htest.
  destruct (frequency_bounds (values (axes scanner))) as [min_freq max_freq].
  simpl in Htest.
  destruct (Py.between min_freq f max_freq) eqn:Hbetween.
  - split; [intros _ | intros Hout; exfalso; apply Hout, Htest; reflexivity].
    rewrite bind_modify, bind_get. reflexivity.
  - split; [intros Hin; apply Htest in Hin; discriminate | intros _].
    exists min_freq, max_freq. reflexivity.
Qed.

Lemma set_scan_frequency_accepts_within_envelope_witness :
  set_scan_frequency Sample.scanner_two_bands 7 Sample.logic_idle =
    mkRun (with_scan_frequency 7 Sample.logic_idle)
      [sigScanSettingsChanged (frequency_dict 7)] (Returned 7%Q).
Proof.
  apply (set_scan_frequency_accepts_within_envelope
           Sample.scanner_two_bands Sample.logic_idle 7 eq_refl).
  split.
  - exists "x", (mkAxis 0 1 1 1000 1 10). split; [reflexivity | discriminate].
  - exists "x", (mkAxis 0 1 1 1000 1 10). split; [reflexivity | discriminate].
Defined.

(** C2 as stated fails: with frequency intervals [1, 10] for x and
    [5, 100] for y, the frequency 50 lies outside the interval of x, hence
    outside the intersection [5, 10], and set_scan_frequency stores it
    without logging an error. *)
Lemma frequency_outside_intersection_is_accepted :
  module_state Sample.logic_idle = idle
  /\ ~ in_every_frequency_interval Sample.scanner_two_bands 50
  /\ set_scan_frequency Sample.scanner_two_bands 50 Sample.logic_idle =
       mkRun (with_scan_frequency 50 Sample.logic_idle)
         [sigScanSettingsChanged (frequency_dict 50)] (Returned 50%Q).
Proof.
  split; [reflexivity |]. split.
  - intros Hall.
    destruct (Hall "x" (mkAxis 0 1 1 1000 1 10) eq_refl) as [_ Hle].
    simpl in Hle. apply Hle. reflexivity.
  - vm_compute. reflexivity.
Qed.

(** ** Scan history *)

Lemma with_scan_history_id (h : list ScanData) (s : Logic) :
  _scan_history s = h -> with_scan_history h s = s.
Proof. intros <-. destruct s; reflexivity. Qed.

(** With room for at least one frame the eviction loop ends normally, having
    dropped as many of the oldest frames as it takes to get below the
    maximum. *)
Lemma evict_loop_drops_oldest (max_len : Z) (h : list ScanData) :
  1 <= max_len ->
  forall s : Logic,
    _scan_history s = h ->
    evict_loop max_len h s =
      mkRun (with_scan_history
               (drop (Z.to_nat (Z.of_nat (length h) - max_len + 1)) h) s)
        [] (Returned tt).
Proof.
  intros Hmax. induction h as [| d t IH]; intros s Hs.
  - cbn [evict_loop length]. change (Z.of_nat 0) with 0.
    case_geb 0 max_len; [lia |].
    rewrite drop_nil, (with_scan_history_id _ _ Hs). reflexivity.
  - cbn [evict_loop].
    case_geb (Z.of_nat (length (d :: t))) max_len.
    + rewrite bind_modify, (IH (with_scan_history t s) eq_refl).
      replace (Z.to_nat (Z.of_nat (length (d :: t)) - max_len + 1))
        with (S (Z.to_nat (Z.of_nat (length t) - max_len + 1)))
        by (simpl length in *; lia).
      reflexivity.
    + replace (Z.to_nat (Z.of_nat (length (d :: t)) - max_len + 1))
        with 0%nat by (simpl length in *; lia).
      rewrite drop_0, (with_scan_history_id _ _ Hs). reflexivity.
Qed.

(** Without room for a frame the loop empties the history and then pops
    from the empty list. *)
Lemma evict_loop_raises (max_len : Z) (h : list ScanData) :
  max_len <= 0 ->
  forall s : Logic,
    _scan_history s = h ->
    evict_loop max_len h s = mkRun (with_scan_history [] s) [] (Raised IndexError).
Proof.
  intros Hmax. induction h as [| d t IH]; intros s Hs.
  - cbn [evict_loop length]. change (Z.of_nat 0) with 0.
    case_geb 0 max_len; [| lia].
    rewrite (with_scan_history_id _ _ Hs). reflexivity.
  - cbn [evict_loop].
    case_geb (Z.of_nat (length (d :: t))) max_len;
      [| simpl length in *; lia].
    rewrite bind_modify, (IH (with_scan_history t s) eq_refl). reflexivity.
Qed.

Lemma append_to_history_run (scan_data : ScanData) (s : Logic) :
  1 <= _max_history_length s ->
  append_to_history scan_data s = mkRun (appended scan_data s) [] (Returned tt).
Proof.
  intros Hmax. unfold append_to_history.
  rewrite bind_get. unfold bind at 1.
  rewrite (evict_loop_drops_oldest _ _ Hmax s eq_refl). reflexivity.
Qed.

Lemma append_to_history_raises (scan_data : ScanData) (s : Logic) :
  _max_history_length s <= 0 ->
  append_to_history scan_data s =
    mkRun (with_scan_history [] s) [] (Raised IndexError).
Proof.
  intros Hmax. unfold append_to_history.
  rewrite bind_get. unfold bind at 1.
  rewrite (evict_loop_raises _ _ Hmax s eq_refl). reflexivity.
Qed.

Lemma appended_length (scan_data : ScanData) (s : Logic) :
  1 <= _max_history_length s ->
  Z.of_nat (length (_scan_history (appended scan_data s)))
    <= _max_history_length s.
Proof.
  intros Hmax. unfold appended. simpl.
  rewrite length_app, length_drop. simpl. lia.
Qed.

(** The two outcomes of the stop branch of toggle_scan when the history has
    room for a frame. *)
Lemma stop_branch_run (scanner : Scanner) (s : Logic) :
  1 <= _max_history_length s ->
  let d := get_scan_data scanner in
  stop_branch scanner s =
    if stop_scan scanner <? 0
    then mkRun (appended d s)
           [sigScanDataChanged d; log_error UnableToStopScanWaiting;
            sigScanStateChanged true (__current_scan s)]
           (Returned (-1))
    else mkRun (with_timer
                  (mkTimer update_scanner_position_loop_slot
                     (milliseconds (_position_update_interval s)) true true)
                  (with_module_state idle (appended d s)))
           [sigScanDataChanged d; sigScanStateChanged false (__current_scan s)]
           (Returned 0).
Proof.
  intros Hmax d. unfold stop_branch. fold d.
  unfold bind at 1. rewrite (append_to_history_run d s Hmax).
  cbn [final emitted completion].
  rewrite bind_emit, bind_get.
  destruct (stop_scan scanner <? 0); reflexivity.
Qed.

Lemma append_to_history_cases (scan_data : ScanData) (s : Logic) :
  append_to_history scan_data s =
    if 1 <=? _max_history_length s
    then mkRun (appended scan_data s) [] (Returned tt)
    else mkRun (with_scan_history [] s) [] (Raised IndexError).
Proof.
  destruct (1 <=? _max_history_length s) eqn:Hmax.
  - apply append_to_history_run. lia.
  - apply append_to_history_raises. lia.
Qed.

Ltac run_scan_loop :=
  unfold _scan_loop, bind, get, modify, emit, ret, _stop_timer, _start_timer,
    retarget_timer;
  cbn -[append_to_history appended milliseconds Z.leb Z.ltb].

Lemma scan_loop_finished_run (scanner : Scanner) (s : Logic) :
  module_state s = locked ->
  1 <= _max_history_length s ->
  is_finished (get_scan_data scanner) = true ->
  let d := get_scan_data scanner in
  _scan_loop scanner s =
    mkRun (with_timer
             (mkTimer update_scanner_position_loop_slot
                (milliseconds (_position_update_interval s)) true true)
             (appended d (with_module_state idle s)))
      ((if stop_scan scanner <? 0 then [log_error UnableToStopScan] else [])
       ++ [sigScanStateChanged false (__current_scan s); sigScanDataChanged d])
      (Returned tt).
Proof.
  intros Hlocked Hmax Hfin d. subst d.
  apply Z.leb_le in Hmax.
  run_scan_loop. rewrite Hlocked, Hfin. cbn [is_idle].
  destruct (stop_scan scanner <? 0);
    cbn -[append_to_history appended milliseconds Z.leb];
    rewrite append_to_history_cases;
    cbn -[appended milliseconds Z.leb]; rewrite Hmax; reflexivity.
Qed.

Lemma scan_loop_finished_without_room (scanner : Scanner) (s : Logic) :
  module_state s = locked ->
  _max_history_length s <= 0 ->
  is_finished (get_scan_data scanner) = true ->
  _scan_history (final (_scan_loop scanner s)) = []
  /\ completion (_scan_loop scanner s) = Raised IndexError.
Proof.
  intros Hlocked Hmax Hfin.
  assert (Hroom : (1 <=? _max_history_length s) = false) by lia.
  run_scan_loop. rewrite Hlocked, Hfin. cbn [is_idle].
  destruct (stop_scan scanner <? 0);
    cbn -[append_to_history appended milliseconds Z.leb];
    rewrite append_to_history_cases;
    cbn -[appended milliseconds Z.leb];
    rewrite Hroom; split; reflexivity.
Qed.

(** C7: after the append made by a stop request, and after the append made
    by the scan loop on a finished frame, the history holds at most
    max_history_length frames: the oldest frames are dropped from the front
    until the length is below the maximum (none when it already is), the new
    frame is put at the end and the cursor is set to the last index.  This
    is what happens whenever the maximum leaves room for a frame (>= 1); with
    a maximum of 0 the length stays within the maximum as well. *)
Theorem history_never_exceeds_max_length
    (scanner : Scanner) (s : Logic) (scan_axes : option (list string)) :
  module_state s = locked ->
  let d := get_scan_data scanner in
  let stopped := final (toggle_scan scanner false scan_axes s) in
  let finished := final (_scan_loop scanner s) in
  let evicted :=
    Z.to_nat (Z.of_nat (length (_scan_history s)) - _max_history_length s + 1) in
  (0 <= _max_history_length s ->
     Z.of_nat (length (_scan_history stopped)) <= _max_history_length s
     /\ (is_finished d = true ->
         Z.of_nat (length (_scan_history finished)) <= _max_history_length s))
  /\ (1 <= _max_history_length s ->
      (_scan_history stopped = (drop evicted (_scan_history s) ++ [d])%list
       /\ _curr_history_index stopped
          = Z.of_nat (length (_scan_history stopped)) - 1)
      /\ (is_finished d = true ->
          _scan_history finished = (drop evicted (_scan_history s) ++ [d])%list
          /\ _curr_history_index finished
             = Z.of_nat (length (_scan_history finished)) - 1)).
Proof.
  intros Hlocked d stopped finished evicted.
  assert (Hstop : toggle_scan scanner false scan_axes s = stop_branch scanner s).
  { unfold toggle_scan. rewrite bind_get, Hlocked. reflexivity. }
  assert (Hroom : 1 <= _max_history_length s ->
    (_scan_history stopped = (drop evicted (_scan_history s) ++ [d])%list
     /\ _curr_history_index stopped
        = Z.of_nat (length (_scan_history stopped)) - 1)
    /\ (is_finished d = true ->
        _scan_history finished = (drop evicted (_scan_history s) ++ [d])%list
        /\ _curr_history_index finished
           = Z.of_nat (length (_scan_history finished)) - 1)).
  { intros Hmax. split.
    - subst stopped. rewrite Hstop, (stop_branch_run scanner s Hmax).
      destruct (stop_scan scanner <? 0); split; reflexivity.
    - intros Hfin. subst finished.
      rewrite (scan_loop_finished_run scanner s Hlocked Hmax Hfin).
      split; reflexivity. }
  split; [| exact Hroom].
  intros Hmax.
  destruct (Z.eq_dec (_max_history_length s) 0) as [Hzero | Hpos].
  - assert (Hle : _max_history_length s <= 0) by lia.
    split.
    + subst stopped. rewrite Hstop. unfold stop_branch, bind at 1.
      rewrite (append_to_history_raises _ s Hle). simpl. lia.
    + intros Hfin. subst finished.
      destruct (scan_loop_finished_without_room scanner s Hlocked Hle Hfin)
        as [Hempty _].
      rewrite Hempty. simpl. lia.
  - destruct (Hroom ltac:(lia)) as [[Hs _] Hf].
    split.
    + rewrite Hs, length_app, length_drop. simpl. lia.
    + intros Hfin. destruct (Hf Hfin) as [Hh _].
      rewrite Hh, length_app, length_drop. simpl. lia.
Qed.

Lemma history_never_exceeds_max_length_witness :
  _scan_history
    (final (toggle_scan Sample.scanner_xy false None Sample.logic_running))
  = [Sample.frame 2 100 true; Sample.frame 7 100 false]
  /\ _scan_history (final (_scan_loop Sample.scanner_done Sample.logic_running))
     = [Sample.frame 2 100 true; Sample.frame 8 100 true].
Proof.
  assert (Hroom : 1 <= _max_history_length Sample.logic_running)
    by (simpl; lia).
  split.
  - destruct (history_never_exceeds_max_length Sample.scanner_xy
                Sample.logic_running None eq_refl) as [_ Happend].
    destruct (Happend Hroom) as [[Hhistory _] _]. exact Hhistory.
  - destruct (history_never_exceeds_max_length Sample.scanner_done
                Sample.logic_running None eq_refl) as [_ Happend].
    destruct (Happend Hroom) as [_ Hfinished].
    destruct (Hfinished eq_refl) as [Hhistory _]. exact Hhistory.
Defined.

(** ** Stopping a scan *)

(** C5: a stop request while a scan is running takes the frame the scanner
    currently has, finished or not, and appends it to the history.  If
    stop_scan then answers with a negative code the module stays locked, the
    timer is left alone, the error is logged, sigScanStateChanged(True, axes)
    is emitted and -1 is returned; otherwise the timer is pointed back to the
    position loop, single shot, with the position update interval in whole
    milliseconds (up to the rounding) and started, the module is unlocked,
    sigScanStateChanged(False, axes) is emitted and 0 is returned. *)
Theorem stop_appends_frame_and_follows_stop_scan
    (scanner : Scanner) (s : Logic) (scan_axes : option (list string)) :
  module_state s = locked ->
  1 <= _max_history_length s ->
  let d := get_scan_data scanner in
  let r := toggle_scan scanner false scan_axes s in
  last (_scan_history (final r)) = Some d
  /\ (stop_scan scanner < 0 ->
      module_state (final r) = locked
      /\ __timer (final r) = __timer s
      /\ emitted r = [sigScanDataChanged d; log_error UnableToStopScanWaiting;
                      sigScanStateChanged true (__current_scan s)]
      /\ completion r = Returned (-1))
  /\ (0 <= stop_scan scanner ->
      module_state (final r) = idle
      /\ timeout_slot (__timer (final r)) = update_scanner_position_loop_slot
      /\ single_shot (__timer (final r)) = true
      /\ active (__timer (final r)) = true
      /\ within_a_millisecond (interval (__timer (final r)))
           (_position_update_interval s)
      /\ emitted r = [sigScanDataChanged d;
                      sigScanStateChanged false (__current_scan s)]
      /\ completion r = Returned 0).
Proof.
  intros Hlocked Hmax d r.
  assert (Hr : r = stop_branch scanner s).
  { subst r. unfold toggle_scan. rewrite bind_get, Hlocked. reflexivity. }
  rewrite Hr, (stop_branch_run scanner s Hmax). fold d.
  destruct (stop_scan scanner <? 0) eqn:Hcode.
  - apply Z.ltb_lt in Hcode. split; [apply last_snoc |].
    split; [intros _ | intros Hok; lia].
    repeat split. simpl. exact Hlocked.
  - apply Z.ltb_ge in Hcode. split; [apply last_snoc |].
    split; [intros Hfail; lia | intros _].
    split; [reflexivity |]. split; [reflexivity |]. split; [reflexivity |].
    split; [reflexivity |]. split; [apply milliseconds_within |].
    split; reflexivity.
Qed.

Lemma stop_appends_frame_and_follows_stop_scan_witness :
  module_state
    (final (toggle_scan Sample.scanner_stuck false None Sample.logic_running))
  = locked
  /\ completion (toggle_scan Sample.scanner_stuck false None Sample.logic_running)
     = Returned (-1)
  /\ module_state
       (final (toggle_scan Sample.scanner_xy false None Sample.logic_running))
     = idle
  /\ timeout_slot
       (__timer (final (toggle_scan Sample.scanner_xy false None
                          Sample.logic_running)))
     = update_scanner_position_loop_slot
  /\ within_a_millisecond 1000 1.
Proof.
  assert (Hroom : 1 <= _max_history_length Sample.logic_running)
    by (simpl; lia).
  destruct (stop_appends_frame_and_follows_stop_scan Sample.scanner_stuck
              Sample.logic_running None eq_refl Hroom) as (_ & Hfail & _).
  destruct (stop_appends_frame_and_follows_stop_scan Sample.scanner_xy
              Sample.logic_running None eq_refl Hroom) as (_ & _ & Hok).
  destruct Hfail as (Hstate & _ & _ & Hcode); [simpl; lia |].
  destruct Hok as (Hidle & Hslot & _ & _ & Hms & _); [simpl; lia |].
  split; [exact Hstate |]. split; [exact Hcode |]. split; [exact Hidle |].
  split; [exact Hslot | exact Hms].
Defined.

(** ** History navigation *)

(** Subscripting fails exactly below [-len] and from [len] on. *)
Lemma index_none {A : Type} (l : list A) (i : Z) :
  Py.index l i = None
  <-> i < - Z.of_nat (length l) \/ Z.of_nat (length l) <= i.
Proof.
  unfold Py.index.
  destruct (0 <=? i) eqn:Hsign.
  - apply Z.leb_le in Hsign. rewrite nth_error_None. lia.
  - apply Z.leb_gt in Hsign.
    destruct (- Z.of_nat (length l) <=? i) eqn:Hlow.
    + apply Z.leb_le in Hlow. rewrite nth_error_None. lia.
    + apply Z.leb_gt in Hlow. split; [lia | reflexivity].
Qed.

(** An index at or beyond the length, or below minus the length, is
    reported and leaves the object as it was. *)
Lemma restore_from_history_out_of_range
    (clip_value : ScannerAxis -> Q -> Q) (clip_resolution : ScannerAxis -> Z -> Z)
    (scanner : Scanner) (s : Logic) (index : Z) :
  module_state s = idle ->
  index < - Z.of_nat (length (_scan_history s))
  \/ Z.of_nat (length (_scan_history s)) <= index ->
  restore_from_history clip_value clip_resolution scanner index s =
    mkRun s [log_error (HistoryIndexOutOfRange index)] (Returned tt).
Proof.
  intros Hidle Hout. apply index_none in Hout.
  unfold restore_from_history. rewrite bind_get, Hidle, Hout. reflexivity.
Qed.

(** C3 on the code: with two frames in the history, the index -1 is not
    reported: the subscript yields the last frame, whose settings are
    restored (the frequency 100 becomes 20) and the cursor, which was 0,
    becomes -1. *)
Theorem restore_from_history_follows_negative_index
    (clip_value : ScannerAxis -> Q -> Q)
    (clip_resolution : ScannerAxis -> Z -> Z) :
  let s := Sample.logic_with_history in
  let r := restore_from_history clip_value clip_resolution
             Sample.scanner_xy (-1) s in
  module_state s = idle
  /\ length (_scan_history s) = 2%nat
  /\ _curr_history_index s = 0
  /\ _scan_frequency s = 100%Q
  /\ _curr_history_index (final r) = -1
  /\ _scan_frequency (final r) = 20%Q
  /\ emitted r = [printed (full_dict (final r));
                  sigScanSettingsChanged (full_dict (final r));
                  sigScanDataChanged (Sample.frame 2 20 true)]
  /\ completion r = Returned tt.
Proof. vm_compute. repeat split; reflexivity. Qed.

(** ** Starting a scan *)

Lemma bind_returned {A B : Type} (c : M A) (k : A -> M B) (s : Logic) (b : B) :
  completion (bind c k s) = Returned b ->
  exists a, completion (c s) = Returned a
            /\ completion (k a (final (c s))) = Returned b
            /\ final (bind c k s) = final (k a (final (c s))).
Proof.
  unfold bind. destruct (c s) as [s1 e1 [a | x]]; simpl; [| discriminate].
  intros Hk. exists a. repeat split. exact Hk.
Qed.

Lemma max_min_is_clip_into (lo hi v : Q) :
  (lo <= hi)%Q -> (Py.max lo (Py.min hi v) == clip_into lo hi v)%Q.
Proof.
  intros Hle. unfold Py.min, Py.max, clip_into.
  case_Qltb v hi; split_Qltb; lra.
Qed.

Lemma compute_update_interval_returned (scan_axes : list string) (s : Logic) :
  completion (compute_update_interval scan_axes s) = Returned tt ->
  exists line_points : Z,
    final (compute_update_interval scan_axes s) =
      with_scan_update_interval
        (Py.max (_min_scan_update_interval s)
           (Py.min (_max_scan_update_interval s)
              (inject_Z line_points / _scan_frequency s))) s
    /\ (if 1 <? Z.of_nat (length scan_axes)
        then exists ax0, head scan_axes = Some ax0
                         /\ _scan_resolution s !! ax0 = Some line_points
        else line_points = 1).
Proof.
  unfold compute_update_interval. rewrite bind_get.
  destruct (1 <? Z.of_nat (length scan_axes)) eqn:Hlen.
  - destruct scan_axes as [| ax0 rest]; [discriminate |].
    cbn [lookup list_lookup subscript]. rewrite bind_assoc, bind_ret.
    destruct (_scan_resolution s !! ax0) as [line_points |] eqn:Hres;
      cbn [subscript].
    + rewrite bind_ret.
      destruct (Qeq_bool (_scan_frequency s) 0); [discriminate |].
      intros _. exists line_points. split; [reflexivity |].
      exists ax0. split; [reflexivity | exact Hres].
    + rewrite bind_raise. discriminate.
  - rewrite bind_ret.
    destruct (Qeq_bool (_scan_frequency s) 0); [discriminate |].
    intros _. exists 1. split; reflexivity.
Qed.

Lemma same_mode_refl (s : Logic) : same_mode s s.
Proof. repeat split. Qed.

Lemma same_mode_trans (s1 s2 s3 : Logic) :
  same_mode s1 s2 -> same_mode s2 s3 -> same_mode s1 s3.
Proof.
  intros (Ha & Hb & Hc) (Ha' & Hb' & Hc'). repeat split; congruence.
Qed.

Lemma keeps_mode_ret {A : Type} (a : A) : keeps_mode (ret a).
Proof. intros s. apply same_mode_refl. Qed.

Lemma keeps_mode_raise {A : Type} (e : PyExn) : keeps_mode (@raise A e).
Proof. intros s. apply same_mode_refl. Qed.

Lemma keeps_mode_get : keeps_mode get.
Proof. intros s. apply same_mode_refl. Qed.

Lemma keeps_mode_emit (e : Event) : keeps_mode (emit e).
Proof. intros s. apply same_mode_refl. Qed.

Lemma keeps_mode_subscript {A : Type} (o : option A) (e : PyExn) :
  keeps_mode (subscript o e).
Proof. destruct o; [apply keeps_mode_ret | apply keeps_mode_raise]. Qed.

Lemma keeps_mode_modify (f : Logic -> Logic) :
  (forall s, same_mode s (f s)) -> keeps_mode (modify f).
Proof. intros Hf s. apply Hf. Qed.

Lemma keeps_mode_bind {A B : Type} (c : M A) (k : A -> M B) :
  keeps_mode c -> (forall a, keeps_mode (k a)) -> keeps_mode (bind c k).
Proof.
  intros Hc Hk s. unfold bind. specialize (Hc s).
  destruct (c s) as [s1 e1 [a | x]]; simpl in *; [| exact Hc].
  apply (same_mode_trans _ _ _ Hc), Hk.
Qed.

Lemma keeps_mode_if {A : Type} (b : bool) (c c' : M A) :
  keeps_mode c -> keeps_mode c' -> keeps_mode (if b then c else c').
Proof. destruct b; tauto. Qed.

Ltac keeps_mode_auto :=
  repeat match goal with
         | |- keeps_mode (bind _ _) => apply keeps_mode_bind; [| intros ?]
         | |- keeps_mode (if _ then _ else _) => apply keeps_mode_if
         | |- keeps_mode (modify _) =>
             apply keeps_mode_modify; intros ?; repeat split
         | |- keeps_mode (ret _) => apply keeps_mode_ret
         | |- keeps_mode (raise _) => apply keeps_mode_raise
         | |- keeps_mode get => apply keeps_mode_get
         | |- keeps_mode (emit _) => apply keeps_mode_emit
         | |- keeps_mode (subscript _ _) => apply keeps_mode_subscript
         end.

Lemma lookup_all_keeps_mode {V : Type} (d : gmap string V)
    (scan_axes : list string) : keeps_mode (lookup_all d scan_axes).
Proof.
  induction scan_axes as [| ax rest IH]; cbn [lookup_all]; keeps_mode_auto.
  exact IH.
Qed.

Lemma reconcile_loop_keeps_mode (new_settings : ScanSettings)
    (scan_axes : list string) :
  forall ax_index : nat,
    keeps_mode (reconcile_loop new_settings ax_index scan_axes).
Proof.
  induction scan_axes as [| ax rest IH]; intros ax_index;
    cbn [reconcile_loop]; keeps_mode_auto.
  apply IH.
Qed.

Lemma frequency_update_keeps_mode (changed : bool) (f : Q) :
  keeps_mode
    (if changed
     then modify (with_scan_frequency f);;
          emit (sigScanSettingsChanged (frequency_dict f))
     else ret tt).
Proof. keeps_mode_auto. Qed.

Lemma start_branch_success (scanner : Scanner) (scan_axes : list string)
    (s : Logic) :
  completion (start_branch scanner (Some scan_axes) s) = Returned 0 ->
  exists s4 : Logic,
    module_state s4 = locked
    /\ _min_scan_update_interval s4 = _min_scan_update_interval s
    /\ _max_scan_update_interval s4 = _max_scan_update_interval s
    /\ completion (compute_update_interval scan_axes s4) = Returned tt
    /\ final (start_branch scanner (Some scan_axes) s) =
         let s5 := final (compute_update_interval scan_axes s4) in
         with_timer
           (mkTimer scan_loop_slot (milliseconds (__scan_update_interval s5))
              true true) s5.
Proof.
  unfold start_branch.
  destruct (negb ((0 <? Z.of_nat (length scan_axes))
                  && (Z.of_nat (length scan_axes) <? 3))); [discriminate |].
  rewrite !bind_modify, bind_get.
  set (s1 := with_current_scan (Some scan_axes) (with_module_state locked s)).
  intros H.
  apply bind_returned in H as (ranges & _ & H & ->).
  apply bind_returned in H as (resolutions & _ & H & ->).
  pose proof (lookup_all_keeps_mode (_scan_ranges s1) scan_axes s1) as Hm1.
  set (s1' := final (lookup_all (_scan_ranges s1) scan_axes s1)) in *.
  pose proof (lookup_all_keeps_mode (_scan_resolution s1) scan_axes s1') as Hm2.
  set (s2 := final (lookup_all (_scan_resolution s1) scan_axes s1')) in *.
  set (new_settings := configure_scan scanner _) in *.
  destruct (negb (bool_decide (Some (st_axes new_settings) = __current_scan s1)));
    [discriminate |].
  apply bind_returned in H as ([] & _ & H & ->).
  pose proof (reconcile_loop_keeps_mode new_settings scan_axes 0 s2) as Hm3.
  set (s3 := final (reconcile_loop new_settings 0 scan_axes s2)) in *.
  rewrite bind_get in H |- *.
  apply bind_returned in H as ([] & _ & H & ->).
  pose proof (frequency_update_keeps_mode
                (negb (Qeq_bool (_scan_frequency s3) (st_frequency new_settings)))
                (st_frequency new_settings) s3) as Hm4.
  match type of Hm4 with
  | same_mode _ ?t => set (s4 := t) in *
  end.
  apply bind_returned in H as ([] & Hinterval & H & ->).
  exists s4.
  assert (Hmode : same_mode s1 s4).
  { eapply same_mode_trans; [exact Hm1 |].
    eapply same_mode_trans; [exact Hm2 |].
    eapply same_mode_trans; [exact Hm3 | exact Hm4]. }
  destruct Hmode as (Hstate & Hmin & Hmax).
  split; [exact Hstate |]. split; [exact Hmin |]. split; [exact Hmax |].
  split; [exact Hinterval |].
  destruct (start_scan scanner <? 0); [discriminate |].
  reflexivity.
Qed.

(** C4: after a start request that succeeds from the idle state, the scan
    update interval is the quotient line length / scan frequency clipped
    into [min_scan_update_interval, max_scan_update_interval], where the
    line length is the stored resolution of the first scanned axis for two
    axes and 1 for one axis (resolution and frequency as stored when the
    scan starts); the timer is pointed to the scan loop, single shot, with
    that interval in whole milliseconds (up to the rounding) and started,
    and the module is locked.  In particular for axes (x, y), resolution 50
    for x, frequency 100 and bounds (0.25, 5) the interval is 0.5. *)
Theorem start_sets_scan_update_interval
    (scanner : Scanner) (s : Logic) (scan_axes : list string) :
  module_state s = idle ->
  let r := toggle_scan scanner true (Some scan_axes) s in
  completion r = Returned 0 ->
  (_min_scan_update_interval s <= _max_scan_update_interval s)%Q ->
  exists line_length : Z,
    (length scan_axes = 2%nat ->
       exists ax0, head scan_axes = Some ax0
                   /\ _scan_resolution (final r) !! ax0 = Some line_length)
    /\ (length scan_axes = 1%nat -> line_length = 1)
    /\ (length scan_axes = 1%nat \/ length scan_axes = 2%nat)
    /\ (__scan_update_interval (final r) ==
          clip_into (_min_scan_update_interval s) (_max_scan_update_interval s)
            (inject_Z line_length / _scan_frequency (final r)))%Q
    /\ timeout_slot (__timer (final r)) = scan_loop_slot
    /\ single_shot (__timer (final r)) = true
    /\ active (__timer (final r)) = true
    /\ within_a_millisecond (interval (__timer (final r)))
         (__scan_update_interval (final r))
    /\ module_state (final r) = locked
    /\ (scan_axes = ["x"; "y"] ->
        _scan_resolution (final r) !! "x" = Some 50 ->
        (_scan_frequency (final r) == 100)%Q ->
        (_min_scan_update_interval s == 1 # 4)%Q ->
        (_max_scan_update_interval s == 5)%Q ->
        (__scan_update_interval (final r) == 1 # 2)%Q).
Proof.
  intros Hidle r Hok Hbounds.
  assert (Hr : r = start_branch scanner (Some scan_axes) s).
  { subst r. unfold toggle_scan. rewrite bind_get, Hidle. reflexivity. }
  assert (Hlen : length scan_axes = 1%nat \/ length scan_axes = 2%nat).
  { rewrite Hr in Hok. unfold start_branch in Hok.
    destruct ((0 <? Z.of_nat (length scan_axes))
              && (Z.of_nat (length scan_axes) <? 3)) eqn:Htest;
      [| discriminate].
    apply andb_true_iff in Htest as [Hlo Hhi].
    apply Z.ltb_lt in Hlo, Hhi. lia. }
  rewrite Hr in Hok.
  destruct (start_branch_success scanner scan_axes s Hok)
    as (s4 & Hstate & Hmin & Hmax & Hinterval & Hfinal).
  destruct (compute_update_interval_returned scan_axes s4 Hinterval)
    as (line_length & Hs5 & Hline).
  rewrite Hs5 in Hfinal. cbv zeta in Hfinal.
  assert (Hclip : (__scan_update_interval (final r) ==
            clip_into (_min_scan_update_interval s) (_max_scan_update_interval s)
              (inject_Z line_length / _scan_frequency (final r)))%Q).
  { rewrite Hr, Hfinal. cbn. rewrite Hmin, Hmax.
    apply max_min_is_clip_into, Hbounds. }
  exists line_length. rewrite Hr, Hfinal in *.
  split; [| split; [| split; [exact Hlen | split; [exact Hclip |]]]].
  - intros Htwo. rewrite Htwo in Hline. exact Hline.
  - intros Hone. rewrite Hone in Hline. exact Hline.
  - split; [reflexivity |]. split; [reflexivity |]. split; [reflexivity |].
    split; [apply milliseconds_within |]. split; [exact Hstate |].
    intros -> Hres Hfreq Hlo Hhi.
    destruct Hline as (ax0 & Hhead & Hx). injection Hhead as <-.
    cbn in Hres. rewrite Hx in Hres. injection Hres as ->.
    rewrite Hclip. cbn [final with_timer with_scan_update_interval
                          _scan_frequency] in *.
    assert (Hquot : (inject_Z 50 / _scan_frequency s4 == 1 # 2)%Q).
    { rewrite Hfreq. reflexivity. }
    unfold clip_into.
    set (v := (inject_Z 50 / _scan_frequency s4)%Q) in *.
    split_Qltb; lra.
Qed.

Lemma start_sets_scan_update_interval_witness :
  (__scan_update_interval
     (final (toggle_scan Sample.scanner_xy true (Some ["x"; "y"])
               Sample.logic_idle)) == 1 # 2)%Q
  /\ timeout_slot
       (__timer (final (toggle_scan Sample.scanner_xy true (Some ["x"; "y"])
                          Sample.logic_idle))) = scan_loop_slot
  /\ within_a_millisecond 500 (50 # 100).
Proof.
  assert (Hbounds : (_min_scan_update_interval Sample.logic_idle
                     <= _max_scan_update_interval Sample.logic_idle)%Q)
    by (simpl; discriminate).
  destruct (start_sets_scan_update_interval Sample.scanner_xy Sample.logic_idle
              ["x"; "y"] eq_refl eq_refl Hbounds)
    as (line_length & _ & _ & _ & _ & Hslot & _ & _ & Hms & _ & Hscenario).
  split; [apply Hscenario; reflexivity |].
  split; [exact Hslot | exact Hms].
Defined.

(** * Further properties of the code *)

(** ** What a computation leaves alone *)

Lemma keeps_ret {A B : Type} (proj : Logic -> B) (a : A) : keeps proj (ret a).
Proof. intros s. reflexivity. Qed.

Lemma keeps_raise {A B : Type} (proj : Logic -> B) (e : PyExn) :
  keeps proj (@raise A e).
Proof. intros s. reflexivity. Qed.

Lemma keeps_get {B : Type} (proj : Logic -> B) : keeps proj get.
Proof. intros s. reflexivity. Qed.

Lemma keeps_emit {B : Type} (proj : Logic -> B) (e : Event) :
  keeps proj (emit e).
Proof. intros s. reflexivity. Qed.

Lemma keeps_subscript {A B : Type} (proj : Logic -> B) (o : option A)
    (e : PyExn) : keeps proj (subscript o e).
Proof. destruct o; intros s; reflexivity. Qed.

Lemma keeps_modify {B : Type} (proj : Logic -> B) (f : Logic -> Logic) :
  (forall s, proj (f s) = proj s) -> keeps proj (modify f).
Proof. intros Hf s. apply Hf. Qed.

Lemma keeps_bind {A A' B : Type} (proj : Logic -> B) (c : M A) (k : A -> M A') :
  keeps proj c -> (forall a, keeps proj (k a)) -> keeps proj (bind c k).
Proof.
  intros Hc Hk s. unfold bind. specialize (Hc s).
  destruct (c s) as [s1 e1 [a | x]]; simpl in *; [| exact Hc].
  rewrite (Hk a s1). exact Hc.
Qed.

Ltac keeps_auto :=
  repeat match goal with
         | |- keeps _ (bind _ _) => apply keeps_bind; [| intros ?]
         | |- keeps _ (if ?b then _ else _) => destruct b
         | |- keeps _ (match ?o with Some _ => _ | None => _ end) =>
             destruct o
         | |- keeps _ (match ?m with idle => _ | locked => _ end) =>
             destruct m
         | |- keeps _ (let (_, _) := ?p in _) => destruct p
         | |- keeps _ (modify _) =>
             apply keeps_modify; intros ?; reflexivity
         | |- keeps _ (ret _) => apply keeps_ret
         | |- keeps _ (raise _) => apply keeps_raise
         | |- keeps _ get => apply keeps_get
         | |- keeps _ (emit _) => apply keeps_emit
         | |- keeps _ (subscript _ _) => apply keeps_subscript
         | |- keeps _ _stop_timer => apply keeps_modify; intros ?; reflexivity
         | |- keeps _ _start_timer => apply keeps_modify; intros ?; reflexivity
         | |- keeps _ (retarget_timer _ _) =>
             apply keeps_modify; intros ?; reflexivity
         end.

Lemma set_scan_range_loop_keeps (ax_constr : gmap string ScannerAxis)
    (items : list (string * (Q * Q))) :
  keeps besides_ranges (set_scan_range_loop ax_constr items).
Proof.
  induction items as [| [ax ax_range] rest IH]; cbn [set_scan_range_loop];
    keeps_auto. exact IH.
Qed.

Lemma set_scan_resolution_loop_keeps (ax_constr : gmap string ScannerAxis)
    (items : list (string * Z)) :
  keeps besides_resolution (set_scan_resolution_loop ax_constr items).
Proof.
  induction items as [| [ax ax_res] rest IH]; cbn [set_scan_resolution_loop];
    keeps_auto. exact IH.
Qed.

(** X1: whatever the argument, the module state and the outcome (return,
    early return, exception), set_scan_range changes nothing on the object
    but the scan ranges, set_scan_resolution nothing but the scan
    resolution and set_scan_frequency nothing but the scan frequency: the
    module state, the history and its cursor, the timer, the current scan
    axes and the other two settings stay as they were. *)
Theorem setters_touch_only_their_setting
    (scanner : Scanner) (s : Logic)
    (ranges : list (string * (Q * Q))) (resolution : list (string * Z))
    (frequency : Q) :
  besides_ranges (final (set_scan_range scanner ranges s)) = besides_ranges s
  /\ besides_resolution (final (set_scan_resolution scanner resolution s))
     = besides_resolution s
  /\ besides_frequency (final (set_scan_frequency scanner frequency s))
     = besides_frequency s.
Proof.
  split; [| split].
  - revert s. change (keeps besides_ranges (set_scan_range scanner ranges)).
    unfold set_scan_range. keeps_auto.
    apply set_scan_range_loop_keeps.
  - revert s.
    change (keeps besides_resolution (set_scan_resolution scanner resolution)).
    unfold set_scan_resolution. keeps_auto.
    apply set_scan_resolution_loop_keeps.
  - revert s.
    change (keeps besides_frequency (set_scan_frequency scanner frequency)).
    unfold set_scan_frequency. keeps_auto.
Qed.

(** ** The settings store *)

Lemma dom_insert_known {V : Type} (d : gmap string V) (k : string) (old v : V) :
  d !! k = Some old -> dom (<[k := v]> d) = dom d.
Proof.
  intros Hk. rewrite dom_insert_L.
  assert (Hin : k ∈ dom d) by (apply elem_of_dom; eauto).
  apply set_eq. intros x. rewrite elem_of_union, elem_of_singleton.
  split; [intros [-> | Hx]; assumption | tauto].
Qed.

Lemma set_scan_range_loop_dom (ax_constr : gmap string ScannerAxis)
    (items : list (string * (Q * Q))) :
  forall s : Logic,
    dom (_scan_ranges (final (set_scan_range_loop ax_constr items s)))
    = dom (_scan_ranges s).
Proof.
  induction items as [| [ax ax_range] rest IH]; intros s;
    cbn [set_scan_range_loop]; [reflexivity |].
  rewrite bind_get.
  destruct (_scan_ranges s !! ax) as [old |] eqn:Hold; [| reflexivity].
  destruct (ax_constr !! ax) as [c |]; cbn [subscript].
  - rewrite bind_ret, bind_modify, IH. simpl.
    apply (dom_insert_known _ _ old), Hold.
  - rewrite bind_raise. reflexivity.
Qed.

Lemma set_scan_resolution_loop_dom (ax_constr : gmap string ScannerAxis)
    (items : list (string * Z)) :
  forall s : Logic,
    dom (_scan_resolution (final (set_scan_resolution_loop ax_constr items s)))
    = dom (_scan_resolution s).
Proof.
  induction items as [| [ax ax_res] rest IH]; intros s;
    cbn [set_scan_resolution_loop]; [reflexivity |].
  rewrite bind_get.
  destruct (_scan_resolution s !! ax) as [old |] eqn:Hold; [| reflexivity].
  destruct (ax_constr !! ax) as [c |]; cbn [subscript].
  - rewrite bind_ret, bind_modify, IH. simpl.
    apply (dom_insert_known _ _ old), Hold.
  - rewrite bind_raise. reflexivity.
Qed.

(** X2: set_scan_range and set_scan_resolution never add an axis to the
    stored settings and never remove one: the set of axis names is the same
    after the call, for every argument, in both module states and on every
    outcome. *)
Theorem setters_keep_the_axis_set
    (scanner : Scanner) (s : Logic)
    (ranges : list (string * (Q * Q))) (resolution : list (string * Z)) :
  dom (_scan_ranges (final (set_scan_range scanner ranges s)))
  = dom (_scan_ranges s)
  /\ dom (_scan_resolution (final (set_scan_resolution scanner resolution s)))
     = dom (_scan_resolution s).
Proof.
  split.
  - unfold set_scan_range. rewrite bind_get.
    destruct (module_state s); [| reflexivity].
    pose proof (set_scan_range_loop_dom (axes scanner) ranges s) as Hdom.
    unfold bind at 1.
    destruct (set_scan_range_loop (axes scanner) ranges s)
      as [s1 e1 [[early |] | x]]; exact Hdom.
  - unfold set_scan_resolution. rewrite bind_get.
    destruct (module_state s); [| reflexivity].
    pose proof (set_scan_resolution_loop_dom (axes scanner) resolution s)
      as Hdom.
    unfold bind at 1.
    destruct (set_scan_resolution_loop (axes scanner) resolution s)
      as [s1 e1 [[early |] | x]]; exact Hdom.
Qed.

Lemma clipped_range_ordered (c : ScannerAxis) (ax_range : Q * Q) :
  ((clipped_range c ax_range).1 <= (clipped_range c ax_range).2)%Q.
Proof.
  unfold clipped_range. cbv zeta.
  set (a := Py.min (max_value c) (Py.max (min_value c) ax_range.1)).
  set (b := Py.min (max_value c) (Py.max (min_value c) ax_range.2)).
  simpl. case_Qltb b a; simpl; lra.
Qed.

Lemma min_max_within (lo hi v : Q) :
  (lo <= hi)%Q ->
  (lo <= Py.min hi (Py.max lo v))%Q /\ (Py.min hi (Py.max lo v) <= hi)%Q.
Proof.
  intros Hle. unfold Py.min, Py.max.
  case_Qltb lo v; split_Qltb; lra.
Qed.

Lemma clipped_range_within (c : ScannerAxis) (ax_range : Q * Q) :
  (min_value c <= max_value c)%Q ->
  (min_value c <= (clipped_range c ax_range).1)%Q
  /\ ((clipped_range c ax_range).2 <= max_value c)%Q.
Proof.
  intros Hwf.
  destruct (min_max_within _ _ ax_range.1 Hwf) as [Ha1 Ha2].
  destruct (min_max_within _ _ ax_range.2 Hwf) as [Hb1 Hb2].
  unfold clipped_range. cbv zeta.
  set (a := Py.min (max_value c) (Py.max (min_value c) ax_range.1)) in *.
  set (b := Py.min (max_value c) (Py.max (min_value c) ax_range.2)) in *.
  simpl. case_Qltb b a; simpl; split; lra.
Qed.

(** X3: in the idle state, for a mapping of known axes, the range that
    set_scan_range stores for a listed axis never has its lower bound above
    its upper bound, whatever the requested pair and whatever the
    constraint; and when the value range of the axis is itself ordered the
    stored range lies inside it. *)
Theorem set_scan_range_stores_ordered_ranges
    (scanner : Scanner) (s : Logic) (ranges : list (string * (Q * Q))) :
  module_state s = idle ->
  NoDup ranges.*1 ->
  (forall ax, ax ∈ ranges.*1 ->
     is_Some (_scan_ranges s !! ax) /\ is_Some (axes scanner !! ax)) ->
  forall ax ax_range c,
    (ax, ax_range) ∈ ranges -> axes scanner !! ax = Some c ->
    exists l h,
      _scan_ranges (final (set_scan_range scanner ranges s)) !! ax
      = Some (l, h)
      /\ (l <= h)%Q
      /\ ((min_value c <= max_value c)%Q ->
          (min_value c <= l)%Q /\ (h <= max_value c)%Q).
Proof.
  intros Hidle Hnodup Hknown ax ax_range c Hin Hc.
  destruct (set_scan_range_loop_known (axes scanner) ranges s Hknown)
    as (d' & Hloop & _ & Hlisted).
  assert (Hfinal : final (set_scan_range scanner ranges s)
                   = with_scan_ranges d' s).
  { unfold set_scan_range. rewrite bind_get, Hidle.
    unfold bind at 1. rewrite Hloop. reflexivity. }
  rewrite Hfinal. simpl.
  rewrite (Hlisted Hnodup ax ax_range c Hin Hc).
  exists (clipped_range c ax_range).1, (clipped_range c ax_range).2.
  split; [destruct (clipped_range c ax_range); reflexivity |].
  split; [apply clipped_range_ordered | apply clipped_range_within].
Qed.

Lemma set_scan_range_stores_ordered_ranges_witness :
  exists l h,
    _scan_ranges
      (final (set_scan_range Sample.scanner_xy [("x", (3 # 4, 1 # 4)%Q)]
                Sample.logic_idle)) !! "x" = Some (l, h)
    /\ (l <= h)%Q.
Proof.
  assert (Hnodup : NoDup [("x", (3 # 4, 1 # 4)%Q)].*1).
  { apply NoDup_singleton. }
  assert (Hknown : forall ax, ax ∈ [("x", (3 # 4, 1 # 4)%Q)].*1 ->
            is_Some (_scan_ranges Sample.logic_idle !! ax)
            /\ is_Some (axes Sample.scanner_xy !! ax)).
  { intros ax Hin. apply list_elem_of_singleton in Hin. subst ax.
    split; eexists; vm_compute; reflexivity. }
  destruct (set_scan_range_stores_ordered_ranges Sample.scanner_xy
              Sample.logic_idle [("x", (3 # 4, 1 # 4)%Q)] eq_refl Hnodup Hknown
              "x" (3 # 4, 1 # 4)%Q Sample.axis01)
    as (l & h & Hstored & Hordered & _);
    [left | reflexivity |].
  exists l, h. split; [exact Hstored | exact Hordered].
Defined.

Lemma with_scan_resolution_id (s : Logic) :
  with_scan_resolution (_scan_resolution s) s = s.
Proof. destruct s; reflexivity. Qed.

Lemma set_scan_resolution_loop_known (ax_constr : gmap string ScannerAxis)
    (items : list (string * Z)) :
  forall s : Logic,
    (forall ax, ax ∈ items.*1 ->
       is_Some (_scan_resolution s !! ax) /\ is_Some (ax_constr !! ax)) ->
    exists d' : gmap string Z,
      set_scan_resolution_loop ax_constr items s =
        mkRun (with_scan_resolution d' s) [] (Returned None)
      /\ (forall ax, ax ∉ items.*1 -> d' !! ax = _scan_resolution s !! ax)
      /\ (NoDup items.*1 ->
          forall ax v c, (ax, v) ∈ items -> ax_constr !! ax = Some c ->
                         d' !! ax = Some (clipped_resolution c v)).
Proof.
  induction items as [| [ax ax_res] rest IH]; intros s Hknown.
  - exists (_scan_resolution s). rewrite with_scan_resolution_id.
    split; [reflexivity |]. split; [reflexivity |].
    intros _ ax v c Hin. inversion Hin.
  - destruct (Hknown ax) as [[old Hold] [c Hc]]; [left |].
    set (s1 := with_scan_resolution
                 (<[ax := clipped_resolution c ax_res]> (_scan_resolution s)) s).
    destruct (IH s1) as (d' & Hrun & Hother & Hlisted).
    { intros ax' Hin. destruct (Hknown ax') as [Hr Hcon]; [right; exact Hin |].
      split; [| exact Hcon]. subst s1; simpl.
      destruct (decide (ax = ax')) as [-> | Hne].
      - rewrite lookup_insert_eq. eauto.
      - rewrite lookup_insert_ne by exact Hne. exact Hr. }
    exists d'. split; [| split].
    + simpl. rewrite bind_get, Hold, Hc. simpl.
      rewrite bind_ret, bind_modify. exact Hrun.
    + intros ax' Hnotin. rewrite fmap_cons, not_elem_of_cons in Hnotin.
      destruct Hnotin as [Hne Hnotin]. simpl in Hne.
      rewrite (Hother ax' Hnotin). subst s1; simpl.
      apply lookup_insert_ne. congruence.
    + intros Hnodup ax' v c' Hin Hc'.
      rewrite fmap_cons in Hnodup. apply NoDup_cons in Hnodup as [Hfresh Hnodup].
      apply elem_of_cons in Hin as [Heq | Hin].
      * inversion Heq; subst ax' v. simpl in Hfresh.
        rewrite (Hother ax Hfresh). subst s1; simpl.
        rewrite lookup_insert_eq. congruence.
      * apply (Hlisted Hnodup ax' v c' Hin Hc').
Qed.

(** X4: in the idle state, for a mapping of known axes, set_scan_resolution
    stores for each listed axis its value clipped into
    [min_resolution, max_resolution]: the value itself when it lies inside,
    the nearer end otherwise; the resolution of the other axes is kept, and
    the stored values of the listed axes are signalled and returned. *)
Theorem set_scan_resolution_clips
    (scanner : Scanner) (s : Logic) (resolution : list (string * Z)) :
  module_state s = idle ->
  NoDup resolution.*1 ->
  (forall ax, ax ∈ resolution.*1 ->
     is_Some (_scan_resolution s !! ax) /\ is_Some (axes scanner !! ax)) ->
  let r := set_scan_resolution scanner resolution s in
  (forall ax v c,
      (ax, v) ∈ resolution -> axes scanner !! ax = Some c ->
      min_resolution c <= max_resolution c ->
      exists w,
        _scan_resolution (final r) !! ax = Some w
        /\ min_resolution c <= w <= max_resolution c
        /\ (min_resolution c <= v <= max_resolution c -> w = v)
        /\ (v < min_resolution c -> w = min_resolution c)
        /\ (max_resolution c < v -> w = max_resolution c))
  /\ (forall ax, ax ∉ resolution.*1 ->
        _scan_resolution (final r) !! ax = _scan_resolution s !! ax)
  /\ completion r
     = Returned (restrict resolution.*1 (_scan_resolution (final r)))
  /\ emitted r =
       [sigScanSettingsChanged
          (resolution_dict
             (restrict resolution.*1 (_scan_resolution (final r))))].
Proof.
  intros Hidle Hnodup Hknown r.
  destruct (set_scan_resolution_loop_known (axes scanner) resolution s Hknown)
    as (d' & Hloop & Hother & Hlisted).
  specialize (Hlisted Hnodup).
  assert (Hr : r = mkRun (with_scan_resolution d' s)
                 [sigScanSettingsChanged
                    (resolution_dict (restrict resolution.*1 d'))]
                 (Returned (restrict resolution.*1 d'))).
  { subst r. unfold set_scan_resolution. rewrite bind_get, Hidle.
    unfold bind at 1. rewrite Hloop. reflexivity. }
  rewrite Hr. simpl.
  split; [| split; [exact Hother | split; reflexivity]].
  intros ax v c Hin Hc Hwf.
  exists (clipped_resolution c v).
  split; [apply (Hlisted ax v c Hin Hc) |].
  unfold clipped_resolution. lia.
Qed.

Lemma set_scan_resolution_clips_witness :
  _scan_resolution
    (final (set_scan_resolution Sample.scanner_xy [("y", 5000)]
              Sample.logic_idle)) !! "y" = Some 1000.
Proof.
  assert (Hnodup : NoDup [("y", 5000)].*1) by apply NoDup_singleton.
  assert (Hknown : forall ax, ax ∈ [("y", 5000)].*1 ->
            is_Some (_scan_resolution Sample.logic_idle !! ax)
            /\ is_Some (axes Sample.scanner_xy !! ax)).
  { intros ax Hin. apply list_elem_of_singleton in Hin. subst ax.
    split; eexists; vm_compute; reflexivity. }
  destruct (set_scan_resolution_clips Sample.scanner_xy Sample.logic_idle
              [("y", 5000)] eq_refl Hnodup Hknown) as (Hclip & _).
  destruct (Hclip "y" 5000 Sample.axis01) as (w & Hstored & _ & _ & _ & Hhigh);
    [left | reflexivity | simpl; lia |].
  rewrite Hstored. f_equal. apply Hhigh. simpl. lia.
Defined.

(** The loop over a list that starts with known axes: the known part is
    applied, then the loop goes on with the rest. *)
Lemma set_scan_range_loop_prefix (ax_constr : gmap string ScannerAxis)
    (pre rest : list (string * (Q * Q))) :
  forall s : Logic,
    (forall ax, ax ∈ pre.*1 ->
       is_Some (_scan_ranges s !! ax) /\ is_Some (ax_constr !! ax)) ->
    exists d' : gmap string (Q * Q),
      set_scan_range_loop ax_constr (pre ++ rest) s =
        set_scan_range_loop ax_constr rest (with_scan_ranges d' s)
      /\ set_scan_range_loop ax_constr pre s =
           mkRun (with_scan_ranges d' s) [] (Returned None)
      /\ (forall ax, ax ∉ pre.*1 -> d' !! ax = _scan_ranges s !! ax).
Proof.
  induction pre as [| [ax ax_range] pre IH]; intros s Hknown.
  - exists (_scan_ranges s). rewrite with_scan_ranges_id.
    repeat split.
  - destruct (Hknown ax) as [[old Hold] [c Hc]]; [left |].
    set (s1 := with_scan_ranges
                 (<[ax := clipped_range c ax_range]> (_scan_ranges s)) s).
    destruct (IH s1) as (d' & Happ & Hrun & Hother).
    { intros ax' Hin. destruct (Hknown ax') as [Hr Hcon]; [right; exact Hin |].
      split; [| exact Hcon]. subst s1; simpl.
      destruct (decide (ax = ax')) as [-> | Hne].
      - rewrite lookup_insert_eq. eauto.
      - rewrite lookup_insert_ne by exact Hne. exact Hr. }
    exists d'. split; [| split].
    + rewrite <- app_comm_cons. cbn [set_scan_range_loop].
      rewrite bind_get, Hold, Hc. cbn [subscript].
      rewrite bind_ret, bind_modify. exact Happ.
    + cbn [set_scan_range_loop].
      rewrite bind_get, Hold, Hc. cbn [subscript].
      rewrite bind_ret, bind_modify. exact Hrun.
    + intros ax' Hnotin. rewrite fmap_cons, not_elem_of_cons in Hnotin.
      destruct Hnotin as [Hne Hnotin]. simpl in Hne.
      rewrite (Hother ax' Hnotin). subst s1; simpl.
      apply lookup_insert_ne. congruence.
Qed.

Lemma set_scan_range_of_known (scanner : Scanner) (s : Logic)
    (pre : list (string * (Q * Q))) (d' : gmap string (Q * Q)) :
  module_state s = idle ->
  set_scan_range_loop (axes scanner) pre s =
    mkRun (with_scan_ranges d' s) [] (Returned None) ->
  final (set_scan_range scanner pre s) = with_scan_ranges d' s.
Proof.
  intros Hidle Hrun. unfold set_scan_range. rewrite bind_get, Hidle.
  unfold bind at 1. rewrite Hrun. reflexivity.
Qed.

(** X5: in the idle state, when the mapping lists known axes and then an
    axis that the stored ranges do not have, set_scan_range ends at that
    axis: it leaves the object as the known axes listed before it alone
    would, so that nothing listed after it is looked at and every axis not
    listed before it keeps its range; it logs the unknown axis and signals
    and returns the complete stored ranges as they then are. *)
Theorem set_scan_range_ends_at_unknown_axis
    (scanner : Scanner) (s : Logic) (pre post : list (string * (Q * Q)))
    (ax : string) (ax_range : Q * Q) :
  module_state s = idle ->
  (forall a, a ∈ pre.*1 ->
     is_Some (_scan_ranges s !! a) /\ is_Some (axes scanner !! a)) ->
  _scan_ranges s !! ax = None ->
  let r := set_scan_range scanner (pre ++ (ax, ax_range) :: post) s in
  final r = final (set_scan_range scanner pre s)
  /\ completion r = Returned (_scan_ranges (final r))
  /\ emitted r = [log_error (UnknownAxis ax);
                  sigScanSettingsChanged (range_dict (_scan_ranges (final r)))]
  /\ (forall a, a ∉ pre.*1 ->
        _scan_ranges (final r) !! a = _scan_ranges s !! a).
Proof.
  intros Hidle Hknown Hunknown r.
  destruct (set_scan_range_loop_prefix (axes scanner) pre
              ((ax, ax_range) :: post) s Hknown) as (d' & Happ & Hpre & Hother).
  assert (Hfresh : ax ∉ pre.*1).
  { intros Hin. destruct (Hknown ax Hin) as [[old Hold] _]. congruence. }
  assert (Hr : r = mkRun (with_scan_ranges d' s)
                 [log_error (UnknownAxis ax);
                  sigScanSettingsChanged (range_dict d')]
                 (Returned d')).
  { subst r. unfold set_scan_range. rewrite bind_get, Hidle.
    unfold bind at 1. rewrite Happ. cbn [set_scan_range_loop].
    rewrite bind_get. cbn [_scan_ranges with_scan_ranges].
    rewrite (Hother ax Hfresh), Hunknown. reflexivity. }
  rewrite Hr, (set_scan_range_of_known scanner s pre d' Hidle Hpre).
  repeat split. exact Hother.
Qed.

Lemma set_scan_range_ends_at_unknown_axis_witness :
  _scan_ranges
    (final (set_scan_range Sample.scanner_xy
              ([("x", (1 # 5, 3 # 10)%Q)]
               ++ ("q", (0, 1)%Q) :: [("y", (1 # 5, 3 # 10)%Q)])
              Sample.logic_idle)) !! "y" = Some (0, 1)%Q.
Proof.
  assert (Hknown : forall a, a ∈ [("x", (1 # 5, 3 # 10)%Q)].*1 ->
            is_Some (_scan_ranges Sample.logic_idle !! a)
            /\ is_Some (axes Sample.scanner_xy !! a)).
  { intros a Hin. apply list_elem_of_singleton in Hin. subst a.
    split; eexists; vm_compute; reflexivity. }
  destruct (set_scan_range_ends_at_unknown_axis Sample.scanner_xy
              Sample.logic_idle [("x", (1 # 5, 3 # 10)%Q)]
              [("y", (1 # 5, 3 # 10)%Q)] "q" (0, 1)%Q eq_refl Hknown eq_refl)
    as (_ & _ & _ & Hkept).
  rewrite (Hkept "y"); [reflexivity |].
  intros Hin. apply list_elem_of_singleton in Hin. discriminate.
Defined.

(** X6: in the idle state, when the mapping lists known axes and then an
    axis that the stored ranges have but the constraints of the scanner do
    not, the subscript of the constraints raises KeyError out of
    set_scan_range: nothing is signalled or logged, and the object is left
    as the axes listed before it alone would leave it. *)
Theorem set_scan_range_raises_without_constraint
    (scanner : Scanner) (s : Logic) (pre post : list (string * (Q * Q)))
    (ax : string) (ax_range : Q * Q) :
  module_state s = idle ->
  (forall a, a ∈ pre.*1 ->
     is_Some (_scan_ranges s !! a) /\ is_Some (axes scanner !! a)) ->
  is_Some (_scan_ranges s !! ax) ->
  axes scanner !! ax = None ->
  let r := set_scan_range scanner (pre ++ (ax, ax_range) :: post) s in
  completion r = Raised (KeyError ax)
  /\ emitted r = []
  /\ final r = final (set_scan_range scanner pre s).
Proof.
  intros Hidle Hknown [old Hold] Hnone r.
  destruct (set_scan_range_loop_prefix (axes scanner) pre
              ((ax, ax_range) :: post) s Hknown) as (d' & Happ & Hpre & Hother).
  assert (Hfresh : ax ∉ pre.*1).
  { intros Hin. destruct (Hknown ax Hin) as [_ [c Hc]]. congruence. }
  assert (Hr : r = mkRun (with_scan_ranges d' s) [] (Raised (KeyError ax))).
  { subst r. unfold set_scan_range. rewrite bind_get, Hidle.
    unfold bind at 1. rewrite Happ. cbn [set_scan_range_loop].
    rewrite bind_get. cbn [_scan_ranges with_scan_ranges].
    rewrite (Hother ax Hfresh), Hold, Hnone. reflexivity. }
  rewrite Hr, (set_scan_range_of_known scanner s pre d' Hidle Hpre).
  repeat split.
Qed.

Lemma set_scan_range_raises_without_constraint_witness :
  completion (set_scan_range Bench.scanner_only_x
                ([("x", (1 # 5, 3 # 10)%Q)] ++ ("y", (0, 1)%Q) :: [])
                Sample.logic_idle) = Raised (KeyError "y").
Proof.
  assert (Hknown : forall a, a ∈ [("x", (1 # 5, 3 # 10)%Q)].*1 ->
            is_Some (_scan_ranges Sample.logic_idle !! a)
            /\ is_Some (axes Bench.scanner_only_x !! a)).
  { intros a Hin. apply list_elem_of_singleton in Hin. subst a.
    split; eexists; vm_compute; reflexivity. }
  assert (Hstored : is_Some (_scan_ranges Sample.logic_idle !! "y")).
  { eexists. vm_compute. reflexivity. }
  apply (set_scan_range_raises_without_constraint Bench.scanner_only_x
           Sample.logic_idle [("x", (1 # 5, 3 # 10)%Q)] [] "y" (0, 1)%Q
           eq_refl Hknown Hstored eq_refl).
Defined.

(** X7: a scanner without axes has no frequency bounds to offer: in the
    idle state set_scan_frequency then rejects every frequency, keeps the
    object as it was, logs the error with the bounds +inf and -inf and
    signals and returns the old frequency. *)
Theorem set_scan_frequency_rejects_all_without_axes
    (scanner : Scanner) (s : Logic) (f : Q) :
  module_state s = idle ->
  axes scanner = ∅ ->
  set_scan_frequency scanner f s =
    mkRun s [log_error (FrequencyOutOfBounds Py.PosInf Py.NegInf);
             sigScanSettingsChanged (frequency_dict (_scan_frequency s))]
      (Returned (_scan_frequency s)).
Proof.
  intros Hidle Hempty. unfold set_scan_frequency.
  rewrite bind_get, Hidle, Hempty. unfold values.
  rewrite map_to_list_empty. reflexivity.
Qed.

Lemma set_scan_frequency_rejects_all_without_axes_witness :
  final (set_scan_frequency Bench.scanner_no_axes 50 Sample.logic_idle)
  = Sample.logic_idle.
Proof.
  rewrite (set_scan_frequency_rejects_all_without_axes Bench.scanner_no_axes
             Sample.logic_idle 50 eq_refl eq_refl).
  reflexivity.
Defined.

Lemma set_scan_range_locked (scanner : Scanner) (s : Logic)
    (ranges : list (string * (Q * Q))) :
  module_state s = locked ->
  set_scan_range scanner ranges s =
    mkRun s [log_warning ScanRunningRanges;
             sigScanSettingsChanged (range_dict (_scan_ranges s))]
      (Returned (_scan_ranges s)).
Proof.
  intros Hlocked. unfold set_scan_range. rewrite bind_get, Hlocked.
  reflexivity.
Qed.

Lemma set_scan_resolution_locked (scanner : Scanner) (s : Logic)
    (resolution : list (string * Z)) :
  module_state s = locked ->
  set_scan_resolution scanner resolution s =
    mkRun s [log_warning ScanRunningResolution;
             sigScanSettingsChanged (resolution_dict (_scan_resolution s))]
      (Returned (_scan_resolution s)).
Proof.
  intros Hlocked. unfold set_scan_resolution. rewrite bind_get, Hlocked.
  reflexivity.
Qed.

Lemma set_scan_frequency_locked (scanner : Scanner) (s : Logic) (f : Q) :
  module_state s = locked ->
  set_scan_frequency scanner f s =
    mkRun s [log_warning ScanRunningFrequency;
             sigScanSettingsChanged (frequency_dict (_scan_frequency s))]
      (Returned (_scan_frequency s)).
Proof.
  intros Hlocked. unfold set_scan_frequency. rewrite bind_get, Hlocked.
  reflexivity.
Qed.

(** X8: while a scan is running set_scan_settings leaves the object as it
    was, whichever of the keys 'range', 'resolution' and 'frequency' the
    request holds and whatever their values; for each key that is present,
    in this order, it logs the warning of the setter and signals the current
    value of that setting, and for an absent key it emits nothing. *)
Theorem set_scan_settings_is_noop_while_running
    (scanner : Scanner) (s : Logic) (settings : SettingsRequest) :
  module_state s = locked ->
  set_scan_settings scanner settings s =
    mkRun s
      ((match rq_range settings with
        | Some _ => [log_warning ScanRunningRanges;
                     sigScanSettingsChanged (range_dict (_scan_ranges s))]
        | None => []
        end)
       ++ (match rq_resolution settings with
           | Some _ =>
               [log_warning ScanRunningResolution;
                sigScanSettingsChanged
                  (resolution_dict (_scan_resolution s))]
           | None => []
           end)
       ++ (match rq_frequency settings with
           | Some _ =>
               [log_warning ScanRunningFrequency;
                sigScanSettingsChanged (frequency_dict (_scan_frequency s))]
           | None => []
           end))
      (Returned tt).
Proof.
  intros Hlocked.
  destruct settings as [[ranges |] [resolution |] [frequency |]];
    unfold set_scan_settings; cbn [rq_range rq_resolution rq_frequency];
    unfold bind;
    rewrite ?(set_scan_range_locked scanner s _ Hlocked);
    cbn [final emitted completion];
    rewrite ?(set_scan_resolution_locked scanner s _ Hlocked);
    cbn [final emitted completion];
    rewrite ?(set_scan_frequency_locked scanner s _ Hlocked);
    reflexivity.
Qed.

Lemma set_scan_settings_is_noop_while_running_witness :
  final (set_scan_settings Sample.scanner_xy
           (mkRequest (Some [("x", (0, 1 # 2)%Q)]) None (Some 10%Q))
           Sample.logic_running) = Sample.logic_running.
Proof.
  rewrite (set_scan_settings_is_noop_while_running Sample.scanner_xy
             Sample.logic_running
             (mkRequest (Some [("x", (0, 1 # 2)%Q)]) None (Some 10%Q)) eq_refl).
  reflexivity.
Defined.

(** ** Starting a scan: what is left alone *)

Section SettingsPhase.

Context {B : Type} (proj : Logic -> B).
Hypothesis proj_ranges : forall v s, proj (with_scan_ranges v s) = proj s.
Hypothesis proj_resolution :
  forall v s, proj (with_scan_resolution v s) = proj s.
Hypothesis proj_frequency : forall v s, proj (with_scan_frequency v s) = proj s.
Hypothesis proj_interval :
  forall v s, proj (with_scan_update_interval v s) = proj s.

Lemma lookup_all_keeps {V : Type} (d : gmap string V) (scan_axes : list string) :
  keeps proj (lookup_all d scan_axes).
Proof.
  induction scan_axes as [| ax rest IH]; cbn [lookup_all]; keeps_auto.
  exact IH.
Qed.

Lemma reconcile_loop_keeps (new_settings : ScanSettings)
    (scan_axes : list string) :
  forall ax_index : nat,
    keeps proj (reconcile_loop new_settings ax_index scan_axes).
Proof.
  induction scan_axes as [| ax rest IH]; intros ax_index;
    cbn [reconcile_loop]; keeps_auto;
    try (apply keeps_modify; intros ?; auto).
  apply IH.
Qed.

Lemma frequency_update_keeps (changed : bool) (f : Q) :
  keeps proj
    (if changed
     then modify (with_scan_frequency f);;
          emit (sigScanSettingsChanged (frequency_dict f))
     else ret tt).
Proof. keeps_auto. apply keeps_modify. intros ?. auto. Qed.

Lemma compute_update_interval_keeps (scan_axes : list string) :
  keeps proj (compute_update_interval scan_axes).
Proof.
  unfold compute_update_interval. keeps_auto.
  apply keeps_modify. intros ?. auto.
Qed.

End SettingsPhase.

Ltac keeps_start :=
  repeat first
    [ progress keeps_auto
    | progress cbv zeta
    | apply lookup_all_keeps; intros; reflexivity
    | apply reconcile_loop_keeps; intros; reflexivity
    | apply compute_update_interval_keeps; intros; reflexivity
    | apply keeps_modify; intros ?; reflexivity ].

(** X9: a start request never touches the scan history, its cursor or the
    configuration options (history length, update intervals), whatever the
    axes, the module state, the answers of the scanner and the outcome of
    the request. *)
Theorem start_keeps_history_and_options
    (scanner : Scanner) (s : Logic) (scan_axes : option (list string)) :
  history_and_options (final (toggle_scan scanner true scan_axes s))
  = history_and_options s.
Proof.
  revert s.
  change (keeps history_and_options (toggle_scan scanner true scan_axes)).
  unfold toggle_scan, start_branch. keeps_start.
Qed.

Lemma keeps_unless_zero_of_keeps {B : Type} (proj : Logic -> B) (c : M Z) :
  keeps proj c -> keeps_unless_zero proj c.
Proof. intros Hc s. left. apply Hc. Qed.

Lemma keeps_unless_zero_bind {A B : Type} (proj : Logic -> B) (c : M A)
    (k : A -> M Z) :
  keeps proj c -> (forall a, keeps_unless_zero proj (k a)) ->
  keeps_unless_zero proj (bind c k).
Proof.
  intros Hc Hk s. unfold bind. specialize (Hc s).
  destruct (c s) as [s1 e1 [a | x]]; simpl in *; [| left; exact Hc].
  destruct (Hk a s1) as [Hkept | Hzero]; [left; congruence | right; exact Hzero].
Qed.

Ltac keeps_unless_zero_auto :=
  repeat match goal with
         | |- keeps_unless_zero _ _ => solve [intros ?; right; reflexivity]
         | |- keeps_unless_zero _ (bind _ _) =>
             apply keeps_unless_zero_bind; [keeps_start | intros ?]
         | |- keeps_unless_zero _ (if ?b then _ else _) => destruct b
         | |- keeps_unless_zero _ (match ?o with Some _ => _ | None => _ end) =>
             destruct o
         | |- keeps_unless_zero _ _ => progress cbv zeta
         end.

Lemma start_branch_keeps_timer_unless_zero (scanner : Scanner)
    (scan_axes : option (list string)) :
  keeps_unless_zero (fun s => __timer s) (start_branch scanner scan_axes).
Proof.
  unfold start_branch. keeps_unless_zero_auto.
  all: apply keeps_unless_zero_of_keeps; keeps_start.
Qed.

Lemma start_branch_failure (scanner : Scanner) (scan_axes : list string)
    (s : Logic) :
  module_state s = idle ->
  completion (start_branch scanner (Some scan_axes) s) = Returned (-1) ->
  module_state (final (start_branch scanner (Some scan_axes) s)) = idle.
Proof.
  intros Hidle. unfold start_branch.
  destruct (negb ((0 <? Z.of_nat (length scan_axes))
                  && (Z.of_nat (length scan_axes) <? 3))); [intros _; exact Hidle |].
  rewrite !bind_modify, bind_get.
  set (s1 := with_current_scan (Some scan_axes) (with_module_state locked s)).
  intros H.
  apply bind_returned in H as (ranges & _ & H & ->).
  apply bind_returned in H as (resolutions & _ & H & ->).
  set (new_settings := configure_scan scanner _) in *.
  destruct (negb (bool_decide (Some (st_axes new_settings) = __current_scan s1)));
    [reflexivity |].
  apply bind_returned in H as ([] & _ & H & ->).
  rewrite bind_get in H |- *.
  apply bind_returned in H as ([] & _ & H & ->).
  apply bind_returned in H as ([] & _ & H & ->).
  destruct (start_scan scanner <? 0); [reflexivity | discriminate].
Qed.

(** X10: a start request made in the idle state that returns -1 (wrong
    number of axes, axes answered by configure_scan that differ from the
    requested ones, or a negative answer of start_scan) leaves the module
    idle; and unless the request returns 0 the timer is left as it was,
    also when an exception escapes. *)
Theorem failed_start_stays_idle_and_keeps_timer
    (scanner : Scanner) (s : Logic) (scan_axes : list string) :
  module_state s = idle ->
  let r := toggle_scan scanner true (Some scan_axes) s in
  (completion r = Returned (-1) -> module_state (final r) = idle)
  /\ (completion r <> Returned 0 -> __timer (final r) = __timer s).
Proof.
  intros Hidle r.
  assert (Hr : r = start_branch scanner (Some scan_axes) s).
  { subst r. unfold toggle_scan. rewrite bind_get, Hidle. reflexivity. }
  rewrite Hr. split.
  - apply start_branch_failure, Hidle.
  - intros Hnonzero.
    destruct (start_branch_keeps_timer_unless_zero scanner (Some scan_axes) s)
      as [Hkept | Hzero]; [exact Hkept | contradiction].
Qed.

Lemma failed_start_stays_idle_and_keeps_timer_witness :
  module_state
    (final (toggle_scan Bench.scanner_refusing_start true (Some ["x"; "y"])
              Sample.logic_idle)) = idle
  /\ __timer
       (final (toggle_scan Bench.scanner_refusing_start true (Some ["x"; "y"])
                 Sample.logic_idle)) = Sample.idle_timer.
Proof.
  destruct (failed_start_stays_idle_and_keeps_timer
              Bench.scanner_refusing_start Sample.logic_idle ["x"; "y"] eq_refl)
    as [Hidle Htimer].
  split; [apply Hidle; reflexivity | apply Htimer; discriminate].
Defined.

(** ** Starting a scan: outcomes *)

Lemma lookup_all_unknown {V : Type} (d : gmap string V)
    (pre post : list string) (ax : string) (s : Logic) :
  (forall a, a ∈ pre -> is_Some (d !! a)) ->
  d !! ax = None ->
  lookup_all d (pre ++ ax :: post)%list s = mkRun s [] (Raised (KeyError ax)).
Proof.
  intros Hknown Hunknown. induction pre as [| a pre IH]; cbn [lookup_all app]; simpl app.
  - rewrite Hunknown. reflexivity.
  - destruct (Hknown a) as [v Hv]; [left |].
    rewrite Hv. cbn [subscript]. rewrite bind_ret.
    unfold bind at 1. rewrite IH; [reflexivity |].
    intros a' Hin. apply Hknown. right. exact Hin.
Qed.

(** X11: a start request made in the idle state with one or two axes, one
    of which the stored scan ranges do not have, raises KeyError for the
    first such axis after the module was locked and the axes were noted:
    the module is left locked with these axes as current scan, nothing is
    signalled or logged and nothing else has changed. *)
Theorem start_with_unknown_axis_raises_and_stays_locked
    (scanner : Scanner) (s : Logic) (pre post : list string) (ax : string) :
  module_state s = idle ->
  (length (pre ++ ax :: post)%list <= 2)%nat ->
  (forall a, a ∈ pre -> is_Some (_scan_ranges s !! a)) ->
  _scan_ranges s !! ax = None ->
  toggle_scan scanner true (Some (pre ++ ax :: post)%list) s =
    mkRun (with_current_scan (Some (pre ++ ax :: post)%list)
             (with_module_state locked s))
      [] (Raised (KeyError ax)).
Proof.
  intros Hidle Hlen Hknown Hunknown.
  unfold toggle_scan. rewrite bind_get, Hidle. cbn [andb negb is_idle].
  unfold start_branch.
  destruct (negb ((0 <? Z.of_nat (length (pre ++ ax :: post)%list))
                  && (Z.of_nat (length (pre ++ ax :: post)%list) <? 3))) eqn:Htest.
  - apply negb_true_iff, andb_false_iff in Htest.
    rewrite length_app in *. simpl in *.
    destruct Htest as [Hlo | Hhi]; [apply Z.ltb_ge in Hlo | apply Z.ltb_ge in Hhi];
      lia.
  - rewrite !bind_modify, bind_get. unfold bind at 1.
    rewrite (lookup_all_unknown _ pre post ax); [reflexivity | | exact Hunknown].
    exact Hknown.
Qed.

Lemma start_with_unknown_axis_raises_and_stays_locked_witness :
  module_state
    (final (toggle_scan Sample.scanner_xy true (Some (["x"] ++ "q" :: [])%list)
              Sample.logic_idle)) = locked.
Proof.
  assert (Hknown : forall a, a ∈ ["x"] ->
            is_Some (_scan_ranges Sample.logic_idle !! a)).
  { intros a Hin. apply list_elem_of_singleton in Hin. subst a.
    eexists. vm_compute. reflexivity. }
  assert (Hlen : (length (["x"] ++ "q" :: [])%list <= 2)%nat) by (simpl; lia).
  rewrite (start_with_unknown_axis_raises_and_stays_locked Sample.scanner_xy
             Sample.logic_idle ["x"] [] "q" eq_refl Hlen Hknown eq_refl).
  reflexivity.
Defined.

Lemma lookup_all_known {V : Type} (d : gmap string V) (scan_axes : list string)
    (s : Logic) :
  (forall ax, ax ∈ scan_axes -> is_Some (d !! ax)) ->
  exists vs : list V,
    lookup_all d scan_axes s = mkRun s [] (Returned vs)
    /\ Forall2 (fun ax v => d !! ax = Some v) scan_axes vs.
Proof.
  induction scan_axes as [| ax rest IH]; intros Hknown; cbn [lookup_all].
  - exists []. split; [reflexivity | constructor].
  - destruct (Hknown ax) as [v Hv]; [left |].
    destruct IH as (vs & Hrun & Hall).
    { intros a Hin. apply Hknown. right. exact Hin. }
    exists (v :: vs). split; [| constructor; assumption].
    rewrite Hv. cbn [subscript]. rewrite bind_ret.
    unfold bind at 1. rewrite Hrun. reflexivity.
Qed.

Lemma drop_cons_inv {V : Type} (l : list V) (k : nat) (v : V) (tl : list V) :
  drop k l = v :: tl -> l !! k = Some v /\ drop (S k) l = tl.
Proof.
  intros Hdrop.
  assert (Hk : l !! k = Some v).
  { pose proof (lookup_drop l k 0) as Hlook.
    rewrite Hdrop, Nat.add_0_r in Hlook. symmetry. exact Hlook. }
  split; [exact Hk |].
  rewrite (drop_S l v k Hk) in Hdrop. congruence.
Qed.

Lemma Qeq_bool_same (q : Q) : Qeq_bool q q = true.
Proof. apply Qeq_bool_iff. reflexivity. Qed.

(** When the scanner answers with the ranges and resolutions that are
    stored, the reconciliation changes and signals nothing. *)
Lemma reconcile_loop_accepted (new_settings : ScanSettings) (s : Logic)
    (scan_axes : list string) :
  forall ax_index : nat,
    Forall2 (fun ax v => _scan_ranges s !! ax = Some v) scan_axes
      (drop ax_index (st_range new_settings)) ->
    Forall2 (fun ax v => _scan_resolution s !! ax = Some v) scan_axes
      (drop ax_index (st_resolution new_settings)) ->
    reconcile_loop new_settings ax_index scan_axes s = mkRun s [] (Returned tt).
Proof.
  induction scan_axes as [| ax rest IH]; intros ax_index Hranges Hres;
    cbn [reconcile_loop]; [reflexivity |].
  inversion Hranges as [| ? v ? tl Hv Hrest Heq1 Heq2]; subst.
  inversion Hres as [| ? w ? tl' Hw Hrest' Heq1' Heq2']; subst.
  symmetry in Heq2, Heq2'.
  apply drop_cons_inv in Heq2 as [Hlook Hdrop].
  apply drop_cons_inv in Heq2' as [Hlook' Hdrop'].
  rewrite bind_get, Hv, Hlook. cbn [subscript]. rewrite !bind_ret.
  rewrite !Qeq_bool_same. cbn [negb orb]. rewrite bind_ret, bind_get.
  rewrite Hw, Hlook'. cbn [subscript]. rewrite !bind_ret.
  rewrite Z.eqb_refl. cbn [negb]. rewrite bind_ret.
  apply IH; [rewrite Hdrop | rewrite Hdrop']; assumption.
Qed.

Lemma bind_silent {A B : Type} (c : M A) (k : A -> M B) (s s' : Logic) (a : A) :
  c s = mkRun s' [] (Returned a) -> bind c k s = k a s'.
Proof. intros Hc. unfold bind. rewrite Hc. simpl. apply run_eta. Qed.

Lemma start_branch_accepted_run (scanner : Scanner) (s : Logic)
    (scan_axes : list string) :
  (length scan_axes = 1%nat \/ length scan_axes = 2%nat) ->
  (forall ax, ax ∈ scan_axes ->
     is_Some (_scan_ranges s !! ax) /\ is_Some (_scan_resolution s !! ax)) ->
  (forall st, st_axes st = scan_axes -> configure_scan scanner st = st) ->
  let s1 := with_current_scan (Some scan_axes) (with_module_state locked s) in
  exists line_points : Z,
    (if 1 <? Z.of_nat (length scan_axes)
     then exists ax0, head scan_axes = Some ax0
                      /\ _scan_resolution s !! ax0 = Some line_points
     else line_points = 1)
    /\ start_branch scanner (Some scan_axes) s =
       if Qeq_bool (_scan_frequency s) 0
       then mkRun s1 [] (Raised ZeroDivisionError)
       else
         let seconds :=
           Py.max (_min_scan_update_interval s)
             (Py.min (_max_scan_update_interval s)
                (inject_Z line_points / _scan_frequency s)) in
         let s2 := with_scan_update_interval seconds s1 in
         if start_scan scanner <? 0
         then mkRun (with_module_state idle s2)
                [log_error UnableToStartScanner;
                 sigScanStateChanged false (Some scan_axes)]
                (Returned (-1))
         else mkRun (with_timer
                       (mkTimer scan_loop_slot (milliseconds seconds) true true)
                       s2)
                [log_debug ScannerStarted; log_debug TimerStopped;
                 log_debug TimerConnected;
                 sigScanStateChanged true (Some scan_axes);
                 log_debug StartingScanTimer]
                (Returned 0).
Proof.
  intros Hlen Hknown Hecho s1.
  destruct (lookup_all_known (_scan_ranges s1) scan_axes s1)
    as (ranges & Hranges & Hall_ranges).
  { intros ax Hin. apply (Hknown ax Hin). }
  destruct (lookup_all_known (_scan_resolution s1) scan_axes s1)
    as (resolutions & Hres & Hall_res).
  { intros ax Hin. apply (Hknown ax Hin). }
  assert (Hline : exists line_points : Z,
             if 1 <? Z.of_nat (length scan_axes)
             then exists ax0, head scan_axes = Some ax0
                              /\ _scan_resolution s !! ax0 = Some line_points
             else line_points = 1).
  { destruct (1 <? Z.of_nat (length scan_axes)); [| exists 1; reflexivity].
    destruct scan_axes as [| ax0 rest]; [simpl in Hlen; lia |].
    destruct (Hknown ax0) as [_ [lp Hlp]]; [left |].
    exists lp, ax0. split; [reflexivity | exact Hlp]. }
  destruct Hline as (line_points & Hline). exists line_points.
  split; [exact Hline |].
  unfold start_branch.
  replace (negb ((0 <? Z.of_nat (length scan_axes))
                 && (Z.of_nat (length scan_axes) <? 3))) with false
    by (destruct Hlen as [-> | ->]; reflexivity).
  rewrite !bind_modify, bind_get. fold s1.
  rewrite (bind_silent _ _ _ _ _ Hranges), (bind_silent _ _ _ _ _ Hres).
  rewrite Hecho by reflexivity. cbn [st_axes st_range st_resolution st_frequency].
  replace (__current_scan s1) with (Some scan_axes) by reflexivity.
  rewrite bool_decide_eq_true_2 by reflexivity. cbn [negb].
  rewrite (bind_silent _ _ _ _ _
             (reconcile_loop_accepted
                (mkSettings scan_axes ranges resolutions (_scan_frequency s1))
                s1 scan_axes 0 Hall_ranges Hall_res)).
  rewrite bind_get, Qeq_bool_same. cbn [negb]. rewrite bind_ret.
  unfold compute_update_interval. rewrite bind_assoc, bind_get.
  replace (_scan_frequency s1) with (_scan_frequency s) by reflexivity.
  replace (_scan_resolution s1) with (_scan_resolution s) by reflexivity.
  destruct (1 <? Z.of_nat (length scan_axes)) eqn:Htwo.
  - destruct Hline as (ax0 & Hhead & Hlp).
    destruct scan_axes as [| ax0' rest]; [discriminate |].
    injection Hhead as ->.
    cbn [lookup list_lookup subscript]. rewrite !bind_assoc, bind_ret.
    rewrite Hlp. cbn [subscript]. rewrite bind_ret.
    destruct (Qeq_bool (_scan_frequency s) 0); [reflexivity |].
    rewrite bind_modify.
    destruct (start_scan scanner <? 0); reflexivity.
  - subst line_points. rewrite bind_assoc, bind_ret.
    destruct (Qeq_bool (_scan_frequency s) 0); [reflexivity |].
    rewrite bind_modify.
    destruct (start_scan scanner <? 0); reflexivity.
Qed.

(** X12: when a start request is made in the idle state for one or two
    known axes, the scanner answers configure_scan with the settings as
    requested, the scan frequency is not zero and start_scan succeeds, the
    request returns 0 with the module locked and the axes as current scan,
    and the reconciliation changes no stored range, resolution or frequency
    and emits no settings signal: the only signal is
    sigScanStateChanged(True, axes). *)
Theorem start_with_accepted_settings_changes_no_setting
    (scanner : Scanner) (s : Logic) (scan_axes : list string) :
  module_state s = idle ->
  (length scan_axes = 1%nat \/ length scan_axes = 2%nat) ->
  (forall ax, ax ∈ scan_axes ->
     is_Some (_scan_ranges s !! ax) /\ is_Some (_scan_resolution s !! ax)) ->
  (forall st, st_axes st = scan_axes -> configure_scan scanner st = st) ->
  ~ (_scan_frequency s == 0)%Q ->
  0 <= start_scan scanner ->
  let r := toggle_scan scanner true (Some scan_axes) s in
  completion r = Returned 0
  /\ emitted r = [log_debug ScannerStarted; log_debug TimerStopped;
                  log_debug TimerConnected;
                  sigScanStateChanged true (Some scan_axes);
                  log_debug StartingScanTimer]
  /\ _scan_ranges (final r) = _scan_ranges s
  /\ _scan_resolution (final r) = _scan_resolution s
  /\ _scan_frequency (final r) = _scan_frequency s
  /\ module_state (final r) = locked
  /\ __current_scan (final r) = Some scan_axes.
Proof.
  intros Hidle Hlen Hknown Hecho Hfreq Hstart r.
  destruct (start_branch_accepted_run scanner s scan_axes Hlen Hknown Hecho)
    as (line_points & _ & Hrun).
  assert (Hr : r = start_branch scanner (Some scan_axes) s).
  { subst r. unfold toggle_scan. rewrite bind_get, Hidle. reflexivity. }
  rewrite Hr, Hrun.
  destruct (Qeq_bool (_scan_frequency s) 0) eqn:Hzero.
  - apply Qeq_bool_iff in Hzero. contradiction.
  - cbv zeta. destruct (start_scan scanner <? 0) eqn:Hcode.
    + apply Z.ltb_lt in Hcode. lia.
    + repeat split.
Qed.

Lemma start_with_accepted_settings_changes_no_setting_witness :
  emitted (toggle_scan Sample.scanner_xy true (Some ["x"; "y"])
             Sample.logic_idle)
  = [log_debug ScannerStarted; log_debug TimerStopped;
     log_debug TimerConnected; sigScanStateChanged true (Some ["x"; "y"]);
     log_debug StartingScanTimer].
Proof.
  assert (Hknown : forall ax, ax ∈ ["x"; "y"] ->
            is_Some (_scan_ranges Sample.logic_idle !! ax)
            /\ is_Some (_scan_resolution Sample.logic_idle !! ax)).
  { intros ax Hin. apply elem_of_cons in Hin as [-> | Hin].
    - split; eexists; vm_compute; reflexivity.
    - apply list_elem_of_singleton in Hin. subst ax.
      split; eexists; vm_compute; reflexivity. }
  assert (Hfreq : ~ (_scan_frequency Sample.logic_idle == 0)%Q)
    by (simpl; discriminate).
  assert (Hstart : 0 <= start_scan Sample.scanner_xy) by (simpl; lia).
  apply (start_with_accepted_settings_changes_no_setting Sample.scanner_xy
           Sample.logic_idle ["x"; "y"] eq_refl (or_intror eq_refl) Hknown
           (fun st _ => eq_refl) Hfreq Hstart).
Defined.

(** X13: when a start request is made in the idle state for one or two
    known axes, the scanner answers configure_scan with the settings as
    requested and the scan frequency is zero, the division line points /
    frequency raises ZeroDivisionError after the module was locked: the
    module is left locked with the axes as current scan, start_scan is not
    reached and nothing is signalled or logged. *)
Theorem start_with_zero_frequency_raises_and_stays_locked
    (scanner : Scanner) (s : Logic) (scan_axes : list string) :
  module_state s = idle ->
  (length scan_axes = 1%nat \/ length scan_axes = 2%nat) ->
  (forall ax, ax ∈ scan_axes ->
     is_Some (_scan_ranges s !! ax) /\ is_Some (_scan_resolution s !! ax)) ->
  (forall st, st_axes st = scan_axes -> configure_scan scanner st = st) ->
  (_scan_frequency s == 0)%Q ->
  toggle_scan scanner true (Some scan_axes) s =
    mkRun (with_current_scan (Some scan_axes) (with_module_state locked s))
      [] (Raised ZeroDivisionError).
Proof.
  intros Hidle Hlen Hknown Hecho Hfreq.
  destruct (start_branch_accepted_run scanner s scan_axes Hlen Hknown Hecho)
    as (line_points & _ & Hrun).
  unfold toggle_scan. rewrite bind_get, Hidle. cbn [andb negb is_idle].
  rewrite Hrun. apply Qeq_bool_iff in Hfreq. rewrite Hfreq. reflexivity.
Qed.

Lemma start_with_zero_frequency_raises_and_stays_locked_witness :
  completion (toggle_scan Sample.scanner_xy true (Some ["x"])
                Bench.logic_zero_frequency) = Raised ZeroDivisionError.
Proof.
  assert (Hknown : forall ax, ax ∈ ["x"] ->
            is_Some (_scan_ranges Bench.logic_zero_frequency !! ax)
            /\ is_Some (_scan_resolution Bench.logic_zero_frequency !! ax)).
  { intros ax Hin. apply list_elem_of_singleton in Hin. subst ax.
    split; eexists; vm_compute; reflexivity. }
  assert (Hfreq : (_scan_frequency Bench.logic_zero_frequency == 0)%Q)
    by reflexivity.
  rewrite (start_with_zero_frequency_raises_and_stays_locked Sample.scanner_xy
             Bench.logic_zero_frequency ["x"] eq_refl (or_introl eq_refl)
             Hknown (fun st _ => eq_refl) Hfreq).
  reflexivity.
Defined.

(** ** Stopping, and the scan loop *)

Lemma start_keeps_history (scanner : Scanner)
    (scan_axes : option (list string)) :
  keeps history_and_options (toggle_scan scanner true scan_axes).
Proof. unfold toggle_scan, start_branch. keeps_start. Qed.

Lemma start_branch_success_scan (scanner : Scanner) (scan_axes : list string)
    (s : Logic) :
  completion (start_branch scanner (Some scan_axes) s) = Returned 0 ->
  __current_scan (final (start_branch scanner (Some scan_axes) s))
  = Some scan_axes.
Proof.
  unfold start_branch.
  destruct (negb ((0 <? Z.of_nat (length scan_axes))
                  && (Z.of_nat (length scan_axes) <? 3))); [discriminate |].
  rewrite !bind_modify, bind_get.
  set (s1 := with_current_scan (Some scan_axes) (with_module_state locked s)).
  pose (proj := fun s : Logic => __current_scan s).
  intros H.
  apply bind_returned in H as (ranges & _ & H & ->).
  apply bind_returned in H as (resolutions & _ & H & ->).
  pose proof (lookup_all_keeps proj (_scan_ranges s1) scan_axes s1) as Hk1.
  set (s1' := final (lookup_all (_scan_ranges s1) scan_axes s1)) in *.
  pose proof (lookup_all_keeps proj (_scan_resolution s1) scan_axes s1')
    as Hk2.
  set (s2 := final (lookup_all (_scan_resolution s1) scan_axes s1')) in *.
  set (new_settings := configure_scan scanner _) in *.
  destruct (negb (bool_decide (Some (st_axes new_settings) = __current_scan s1)));
    [discriminate |].
  apply bind_returned in H as ([] & _ & H & ->).
  pose proof (reconcile_loop_keeps proj (fun _ _ => eq_refl)
                (fun _ _ => eq_refl) new_settings scan_axes 0 s2) as Hk3.
  set (s3 := final (reconcile_loop new_settings 0 scan_axes s2)) in *.
  rewrite bind_get in H |- *.
  apply bind_returned in H as ([] & _ & H & ->).
  pose proof (frequency_update_keeps proj (fun _ _ => eq_refl)
                (negb (Qeq_bool (_scan_frequency s3) (st_frequency new_settings)))
                (st_frequency new_settings) s3) as Hk4.
  match type of Hk4 with
  | proj ?t = _ => set (s4 := t) in *
  end.
  apply bind_returned in H as ([] & Hinterval & H & ->).
  pose proof (compute_update_interval_keeps proj (fun _ _ => eq_refl)
                scan_axes s4) as Hk5.
  set (s5 := final (compute_update_interval scan_axes s4)) in *.
  destruct (start_scan scanner <? 0); [discriminate |].
  change (proj s5 = Some scan_axes).
  rewrite Hk5, Hk4, Hk3, Hk2, Hk1. reflexivity.
Qed.

Lemma start_success_locks (scanner : Scanner) (s : Logic)
    (scan_axes : list string) :
  module_state s = idle ->
  completion (toggle_scan scanner true (Some scan_axes) s) = Returned 0 ->
  module_state (final (toggle_scan scanner true (Some scan_axes) s)) = locked
  /\ __current_scan (final (toggle_scan scanner true (Some scan_axes) s))
     = Some scan_axes.
Proof.
  intros Hidle.
  assert (Hr : toggle_scan scanner true (Some scan_axes) s
               = start_branch scanner (Some scan_axes) s).
  { unfold toggle_scan. rewrite bind_get, Hidle. reflexivity. }
  rewrite Hr. intros Hok.
  destruct (start_branch_success scanner scan_axes s Hok)
    as (s4 & Hstate & _ & _ & Hinterval & Hfinal).
  destruct (compute_update_interval_returned scan_axes s4 Hinterval)
    as (line_length & Hs5 & _).
  split; [rewrite Hfinal, Hs5; exact Hstate |].
  apply start_branch_success_scan, Hok.
Qed.

(** X14: a start request that succeeds from the idle state followed by a
    stop request whose stop_scan succeeds brings the module back to idle
    with the timer on the position loop; the history is the one from before
    the start with the oldest frames dropped as the maximum length requires
    and the frame the scanner had at the stop as its last entry, the cursor
    is on that entry, and when the history was below its maximum length
    exactly this one frame was added. *)
Theorem start_then_stop_appends_one_frame
    (scanner scanner' : Scanner) (s : Logic) (scan_axes : list string)
    (stop_axes : option (list string)) :
  module_state s = idle ->
  completion (toggle_scan scanner true (Some scan_axes) s) = Returned 0 ->
  1 <= _max_history_length s ->
  0 <= stop_scan scanner' ->
  let s' := final (toggle_scan scanner true (Some scan_axes) s) in
  let r := toggle_scan scanner' false stop_axes s' in
  let d := get_scan_data scanner' in
  completion r = Returned 0
  /\ module_state (final r) = idle
  /\ timeout_slot (__timer (final r)) = update_scanner_position_loop_slot
  /\ single_shot (__timer (final r)) = true
  /\ active (__timer (final r)) = true
  /\ _scan_history (final r) =
       (drop (Z.to_nat (Z.of_nat (length (_scan_history s))
                        - _max_history_length s + 1))
          (_scan_history s) ++ [d])%list
  /\ _curr_history_index (final r)
     = Z.of_nat (length (_scan_history (final r))) - 1
  /\ (Z.of_nat (length (_scan_history s)) < _max_history_length s ->
      _scan_history (final r) = (_scan_history s ++ [d])%list)
  /\ emitted r = [sigScanDataChanged d;
                  sigScanStateChanged false (Some scan_axes)].
Proof.
  intros Hidle Hok Hmax Hstop s' r d.
  destruct (start_success_locks scanner s scan_axes Hidle Hok)
    as [Hlocked Hcurrent].
  pose proof (start_keeps_history scanner (Some scan_axes) s) as Hkept.
  fold s' in Hlocked, Hcurrent, Hkept.
  unfold history_and_options in Hkept.
  injection Hkept as Hhistory Hindex Hlength _ _ Hposition.
  assert (Hr : r = stop_branch scanner' s').
  { subst r. unfold toggle_scan. rewrite bind_get, Hlocked. reflexivity. }
  assert (Hroom : 1 <= _max_history_length s') by (rewrite Hlength; exact Hmax).
  rewrite Hr, (stop_branch_run scanner' s' Hroom).
  destruct (stop_scan scanner' <? 0) eqn:Hcode;
    [apply Z.ltb_lt in Hcode; lia |].
  cbn [completion final emitted]. unfold appended.
  cbn [module_state __timer _scan_history _curr_history_index
         with_timer with_module_state with_curr_history_index
         with_scan_history].
  rewrite Hhistory, Hlength, Hposition, Hcurrent.
  repeat split.
  intros Hbelow.
  replace (Z.to_nat (Z.of_nat (length (_scan_history s))
                     - _max_history_length s + 1)) with 0%nat by lia.
  rewrite drop_0. reflexivity.
Qed.

Lemma start_then_stop_appends_one_frame_witness :
  _scan_history
    (final (toggle_scan Sample.scanner_xy false None
              (final (toggle_scan Sample.scanner_xy true (Some ["x"; "y"])
                        Sample.logic_idle))))
  = [Sample.frame 7 100 false].
Proof.
  assert (Hmax : 1 <= _max_history_length Sample.logic_idle) by (simpl; lia).
  assert (Hstop : 0 <= stop_scan Sample.scanner_xy) by (simpl; lia).
  destruct (start_then_stop_appends_one_frame Sample.scanner_xy
              Sample.scanner_xy Sample.logic_idle ["x"; "y"] None
              eq_refl eq_refl Hmax Hstop)
    as (_ & _ & _ & _ & _ & Hhistory & _).
  exact Hhistory.
Defined.

(** X15: with a max_history_length of zero or less a stop request while a
    scan is running cannot complete: the eviction loop empties the history
    and then pops from the empty list, so IndexError escapes before the
    frame is appended and before stop_scan is asked; the module stays
    locked, the timer is left alone and nothing is signalled or logged. *)
Theorem stop_without_history_room_raises
    (scanner : Scanner) (s : Logic) (scan_axes : option (list string)) :
  module_state s = locked ->
  _max_history_length s <= 0 ->
  toggle_scan scanner false scan_axes s =
    mkRun (with_scan_history [] s) [] (Raised IndexError).
Proof.
  intros Hlocked Hmax. unfold toggle_scan.
  rewrite bind_get, Hlocked. cbn [andb negb is_idle].
  unfold stop_branch, bind at 1.
  rewrite (append_to_history_raises _ s Hmax). reflexivity.
Qed.

Lemma stop_without_history_room_raises_witness :
  completion (toggle_scan Sample.scanner_xy false None
                Bench.logic_running_without_room) = Raised IndexError
  /\ module_state
       (final (toggle_scan Sample.scanner_xy false None
                 Bench.logic_running_without_room)) = locked.
Proof.
  assert (Hmax : _max_history_length Bench.logic_running_without_room <= 0)
    by (simpl; lia).
  rewrite (stop_without_history_room_raises Sample.scanner_xy
             Bench.logic_running_without_room None eq_refl Hmax).
  split; reflexivity.
Defined.

(** X16: the scan loop does nothing at all when the module is idle; and on
    a frame that is not finished, while the module is locked, it publishes
    the frame with sigScanDataChanged and starts the timer again, leaving
    the module locked, the history and everything else as they were and not
    asking the scanner to stop. *)
Theorem scan_loop_idle_and_unfinished (scanner : Scanner) (s : Logic) :
  (module_state s = idle -> _scan_loop scanner s = mkRun s [] (Returned tt))
  /\ (module_state s = locked ->
      is_finished (get_scan_data scanner) = false ->
      _scan_loop scanner s =
        mkRun (with_timer
                 (mkTimer (timeout_slot (__timer s)) (interval (__timer s))
                    (single_shot (__timer s)) true) s)
          [sigScanDataChanged (get_scan_data scanner)] (Returned tt)).
Proof.
  split.
  - intros Hidle. unfold _scan_loop. rewrite bind_get, Hidle. reflexivity.
  - intros Hlocked Hfin. unfold _scan_loop.
    rewrite bind_get, Hlocked. cbn [is_idle]. cbv zeta. rewrite Hfin.
    reflexivity.
Qed.

Lemma scan_loop_idle_and_unfinished_witness :
  _scan_loop Sample.scanner_xy Sample.logic_idle
  = mkRun Sample.logic_idle [] (Returned tt)
  /\ final (_scan_loop Sample.scanner_xy Sample.logic_running)
     = Sample.logic_running.
Proof.
  destruct (scan_loop_idle_and_unfinished Sample.scanner_xy Sample.logic_idle)
    as [Hidle _].
  destruct (scan_loop_idle_and_unfinished Sample.scanner_xy
              Sample.logic_running) as [_ Hunfinished].
  split; [apply Hidle; reflexivity |].
  rewrite (Hunfinished eq_refl eq_refl). reflexivity.
Defined.

(** X17: on a finished frame, while the module is locked and the history
    has room, the scan loop ends the scan whatever stop_scan answers: the
    module becomes idle and the timer goes back to the position loop also
    when stop_scan fails, which is then only logged; sigScanStateChanged
    (False, axes) and one sigScanDataChanged are emitted. *)
Theorem scan_loop_ends_finished_scan (scanner : Scanner) (s : Logic) :
  module_state s = locked ->
  1 <= _max_history_length s ->
  is_finished (get_scan_data scanner) = true ->
  let r := _scan_loop scanner s in
  module_state (final r) = idle
  /\ timeout_slot (__timer (final r)) = update_scanner_position_loop_slot
  /\ single_shot (__timer (final r)) = true
  /\ active (__timer (final r)) = true
  /\ emitted r =
       ((if stop_scan scanner <? 0 then [log_error UnableToStopScan] else [])
        ++ [sigScanStateChanged false (__current_scan s);
            sigScanDataChanged (get_scan_data scanner)])%list
  /\ completion r = Returned tt.
Proof.
  intros Hlocked Hmax Hfin r. subst r.
  rewrite (scan_loop_finished_run scanner s Hlocked Hmax Hfin).
  repeat split.
Qed.

Lemma scan_loop_ends_finished_scan_witness :
  module_state
    (final (_scan_loop
              (mkScanner (axes Sample.scanner_done) (fun st => st) 0 (-1)
                 (Sample.frame 8 100 true))
              Sample.logic_running)) = idle.
Proof.
  assert (Hmax : 1 <= _max_history_length Sample.logic_running)
    by (simpl; lia).
  apply (scan_loop_ends_finished_scan
           (mkScanner (axes Sample.scanner_done) (fun st => st) 0 (-1)
              (Sample.frame 8 100 true))
           Sample.logic_running eq_refl Hmax eq_refl).
Defined.

Lemma evict_loop_keeps_settings (max_len : Z) (h : list ScanData) :
  keeps scan_settings_of (evict_loop max_len h).
Proof.
  induction h as [| d t IH]; cbn [evict_loop]; keeps_auto. exact IH.
Qed.

(** X18: neither a stop request nor the scan loop ever changes a stored
    scan range, resolution or frequency, whatever the module state, the
    answers of the scanner and the outcome. *)
Theorem stop_and_scan_loop_keep_settings
    (scanner : Scanner) (s : Logic) (scan_axes : option (list string)) :
  scan_settings_of (final (toggle_scan scanner false scan_axes s))
  = scan_settings_of s
  /\ scan_settings_of (final (_scan_loop scanner s)) = scan_settings_of s.
Proof.
  split.
  - revert s.
    change (keeps scan_settings_of (toggle_scan scanner false scan_axes)).
    unfold toggle_scan, stop_branch, append_to_history. cbv zeta.
    keeps_auto. apply evict_loop_keeps_settings.
  - revert s. change (keeps scan_settings_of (_scan_loop scanner)).
    unfold _scan_loop, append_to_history. cbv zeta.
    keeps_auto. apply evict_loop_keeps_settings.
Qed.

(** ** History navigation: successful restores *)

Section RestoreFacts.

Variable clip_value : ScannerAxis -> Q -> Q.
Variable clip_resolution : ScannerAxis -> Z -> Z.

Lemma settings_id (s : Logic) :
  with_scan_ranges (_scan_ranges s)
    (with_scan_resolution (_scan_resolution s) s) = s.
Proof. destruct s; reflexivity. Qed.

Lemma restore_loop_run (ax_constr : gmap string ScannerAxis) (data : ScanData)
    (scan_axes : list string) :
  forall (i : nat) (s : Logic),
    (forall ax, ax ∈ scan_axes -> is_Some (ax_constr !! ax)) ->
    (i + length scan_axes <= length (scan_resolution data))%nat ->
    (i + length scan_axes <= length (scan_range data))%nat ->
    exists (rs : gmap string (Q * Q)) (zs : gmap string Z),
      restore_loop clip_value clip_resolution ax_constr data i scan_axes s =
        mkRun (with_scan_ranges rs (with_scan_resolution zs s)) []
          (Returned tt)
      /\ (forall ax, ax ∉ scan_axes ->
            rs !! ax = _scan_ranges s !! ax
            /\ zs !! ax = _scan_resolution s !! ax)
      /\ (NoDup scan_axes ->
          forall j ax c z rng,
            scan_axes !! j = Some ax -> ax_constr !! ax = Some c ->
            scan_resolution data !! (i + j)%nat = Some z ->
            scan_range data !! (i + j)%nat = Some rng ->
            zs !! ax = Some (clip_resolution c z)
            /\ rs !! ax = Some (clip_value c rng.1, clip_value c rng.2)).
Proof.
  induction scan_axes as [| ax rest IH]; intros i s Hconstr Hres Hrng.
  - exists (_scan_ranges s), (_scan_resolution s). rewrite settings_id.
    split; [reflexivity |]. split; [tauto |].
    intros _ j ax c z rng Hj. inversion Hj.
  - destruct (Hconstr ax) as [c Hc]; [left |].
    simpl length in Hres, Hrng.
    destruct (lookup_lt_is_Some_2 (scan_resolution data) i) as [z Hz]; [lia |].
    destruct (lookup_lt_is_Some_2 (scan_range data) i) as [rng Hr]; [lia |].
    set (s1 := with_scan_ranges
                 (<[ax := (clip_value c rng.1, clip_value c rng.2)]>
                    (_scan_ranges s))
                 (with_scan_resolution
                    (<[ax := clip_resolution c z]> (_scan_resolution s)) s)).
    destruct (IH (S i) s1) as (rs & zs & Hrun & Hother & Hvalues);
      [intros a Hin; apply Hconstr; right; exact Hin | lia | lia |].
    exists rs, zs. split; [| split].
    + cbn [restore_loop]. rewrite Hc, Hz. cbn [subscript].
      rewrite !bind_ret, bind_modify. cbn [_scan_resolution with_scan_resolution].
      rewrite Hr. cbn [subscript]. rewrite bind_ret, bind_modify. exact Hrun.
    + intros a Hnotin. apply not_elem_of_cons in Hnotin as [Hne Hnotin].
      destruct (Hother a Hnotin) as [Hrs Hzs]. rewrite Hrs, Hzs.
      subst s1. simpl. rewrite !lookup_insert_ne by congruence. tauto.
    + intros Hnodup j a c' z' rng' Hj Hc' Hz' Hr'.
      apply NoDup_cons in Hnodup as [Hfresh Hnodup].
      destruct j as [| j].
      * injection Hj as <-. rewrite Nat.add_0_r in Hz', Hr'.
        destruct (Hother ax Hfresh) as [Hrs Hzs]. rewrite Hrs, Hzs.
        subst s1. simpl. rewrite !lookup_insert_eq.
        split; congruence.
      * apply (Hvalues Hnodup j a c' z' rng' Hj Hc').
        -- rewrite Nat.add_succ_r in Hz'. exact Hz'.
        -- rewrite Nat.add_succ_r in Hr'. exact Hr'.
Qed.

Lemma index_of_nat {A : Type} (l : list A) (n : nat) :
  Py.index l (Z.of_nat n) = l !! n.
Proof.
  unfold Py.index.
  destruct (0 <=? Z.of_nat n) eqn:Hsign; [| apply Z.leb_gt in Hsign; lia].
  rewrite Nat2Z.id. clear Hsign. revert n.
  induction l as [| x l IH]; intros [| n]; simpl; auto.
Qed.

(** The run of a restore on a valid index whose frame can be restored. *)
Lemma restore_from_history_run (scanner : Scanner) (s : Logic) (n : nat)
    (data : ScanData) :
  module_state s = idle ->
  _scan_history s !! n = Some data ->
  restorable scanner data ->
  exists (rs : gmap string (Q * Q)) (zs : gmap string Z),
    let s' := with_curr_history_index (Z.of_nat n)
                (with_scan_frequency (scan_frequency data)
                   (with_scan_ranges rs (with_scan_resolution zs s))) in
    restore_from_history clip_value clip_resolution scanner (Z.of_nat n) s =
      mkRun s' [printed (full_dict s'); sigScanSettingsChanged (full_dict s');
                sigScanDataChanged data] (Returned tt)
    /\ (forall ax, ax ∉ scan_axes data ->
          rs !! ax = _scan_ranges s !! ax
          /\ zs !! ax = _scan_resolution s !! ax)
    /\ (NoDup (scan_axes data) ->
        forall j ax c z rng,
          scan_axes data !! j = Some ax -> axes scanner !! ax = Some c ->
          scan_resolution data !! j = Some z ->
          scan_range data !! j = Some rng ->
          zs !! ax = Some (clip_resolution c z)
          /\ rs !! ax = Some (clip_value c rng.1, clip_value c rng.2)).
Proof.
  intros Hidle Hdata (Hconstr & Hres & Hrng).
  destruct (restore_loop_run (axes scanner) data (scan_axes data) 0 s
              Hconstr Hres Hrng) as (rs & zs & Hrun & Hother & Hvalues).
  exists rs, zs. split; [| split; [exact Hother | exact Hvalues]].
  unfold restore_from_history.
  rewrite bind_get, Hidle, index_of_nat, Hdata. cbn [negb is_idle].
  rewrite (bind_silent _ _ _ _ _ Hrun), !bind_modify, bind_get.
  reflexivity.
Qed.

End RestoreFacts.

(** X19: in the idle state, restore_from_history on an index inside the
    history whose frame has a constraint for each of its (distinct) axes and
    a resolution and a range for each of them succeeds: the cursor becomes
    the index, the scan frequency becomes the one of the frame as it is, each
    axis of the frame gets the clipped resolution and the pair of clipped
    range bounds of the frame, the other axes keep their settings, the
    history and the module state are kept, and the full settings and the
    frame are signalled. *)
Theorem restore_from_history_restores_frame
    (clip_value : ScannerAxis -> Q -> Q) (clip_resolution : ScannerAxis -> Z -> Z)
    (scanner : Scanner) (s : Logic) (n : nat) (data : ScanData) :
  module_state s = idle ->
  _scan_history s !! n = Some data ->
  restorable scanner data ->
  NoDup (scan_axes data) ->
  let r := restore_from_history clip_value clip_resolution scanner
             (Z.of_nat n) s in
  completion r = Returned tt
  /\ _curr_history_index (final r) = Z.of_nat n
  /\ _scan_frequency (final r) = scan_frequency data
  /\ _scan_history (final r) = _scan_history s
  /\ module_state (final r) = idle
  /\ emitted r = [printed (full_dict (final r));
                  sigScanSettingsChanged (full_dict (final r));
                  sigScanDataChanged data]
  /\ (forall j ax c z rng,
        scan_axes data !! j = Some ax -> axes scanner !! ax = Some c ->
        scan_resolution data !! j = Some z -> scan_range data !! j = Some rng ->
        _scan_resolution (final r) !! ax = Some (clip_resolution c z)
        /\ _scan_ranges (final r) !! ax
           = Some (clip_value c rng.1, clip_value c rng.2))
  /\ (forall ax, ax ∉ scan_axes data ->
        _scan_ranges (final r) !! ax = _scan_ranges s !! ax
        /\ _scan_resolution (final r) !! ax = _scan_resolution s !! ax).
Proof.
  intros Hidle Hdata Hrestorable Hnodup r.
  destruct (restore_from_history_run clip_value clip_resolution scanner s n
              data Hidle Hdata Hrestorable)
    as (rs & zs & Hrun & Hother & Hvalues).
  subst r. cbv zeta in Hrun. rewrite Hrun. cbn.
  repeat split; try exact Hidle.
  - apply (Hvalues Hnodup j ax c z rng); assumption.
  - apply (Hvalues Hnodup j ax c z rng); assumption.
  - apply (Hother ax); assumption.
  - apply (Hother ax); assumption.
Qed.

Lemma restore_from_history_restores_frame_witness :
  _curr_history_index
    (final (restore_from_history (fun _ v => v) (fun _ z => z)
              Sample.scanner_xy (Z.of_nat 1) Sample.logic_with_history)) = 1
  /\ _scan_frequency
       (final (restore_from_history (fun _ v => v) (fun _ z => z)
                 Sample.scanner_xy (Z.of_nat 1) Sample.logic_with_history))
     = 20%Q.
Proof.
  assert (Hrestorable : restorable Sample.scanner_xy (Sample.frame 2 20 true)).
  { split; [| split; simpl; lia].
    intros ax Hin. apply elem_of_cons in Hin as [-> | Hin].
    - eexists. vm_compute. reflexivity.
    - apply list_elem_of_singleton in Hin. subst ax.
      eexists. vm_compute. reflexivity. }
  assert (Hnodup : NoDup (scan_axes (Sample.frame 2 20 true))).
  { apply NoDup_cons. split; [| apply NoDup_singleton].
    intros Hin. apply list_elem_of_singleton in Hin. discriminate. }
  destruct (restore_from_history_restores_frame (fun _ v => v) (fun _ z => z)
              Sample.scanner_xy Sample.logic_with_history 1
              (Sample.frame 2 20 true) eq_refl eq_refl Hrestorable Hnodup)
    as (_ & Hcursor & Hfrequency & _).
  split; [exact Hcursor | exact Hfrequency].
Defined.

(** X20: while a scan is running the history cannot be navigated:
    restore_from_history, history_previous and history_next leave the object
    as it was for every index and every cursor, and log one message (the
    busy error, or the boundary warning of the wrapper when the cursor is
    already at that end). *)
Theorem history_navigation_is_refused_while_running
    (clip_value : ScannerAxis -> Q -> Q) (clip_resolution : ScannerAxis -> Z -> Z)
    (scanner : Scanner) (s : Logic) (index : Z) :
  module_state s = locked ->
  restore_from_history clip_value clip_resolution scanner index s
  = mkRun s [log_error ScanRunningHistory] (Returned tt)
  /\ (exists m, history_previous clip_value clip_resolution scanner s
                = mkRun s [m] (Returned tt))
  /\ (exists m, history_next clip_value clip_resolution scanner s
                = mkRun s [m] (Returned tt)).
Proof.
  intros Hlocked.
  assert (Hrestore : forall i,
            restore_from_history clip_value clip_resolution scanner i s
            = mkRun s [log_error ScanRunningHistory] (Returned tt)).
  { intros i. unfold restore_from_history.
    rewrite bind_get, Hlocked. reflexivity. }
  split; [apply Hrestore |]. split.
  - unfold history_previous. rewrite bind_get.
    destruct (_curr_history_index s <? 1); eexists; [reflexivity | apply Hrestore].
  - unfold history_next. rewrite bind_get.
    destruct (_curr_history_index s
              >=? Z.of_nat (length (_scan_history s)) - 1);
      eexists; [reflexivity | apply Hrestore].
Qed.

Lemma history_navigation_is_refused_while_running_witness :
  final (restore_from_history (fun _ v => v) (fun _ z => z) Sample.scanner_xy 0
           Sample.logic_running) = Sample.logic_running.
Proof.
  destruct (history_navigation_is_refused_while_running (fun _ v => v)
              (fun _ z => z) Sample.scanner_xy Sample.logic_running 0 eq_refl)
    as (Hrestore & _).
  rewrite Hrestore. reflexivity.
Defined.

(** X21: at the ends of the history the wrappers only warn: history_previous
    with the cursor at 0 (or below 1) and history_next with the cursor at
    the last index (or beyond) leave the object as it was, in either module
    state, and an empty history is at both ends at once. *)
Theorem history_wrappers_warn_at_the_ends
    (clip_value : ScannerAxis -> Q -> Q) (clip_resolution : ScannerAxis -> Z -> Z)
    (scanner : Scanner) (s : Logic) :
  (_curr_history_index s < 1 ->
     history_previous clip_value clip_resolution scanner s
     = mkRun s [log_warning AtEarliestHistoryEntry] (Returned tt))
  /\ (Z.of_nat (length (_scan_history s)) - 1 <= _curr_history_index s ->
      history_next clip_value clip_resolution scanner s
      = mkRun s [log_warning AtLatestHistoryEntry] (Returned tt))
  /\ (_scan_history s = [] -> _curr_history_index s = 0 ->
      final (history_previous clip_value clip_resolution scanner s) = s
      /\ final (history_next clip_value clip_resolution scanner s) = s).
Proof.
  assert (Hprevious : _curr_history_index s < 1 ->
            history_previous clip_value clip_resolution scanner s
            = mkRun s [log_warning AtEarliestHistoryEntry] (Returned tt)).
  { intros Hfirst. unfold history_previous. rewrite bind_get.
    destruct (_curr_history_index s <? 1) eqn:Htest;
      [reflexivity | apply Z.ltb_ge in Htest; lia]. }
  assert (Hnext : Z.of_nat (length (_scan_history s)) - 1
                  <= _curr_history_index s ->
            history_next clip_value clip_resolution scanner s
            = mkRun s [log_warning AtLatestHistoryEntry] (Returned tt)).
  { intros Hlast. unfold history_next. rewrite bind_get.
    case_geb (_curr_history_index s)
             (Z.of_nat (length (_scan_history s)) - 1);
      [reflexivity | lia]. }
  split; [exact Hprevious |]. split; [exact Hnext |].
  intros Hempty Hcursor. split.
  - rewrite Hprevious by lia. reflexivity.
  - rewrite Hnext by (rewrite Hempty; simpl; lia). reflexivity.
Qed.

Lemma history_wrappers_warn_at_the_ends_witness :
  final (history_previous (fun _ v => v) (fun _ z => z) Sample.scanner_xy
           Sample.logic_idle) = Sample.logic_idle
  /\ final (history_next (fun _ v => v) (fun _ z => z) Sample.scanner_xy
              Sample.logic_idle) = Sample.logic_idle.
Proof.
  destruct (history_wrappers_warn_at_the_ends (fun _ v => v) (fun _ z => z)
              Sample.scanner_xy Sample.logic_idle) as (_ & _ & Hempty).
  apply Hempty; reflexivity.
Defined.

(** X22: in the idle state, with the cursor on an entry that has an entry
    before it, and both frames restorable, history_previous moves the cursor
    one entry back and takes the frequency of that frame, and history_next
    after it brings the cursor back where it was, with the frequency of the
    frame there; the history itself is the same after both steps and the
    module stays idle. *)
Theorem history_previous_then_next_returns
    (clip_value : ScannerAxis -> Q -> Q) (clip_resolution : ScannerAxis -> Z -> Z)
    (scanner : Scanner) (s : Logic) (n : nat) (before here : ScanData) :
  module_state s = idle ->
  _curr_history_index s = Z.of_nat (S n) ->
  _scan_history s !! n = Some before ->
  _scan_history s !! S n = Some here ->
  restorable scanner before ->
  restorable scanner here ->
  let back := final (history_previous clip_value clip_resolution scanner s) in
  let again :=
    final (history_next clip_value clip_resolution scanner back) in
  _curr_history_index back = Z.of_nat n
  /\ _scan_frequency back = scan_frequency before
  /\ _curr_history_index again = _curr_history_index s
  /\ _scan_frequency again = scan_frequency here
  /\ _scan_history again = _scan_history s
  /\ module_state again = idle.
Proof.
  intros Hidle Hcursor Hbefore Hhere Hrb Hrh back again.
  destruct (restore_from_history_run clip_value clip_resolution scanner s n
              before Hidle Hbefore Hrb) as (rs & zs & Hrun & _).
  cbv zeta in Hrun.
  assert (Hback : back = with_curr_history_index (Z.of_nat n)
                           (with_scan_frequency (scan_frequency before)
                              (with_scan_ranges rs
                                 (with_scan_resolution zs s)))).
  { subst back. unfold history_previous. rewrite bind_get, Hcursor.
    destruct (Z.of_nat (S n) <? 1) eqn:Htest; [apply Z.ltb_lt in Htest; lia |].
    replace (Z.of_nat (S n) - 1) with (Z.of_nat n) by lia.
    rewrite Hrun. reflexivity. }
  assert (Hidle' : module_state back = idle) by (rewrite Hback; exact Hidle).
  assert (Hhere' : _scan_history back !! S n = Some here)
    by (rewrite Hback; exact Hhere).
  destruct (restore_from_history_run clip_value clip_resolution scanner back
              (S n) here Hidle' Hhere' Hrh) as (rs' & zs' & Hrun' & _).
  cbv zeta in Hrun'.
  assert (Hagain : again = with_curr_history_index (Z.of_nat (S n))
                             (with_scan_frequency (scan_frequency here)
                                (with_scan_ranges rs'
                                   (with_scan_resolution zs' back)))).
  { subst again. unfold history_next. rewrite bind_get.
    assert (Hlen : (S n < length (_scan_history back))%nat)
      by (apply lookup_lt_Some in Hhere'; exact Hhere').
    replace (_curr_history_index back) with (Z.of_nat n)
      by (rewrite Hback; reflexivity).
    case_geb (Z.of_nat n) (Z.of_nat (length (_scan_history back)) - 1);
      [lia |].
    replace (Z.of_nat n + 1) with (Z.of_nat (S n)) by lia.
    rewrite Hrun'. reflexivity. }
  rewrite Hagain, Hcursor. rewrite Hback. repeat split. exact Hidle.
Qed.

Lemma history_previous_then_next_returns_witness :
  _curr_history_index
    (final (history_next (fun _ v => v) (fun _ z => z) Sample.scanner_xy
              (final (history_previous (fun _ v => v) (fun _ z => z)
                        Sample.scanner_xy Bench.logic_at_second_frame))))
  = 1.
Proof.
  assert (Hrestorable : forall tag f,
            restorable Sample.scanner_xy (Sample.frame tag f true)).
  { intros tag f. split; [| split; simpl; lia].
    intros ax Hin. apply elem_of_cons in Hin as [-> | Hin].
    - eexists. vm_compute. reflexivity.
    - apply list_elem_of_singleton in Hin. subst ax.
      eexists. vm_compute. reflexivity. }
  destruct (history_previous_then_next_returns (fun _ v => v) (fun _ z => z)
              Sample.scanner_xy Bench.logic_at_second_frame 0
              (Sample.frame 1 10 true) (Sample.frame 2 20 true)
              eq_refl eq_refl eq_refl eq_refl (Hrestorable _ _)
              (Hrestorable _ _)) as (_ & _ & Hcursor & _).
  exact Hcursor.
Defined.

(** ** The current frame *)

(** X23: right after a stop request that completes (module locked before,
    room in the history, stop_scan successful) the property scan_data gives
    the frame that the stop appended, not what the scanner holds at the time
    of reading; while a scan is running, and when the history is empty, it
    gives what the scanner holds. *)
Theorem scan_data_after_stop_is_the_appended_frame
    (scanner later : Scanner) (s : Logic) (scan_axes : option (list string)) :
  (module_state s = locked ->
   1 <= _max_history_length s ->
   0 <= stop_scan scanner ->
   scan_data later (final (toggle_scan scanner false scan_axes s))
   = mkRun (final (toggle_scan scanner false scan_axes s)) []
       (Returned (get_scan_data scanner)))
  /\ (module_state s = locked \/ _scan_history s = [] ->
      scan_data later s = mkRun s [] (Returned (get_scan_data later))).
Proof.
  split.
  - intros Hlocked Hmax Hstop.
    assert (Hr : toggle_scan scanner false scan_axes s = stop_branch scanner s).
    { unfold toggle_scan. rewrite bind_get, Hlocked. reflexivity. }
    rewrite Hr, (stop_branch_run scanner s Hmax).
    destruct (stop_scan scanner <? 0) eqn:Hcode;
      [apply Z.ltb_lt in Hcode; lia |].
    cbn [final]. unfold scan_data. rewrite bind_get.
    set (h := drop (Z.to_nat (Z.of_nat (length (_scan_history s))
                              - _max_history_length s + 1))
                (_scan_history s)).
    cbn [module_state with_timer with_module_state is_idle negb orb].
    replace (_scan_history _) with (h ++ [get_scan_data scanner])%list
      by reflexivity.
    replace (_curr_history_index _) with
      (Z.of_nat (length (h ++ [get_scan_data scanner])%list) - 1)
      by reflexivity.
    rewrite bool_decide_eq_false_2 by (destruct h; discriminate).
    replace (Z.of_nat (length (h ++ [get_scan_data scanner])%list) - 1)
      with (Z.of_nat (length h)) by (rewrite length_app; simpl; lia).
    rewrite index_of_nat, list_lookup_middle by reflexivity.
    reflexivity.
  - intros [Hlocked | Hempty]; unfold scan_data; rewrite bind_get.
    + rewrite Hlocked. reflexivity.
    + rewrite Hempty, bool_decide_eq_true_2 by reflexivity.
      rewrite orb_true_r. reflexivity.
Qed.

Lemma scan_data_after_stop_is_the_appended_frame_witness :
  completion
    (scan_data Sample.scanner_done
       (final (toggle_scan Sample.scanner_xy false None Sample.logic_running)))
  = Returned (Sample.frame 7 100 false).
Proof.
  assert (Hmax : 1 <= _max_history_length Sample.logic_running)
    by (simpl; lia).
  assert (Hstop : 0 <= stop_scan Sample.scanner_xy) by (simpl; lia).
  destruct (scan_data_after_stop_is_the_appended_frame Sample.scanner_xy
              Sample.scanner_done Sample.logic_running None) as [Hafter _].
  rewrite (Hafter eq_refl Hmax Hstop). reflexivity.
Defined.

(** ** An invariant of all slots: the bound of the history *)

Lemma evict_loop_keeps_max (max_len : Z) (h : list ScanData) :
  keeps (fun s => _max_history_length s) (evict_loop max_len h).
Proof.
  induction h as [| d t IH]; cbn [evict_loop]; keeps_auto. exact IH.
Qed.

Lemma restore_loop_keeps_history (clip_value : ScannerAxis -> Q -> Q)
    (clip_resolution : ScannerAxis -> Z -> Z)
    (ax_constr : gmap string ScannerAxis) (data : ScanData)
    (scan_axes : list string) :
  forall i : nat,
    keeps (fun s => (_scan_history s, _max_history_length s))
      (restore_loop clip_value clip_resolution ax_constr data i scan_axes).
Proof.
  induction scan_axes as [| ax rest IH]; intros i; cbn [restore_loop];
    keeps_auto. apply IH.
Qed.

Lemma restore_from_history_keeps_history (clip_value : ScannerAxis -> Q -> Q)
    (clip_resolution : ScannerAxis -> Z -> Z) (scanner : Scanner) (index : Z) :
  keeps (fun s => (_scan_history s, _max_history_length s))
    (restore_from_history clip_value clip_resolution scanner index).
Proof.
  unfold restore_from_history. keeps_auto.
  apply restore_loop_keeps_history.
Qed.

Lemma set_scan_range_keeps (scanner : Scanner)
    (ranges : list (string * (Q * Q))) :
  keeps besides_ranges (set_scan_range scanner ranges).
Proof.
  unfold set_scan_range. keeps_auto. apply set_scan_range_loop_keeps.
Qed.

Lemma set_scan_resolution_keeps (scanner : Scanner)
    (resolution : list (string * Z)) :
  keeps besides_resolution (set_scan_resolution scanner resolution).
Proof.
  unfold set_scan_resolution. keeps_auto.
  apply set_scan_resolution_loop_keeps.
Qed.

Lemma set_scan_frequency_keeps (scanner : Scanner) (frequency : Q) :
  keeps besides_frequency (set_scan_frequency scanner frequency).
Proof. unfold set_scan_frequency. keeps_auto. Qed.

Lemma keeps_weaken {A B C : Type} (proj : Logic -> B) (f : B -> C) (c : M A) :
  keeps proj c -> keeps (fun s => f (proj s)) c.
Proof. intros Hc s. rewrite (Hc s). reflexivity. Qed.

Lemma setters_keep_history (scanner : Scanner)
    (ranges : list (string * (Q * Q))) (resolution : list (string * Z))
    (frequency : Q) :
  keeps (fun s => (_scan_history s, _max_history_length s))
    (set_scan_range scanner ranges)
  /\ keeps (fun s => (_scan_history s, _max_history_length s))
       (set_scan_resolution scanner resolution)
  /\ keeps (fun s => (_scan_history s, _max_history_length s))
       (set_scan_frequency scanner frequency).
Proof.
  split; [| split].
  - apply (keeps_weaken besides_ranges
             (fun '(_, _, _, h, _, m, _, _, _, _, _, _) => (h, m))),
      set_scan_range_keeps.
  - apply (keeps_weaken besides_resolution
             (fun '(_, _, _, h, _, m, _, _, _, _, _, _) => (h, m))),
      set_scan_resolution_keeps.
  - apply (keeps_weaken besides_frequency
             (fun '(_, _, _, h, _, m, _, _, _, _, _, _) => (h, m))),
      set_scan_frequency_keeps.
Qed.

Lemma toggle_scan_keeps_max (scanner : Scanner) (start : bool)
    (scan_axes : option (list string)) :
  keeps (fun s => _max_history_length s) (toggle_scan scanner start scan_axes).
Proof.
  destruct start.
  - apply (keeps_weaken history_and_options
             (fun '(_, _, m, _, _, _) => m)), start_keeps_history.
  - unfold toggle_scan, stop_branch, append_to_history. cbv zeta.
    keeps_auto. apply evict_loop_keeps_max.
Qed.

Lemma scan_loop_keeps_max (scanner : Scanner) :
  keeps (fun s => _max_history_length s) (_scan_loop scanner).
Proof.
  unfold _scan_loop, append_to_history. cbv zeta.
  keeps_auto. apply evict_loop_keeps_max.
Qed.

Lemma stop_history_bound (scanner : Scanner) (s : Logic)
    (scan_axes : option (list string)) :
  0 <= _max_history_length s ->
  history_within_bound s ->
  history_within_bound (final (toggle_scan scanner false scan_axes s)).
Proof.
  intros Hmax Hbound. unfold history_within_bound.
  rewrite (toggle_scan_keeps_max scanner false scan_axes s).
  destruct (module_state s) eqn:Hstate.
  - unfold toggle_scan. rewrite bind_get, Hstate. exact Hbound.
  - assert (Hr : toggle_scan scanner false scan_axes s = stop_branch scanner s).
    { unfold toggle_scan. rewrite bind_get, Hstate. reflexivity. }
    rewrite Hr.
    destruct (Z.eq_dec (_max_history_length s) 0) as [Hzero | Hpos].
    + unfold stop_branch, bind at 1.
      rewrite (append_to_history_raises _ s) by lia. simpl. lia.
    + assert (Hroom : 1 <= _max_history_length s) by lia.
      rewrite (stop_branch_run scanner s Hroom).
      pose proof (appended_length (get_scan_data scanner) s Hroom) as Hlen.
      destruct (stop_scan scanner <? 0); exact Hlen.
Qed.

Lemma scan_loop_history_bound (scanner : Scanner) (s : Logic) :
  0 <= _max_history_length s ->
  history_within_bound s ->
  history_within_bound (final (_scan_loop scanner s)).
Proof.
  intros Hmax Hbound. unfold history_within_bound.
  rewrite (scan_loop_keeps_max scanner s).
  destruct (module_state s) eqn:Hstate.
  - unfold _scan_loop. rewrite bind_get, Hstate. exact Hbound.
  - destruct (is_finished (get_scan_data scanner)) eqn:Hfin.
    + destruct (Z.eq_dec (_max_history_length s) 0) as [Hzero | Hpos].
      * destruct (scan_loop_finished_without_room scanner s Hstate) as [-> _];
          [lia | exact Hfin | simpl; lia].
      * assert (Hroom : 1 <= _max_history_length s) by lia.
        rewrite (scan_loop_finished_run scanner s Hstate Hroom Hfin).
        apply (appended_length (get_scan_data scanner)
                 (with_module_state idle s) Hroom).
    + unfold _scan_loop. rewrite bind_get, Hstate. cbn [is_idle].
      cbv zeta. rewrite Hfin. exact Hbound.
Qed.

Lemma kept_history_bound {A : Type} (c : M A) (s : Logic) :
  keeps (fun s => (_scan_history s, _max_history_length s)) c ->
  history_within_bound s ->
  _max_history_length (final (c s)) = _max_history_length s
  /\ history_within_bound (final (c s)).
Proof.
  intros Hkeeps Hbound. specialize (Hkeeps s). injection Hkeeps as Hh Hm.
  unfold history_within_bound. rewrite Hh, Hm. tauto.
Qed.

Lemma final_then_ret {A : Type} (c : M A) (s : Logic) :
  final ((c;; ret tt) s) = final (c s).
Proof. unfold bind. destruct (c s) as [s1 e1 [a | x]]; reflexivity. Qed.

Lemma run_call_history_bound (clip_value : ScannerAxis -> Q -> Q)
    (clip_resolution : ScannerAxis -> Z -> Z) (scanner : Scanner) (c : Call)
    (s : Logic) :
  0 <= _max_history_length s ->
  history_within_bound s ->
  _max_history_length
    (final (run_call clip_value clip_resolution scanner c s))
  = _max_history_length s
  /\ history_within_bound
       (final (run_call clip_value clip_resolution scanner c s)).
Proof.
  intros Hmax Hbound.
  destruct c as [settings | ranges | resolution | frequency | start scan_axes
                | | index | |]; cbn [run_call].
  - apply kept_history_bound; [| exact Hbound].
    unfold set_scan_settings.
    keeps_auto;
      first [ apply (proj1 (setters_keep_history scanner _ [] 0))
            | apply (proj1 (proj2 (setters_keep_history scanner [] _ 0)))
            | apply (proj2 (proj2 (setters_keep_history scanner [] [] _))) ].
  - rewrite final_then_ret. apply kept_history_bound; [| exact Hbound].
    apply (proj1 (setters_keep_history scanner ranges [] 0)).
  - rewrite final_then_ret. apply kept_history_bound; [| exact Hbound].
    apply (proj1 (proj2 (setters_keep_history scanner [] resolution 0))).
  - rewrite final_then_ret. apply kept_history_bound; [| exact Hbound].
    apply (proj2 (proj2 (setters_keep_history scanner [] [] frequency))).
  - rewrite final_then_ret. destruct start.
    + apply kept_history_bound; [| exact Hbound].
      apply (keeps_weaken history_and_options
               (fun '(h, _, m, _, _, _) => (h, m))), start_keeps_history.
    + split; [apply (toggle_scan_keeps_max scanner false scan_axes s) |].
      apply stop_history_bound; assumption.
  - split; [apply (scan_loop_keeps_max scanner s) |].
    apply scan_loop_history_bound; assumption.
  - apply kept_history_bound; [| exact Hbound].
    apply restore_from_history_keeps_history.
  - apply kept_history_bound; [| exact Hbound].
    unfold history_previous. keeps_auto.
    apply restore_from_history_keeps_history.
  - apply kept_history_bound; [| exact Hbound].
    unfold history_next. keeps_auto.
    apply restore_from_history_keeps_history.
Qed.

(** X24: the bound of the history is an invariant of the class: when
    max_history_length is not negative and the history holds at most that
    many frames, then after any sequence of calls of set_scan_settings,
    set_scan_range, set_scan_resolution, set_scan_frequency, toggle_scan,
    _scan_loop, restore_from_history, history_previous and history_next,
    with any arguments, any answers of the scanner and any outcome of each
    call, max_history_length is the same and the history still holds at most
    that many frames. *)
Theorem history_bound_is_invariant
    (clip_value : ScannerAxis -> Q -> Q) (clip_resolution : ScannerAxis -> Z -> Z)
    (calls : list (Scanner * Call)) :
  forall s : Logic,
    0 <= _max_history_length s ->
    history_within_bound s ->
    _max_history_length (after_calls clip_value clip_resolution calls s)
    = _max_history_length s
    /\ history_within_bound (after_calls clip_value clip_resolution calls s).
Proof.
  induction calls as [| [scanner c] rest IH]; intros s Hmax Hbound;
    cbn [after_calls]; [tauto |].
  destruct (run_call_history_bound clip_value clip_resolution scanner c s
              Hmax Hbound) as [Hsame Hbound'].
  destruct (IH _ ltac:(rewrite Hsame; exact Hmax) Hbound') as [Hm Hb].
  split; [congruence | exact Hb].
Qed.

Lemma history_bound_is_invariant_witness :
  history_within_bound
    (after_calls (fun _ v => v) (fun _ z => z)
       [(Sample.scanner_xy, call_toggle_scan false None);
        (Sample.scanner_xy, call_toggle_scan true (Some ["x"; "y"]));
        (Sample.scanner_done, call_scan_loop);
        (Sample.scanner_xy, call_history_previous)]
       Sample.logic_running).
Proof.
  assert (Hmax : 0 <= _max_history_length Sample.logic_running)
    by (simpl; lia).
  assert (Hbound : history_within_bound Sample.logic_running)
    by (unfold history_within_bound; simpl; lia).
  apply (history_bound_is_invariant (fun _ v => v) (fun _ z => z) _
           Sample.logic_running Hmax Hbound).
Defined.

(** ** An invariant of the calls that return: timer and module state *)

Lemma restore_loop_keeps_state (clip_value : ScannerAxis -> Q -> Q)
    (clip_resolution : ScannerAxis -> Z -> Z)
    (ax_constr : gmap string ScannerAxis) (data : ScanData)
    (scan_axes : list string) :
  forall i : nat,
    keeps state_and_timer
      (restore_loop clip_value clip_resolution ax_constr data i scan_axes).
Proof.
  induction scan_axes as [| ax rest IH]; intros i; cbn [restore_loop];
    keeps_auto. apply IH.
Qed.

Lemma restore_from_history_keeps_state (clip_value : ScannerAxis -> Q -> Q)
    (clip_resolution : ScannerAxis -> Z -> Z) (scanner : Scanner) (index : Z) :
  keeps state_and_timer
    (restore_from_history clip_value clip_resolution scanner index).
Proof.
  unfold restore_from_history. keeps_auto. apply restore_loop_keeps_state.
Qed.

Lemma setters_keep_state (scanner : Scanner)
    (ranges : list (string * (Q * Q))) (resolution : list (string * Z))
    (frequency : Q) :
  keeps state_and_timer (set_scan_range scanner ranges)
  /\ keeps state_and_timer (set_scan_resolution scanner resolution)
  /\ keeps state_and_timer (set_scan_frequency scanner frequency).
Proof.
  split; [| split].
  - apply (keeps_weaken besides_ranges
             (fun '(m, _, _, _, _, _, _, _, _, _, _, t) => (m, t))),
      set_scan_range_keeps.
  - apply (keeps_weaken besides_resolution
             (fun '(m, _, _, _, _, _, _, _, _, _, _, t) => (m, t))),
      set_scan_resolution_keeps.
  - apply (keeps_weaken besides_frequency
             (fun '(m, _, _, _, _, _, _, _, _, _, _, t) => (m, t))),
      set_scan_frequency_keeps.
Qed.

Lemma kept_timer_matches_state {A : Type} (c : M A) (s : Logic) :
  keeps state_and_timer c ->
  timer_matches_state s -> timer_matches_state (final (c s)).
Proof.
  intros Hkeeps Hmatch. specialize (Hkeeps s). injection Hkeeps as Hm Ht.
  unfold timer_matches_state. rewrite Hm, Ht. exact Hmatch.
Qed.

Lemma start_branch_nonzero (scanner : Scanner) (scan_axes : option (list string))
    (s : Logic) (code : Z) :
  module_state s = idle ->
  completion (start_branch scanner scan_axes s) = Returned code ->
  code <> 0 ->
  module_state (final (start_branch scanner scan_axes s)) = idle.
Proof.
  intros Hidle. unfold start_branch.
  destruct scan_axes as [scan_axes |]; [| intros _ _; exact Hidle].
  destruct (negb ((0 <? Z.of_nat (length scan_axes))
                  && (Z.of_nat (length scan_axes) <? 3)));
    [intros _ _; exact Hidle |].
  rewrite !bind_modify, bind_get.
  set (s1 := with_current_scan (Some scan_axes) (with_module_state locked s)).
  intros H Hnonzero.
  apply bind_returned in H as (ranges & _ & H & ->).
  apply bind_returned in H as (resolutions & _ & H & ->).
  set (new_settings := configure_scan scanner _) in *.
  destruct (negb (bool_decide (Some (st_axes new_settings) = __current_scan s1)));
    [reflexivity |].
  apply bind_returned in H as ([] & _ & H & ->).
  rewrite bind_get in H |- *.
  apply bind_returned in H as ([] & _ & H & ->).
  apply bind_returned in H as ([] & _ & H & ->).
  destruct (start_scan scanner <? 0); [reflexivity |].
  injection H as <-. contradiction.
Qed.

Lemma start_branch_zero (scanner : Scanner) (scan_axes : option (list string))
    (s : Logic) :
  completion (start_branch scanner scan_axes s) = Returned 0 ->
  module_state (final (start_branch scanner scan_axes s)) = locked
  /\ timeout_slot (__timer (final (start_branch scanner scan_axes s)))
     = scan_loop_slot.
Proof.
  destruct scan_axes as [scan_axes |]; [| discriminate].
  intros Hok.
  destruct (start_branch_success scanner scan_axes s Hok)
    as (s4 & Hstate & _ & _ & Hinterval & Hfinal).
  destruct (compute_update_interval_returned scan_axes s4 Hinterval)
    as (line_length & Hs5 & _).
  rewrite Hfinal, Hs5. split; [exact Hstate | reflexivity].
Qed.

Lemma then_ret_returned {A : Type} (c : M A) (s : Logic) :
  completion ((c;; ret tt) s) = Returned tt ->
  exists a, completion (c s) = Returned a.
Proof.
  intros H. apply bind_returned in H as (a & Ha & _). eauto.
Qed.

Lemma toggle_scan_timer_matches_state (scanner : Scanner) (start : bool)
    (scan_axes : option (list string)) (s : Logic) (code : Z) :
  timer_matches_state s ->
  completion (toggle_scan scanner start scan_axes s) = Returned code ->
  timer_matches_state (final (toggle_scan scanner start scan_axes s)).
Proof.
  intros Hmatch. unfold timer_matches_state in Hmatch.
  destruct (module_state s) eqn:Hstate; destruct start.
  - assert (Hr : toggle_scan scanner true scan_axes s
                 = start_branch scanner scan_axes s).
    { unfold toggle_scan. rewrite bind_get, Hstate. reflexivity. }
    rewrite Hr. intros Hcode. unfold timer_matches_state.
    destruct (Z.eq_dec code 0) as [-> | Hnonzero].
    + destruct (start_branch_zero scanner scan_axes s Hcode) as [-> Hslot].
      exact Hslot.
    + rewrite (start_branch_nonzero scanner scan_axes s code Hstate Hcode
                 Hnonzero).
      destruct (start_branch_keeps_timer_unless_zero scanner scan_axes s)
        as [Hkept | Hzero]; [rewrite Hkept; exact Hmatch | congruence].
  - intros _. unfold toggle_scan. rewrite bind_get, Hstate.
    unfold timer_matches_state. cbn. rewrite Hstate. exact Hmatch.
  - intros _. unfold toggle_scan. rewrite bind_get, Hstate.
    unfold timer_matches_state. cbn. rewrite Hstate. exact Hmatch.
  - assert (Hr : toggle_scan scanner false scan_axes s = stop_branch scanner s).
    { unfold toggle_scan. rewrite bind_get, Hstate. reflexivity. }
    rewrite Hr.
    destruct (Z_le_dec 1 (_max_history_length s)) as [Hroom | Hnoroom].
    + rewrite (stop_branch_run scanner s Hroom). intros _.
      unfold timer_matches_state.
      destruct (stop_scan scanner <? 0); cbn; [| reflexivity].
      rewrite Hstate. exact Hmatch.
    + unfold stop_branch, bind at 1.
      rewrite (append_to_history_raises _ s) by lia. discriminate.
Qed.

Lemma scan_loop_timer_matches_state (scanner : Scanner) (s : Logic) :
  timer_matches_state s ->
  completion (_scan_loop scanner s) = Returned tt ->
  timer_matches_state (final (_scan_loop scanner s)).
Proof.
  intros Hmatch. unfold timer_matches_state in Hmatch.
  destruct (module_state s) eqn:Hstate.
  - intros _. unfold _scan_loop. rewrite bind_get, Hstate.
    unfold timer_matches_state. cbn. rewrite Hstate. exact Hmatch.
  - destruct (is_finished (get_scan_data scanner)) eqn:Hfin.
    + destruct (Z_le_dec 1 (_max_history_length s)) as [Hroom | Hnoroom].
      * rewrite (scan_loop_finished_run scanner s Hstate Hroom Hfin).
        intros _. reflexivity.
      * destruct (scan_loop_finished_without_room scanner s Hstate)
          as [_ Hraised]; [lia | exact Hfin |].
        rewrite Hraised. discriminate.
    + intros _. unfold _scan_loop. rewrite bind_get, Hstate.
      cbn [is_idle]. cbv zeta. rewrite Hfin.
      unfold timer_matches_state. cbn. rewrite Hstate. exact Hmatch.
Qed.

(** X25: every call that returns leaves the module state and the timer in
    step: if the timer is connected to the position loop while idle and to
    the scan loop while locked before a call of set_scan_settings,
    set_scan_range, set_scan_resolution, set_scan_frequency, toggle_scan,
    _scan_loop, restore_from_history, history_previous or history_next, and
    the call returns (no exception escapes), the same holds after it, for
    any arguments and any answers of the scanner. *)
Theorem returning_calls_keep_timer_and_state_in_step
    (clip_value : ScannerAxis -> Q -> Q) (clip_resolution : ScannerAxis -> Z -> Z)
    (scanner : Scanner) (c : Call) (s : Logic) :
  timer_matches_state s ->
  completion (run_call clip_value clip_resolution scanner c s) = Returned tt ->
  timer_matches_state (final (run_call clip_value clip_resolution scanner c s)).
Proof.
  intros Hmatch.
  destruct c as [settings | ranges | resolution | frequency | start scan_axes
                | | index | |]; cbn [run_call]; intros Hreturned.
  - apply kept_timer_matches_state; [| exact Hmatch].
    unfold set_scan_settings.
    keeps_auto;
      first [ apply (proj1 (setters_keep_state scanner _ [] 0))
            | apply (proj1 (proj2 (setters_keep_state scanner [] _ 0)))
            | apply (proj2 (proj2 (setters_keep_state scanner [] [] _))) ].
  - rewrite final_then_ret. apply kept_timer_matches_state; [| exact Hmatch].
    apply (proj1 (setters_keep_state scanner ranges [] 0)).
  - rewrite final_then_ret. apply kept_timer_matches_state; [| exact Hmatch].
    apply (proj1 (proj2 (setters_keep_state scanner [] resolution 0))).
  - rewrite final_then_ret. apply kept_timer_matches_state; [| exact Hmatch].
    apply (proj2 (proj2 (setters_keep_state scanner [] [] frequency))).
  - rewrite final_then_ret.
    apply then_ret_returned in Hreturned as [code Hcode].
    apply (toggle_scan_timer_matches_state scanner start scan_axes s code);
      assumption.
  - apply scan_loop_timer_matches_state; assumption.
  - apply kept_timer_matches_state; [| exact Hmatch].
    apply restore_from_history_keeps_state.
  - apply kept_timer_matches_state; [| exact Hmatch].
    unfold history_previous. keeps_auto.
    apply restore_from_history_keeps_state.
  - apply kept_timer_matches_state; [| exact Hmatch].
    unfold history_next. keeps_auto.
    apply restore_from_history_keeps_state.
Qed.

Lemma returning_calls_keep_timer_and_state_in_step_witness :
  timer_matches_state
    (final (run_call (fun _ v => v) (fun _ z => z) Sample.scanner_xy
              (call_toggle_scan true (Some ["x"; "y"])) Sample.logic_idle)).
Proof.
  apply (returning_calls_keep_timer_and_state_in_step (fun _ v => v)
           (fun _ z => z) Sample.scanner_xy
           (call_toggle_scan true (Some ["x"; "y"])) Sample.logic_idle);
    reflexivity.
Defined.
